(** * hacktopus: the flow execution engine of [main.py]

    A shallow embedding of the flow engine ([run_flow_internal]), the task
    executors ([run_alias_async], [run_command_async]), the validator
    ([validate_task], [validate_flow]) and [strip_ansi_codes], followed by
    the properties of the specification stated over these definitions.
    The commands around the engine ([flow_run_command], [exec_command], the
    listings, [summarize_output]) and the argument handling of
    [cli/click_manager.py] are embedded as far as they compute, with
    further properties of the code at the end.

    Conventions of the embedding.
    - A Python [str] is a [string]; every character is read as the code
      point of the same number (0..255).
    - A YAML mapping read with [in], [.get] or [[]] only is a [gmap] or a
      record of optional fields ([None] = key absent); a mapping that the
      code iterates is an association list in insertion order.
    - The file system, the process table and the event loop are outside the
      program: [load_flow], [load_tool], [os.path.isdir], [subprocess.run],
      [urlparse] and the completion order of [asyncio.gather] are
      fields of the record [Host].
    - A Python exception is a value of [exn]; a function that can raise
      returns [outcome A].
    - Calls on [console] and [progress] only display; they are left out. *)

From Stdlib Require Import ZArith Ascii String DecimalString.
From stdpp Require Import base option list gmap strings.

Local Open Scope string_scope.

(** ** Python string primitives *)

Module Py.

(** Code point of a character. *)
Definition ord (c : ascii) : nat := nat_of_ascii c.

Definition in_range (lo hi : nat) (c : ascii) : bool :=
  (lo <=? ord c)%nat && (ord c <=? hi)%nat.

Definition ascii_eqb (a b : ascii) : bool := Ascii.eqb a b.

(** [s.startswith(p)] *)
Fixpoint startswith (p s : string) : bool :=
  match p with
  | EmptyString => true
  | String a p' =>
      match s with
      | EmptyString => false
      | String b s' => ascii_eqb a b && startswith p' s'
      end
  end.

(** [s[n:]] *)
Fixpoint drop (n : nat) (s : string) : string :=
  match n with
  | O => s
  | S k => match s with
           | EmptyString => EmptyString
           | String _ r => drop k r
           end
  end.

(** [s[:n]] *)
Fixpoint take (n : nat) (s : string) : string :=
  match n with
  | O => EmptyString
  | S k => match s with
           | EmptyString => EmptyString
           | String c r => String c (take k r)
           end
  end.

(** [s[2:-2]] *)
Definition slice_2_m2 (s : string) : string :=
  take (String.length s - 4) (drop 2 s).

(** [c in s] for a one-character [c] *)
Fixpoint contains_char (c : ascii) (s : string) : bool :=
  match s with
  | EmptyString => false
  | String b r => ascii_eqb c b || contains_char c r
  end.

(** [s.split(c, 1)]: the text before the first [c] and the text after it;
    [None] when [c] does not occur (the list then has one element). *)
Fixpoint split_once (c : ascii) (s : string) : option (string * string) :=
  match s with
  | EmptyString => None
  | String b r =>
      if ascii_eqb c b then Some (EmptyString, r)
      else match split_once c r with
           | Some (x, y) => Some (String b x, y)
           | None => None
           end
  end.

(** [str.isspace] on one character, for the code points below 256. *)
Definition isspace (c : ascii) : bool :=
  in_range 9 13 c || in_range 28 32 c
  || (ord c =? 133)%nat || (ord c =? 160)%nat.

(** [s.lstrip()] *)
Fixpoint lstrip (s : string) : string :=
  match s with
  | EmptyString => EmptyString
  | String c r => if isspace c then lstrip r else s
  end.

(** [s.rstrip()] *)
Fixpoint rstrip (s : string) : string :=
  match s with
  | EmptyString => EmptyString
  | String c r =>
      match rstrip r with
      | EmptyString => if isspace c then EmptyString else String c EmptyString
      | r' => String c r'
      end
  end.

(** [s.strip()] *)
Definition strip (s : string) : string := rstrip (lstrip s).

(** [s.removeprefix(p)] *)
Definition removeprefix (p s : string) : string :=
  if startswith p s then drop (String.length p) s else s.

(** [sep.join(l)] *)
Fixpoint join (sep : string) (l : list string) : string :=
  match l with
  | [] => EmptyString
  | [x] => x
  | x :: r => x +:+ sep +:+ join sep r
  end.

(** Scan of [s.replace(old, new)] for a non-empty [old]: [skip] counts the
    characters of the current occurrence of [old] still to pass over. *)
Fixpoint replace_scan (old new : string) (skip : nat) (s : string) : string :=
  match s with
  | EmptyString => EmptyString
  | String c r =>
      match skip with
      | S k => replace_scan old new k r
      | O =>
          if startswith old s
          then new +:+ replace_scan old new (String.length old - 1) r
          else String c (replace_scan old new 0 r)
      end
  end.

(** [new] before every character and at the end: what [replace] does with
    an empty [old]. *)
Fixpoint intersperse_all (new s : string) : string :=
  match s with
  | EmptyString => new
  | String c r => new +:+ String c (intersperse_all new r)
  end.

(** [s.replace(old, new)]: every non-overlapping occurrence of [old], found
    from the left, becomes [new]. *)
Definition replace (old new s : string) : string :=
  match old with
  | EmptyString => intersperse_all new s
  | _ => replace_scan old new 0 s
  end.

(** Truth value of a string: [if s]. *)
Definition truthy_str (s : string) : bool :=
  match s with EmptyString => false | _ => true end.

(** Truth value of an optional string ([None] or [str]). *)
Definition truthy_opt (o : option string) : bool :=
  match o with None => false | Some s => truthy_str s end.

(** [s.lstrip(c)] for a one-character [c] *)
Fixpoint lstrip_char (c : ascii) (s : string) : string :=
  match s with
  | EmptyString => EmptyString
  | String b r => if ascii_eqb c b then lstrip_char c r else s
  end.

(** The first piece of [s.split(c)] and the pieces after it. *)
Fixpoint split_pieces (c : ascii) (s : string) : string * list string :=
  match s with
  | EmptyString => (EmptyString, [])
  | String b r =>
      let '(x, l) := split_pieces c r in
      if ascii_eqb c b then (EmptyString, x :: l) else (String b x, l)
  end.

(** [s.split(c)] for a one-character [c] *)
Definition split (c : ascii) (s : string) : list string :=
  let '(x, l) := split_pieces c s in x :: l.

(** [sub in s] *)
Fixpoint contains (sub s : string) : bool :=
  startswith sub s
  || match s with
     | EmptyString => false
     | String _ r => contains sub r
     end.

(** [c.lower()] for the code points below 256: the letters A to Z and the
    capital letters of Latin-1. *)
Definition lower_char (c : ascii) : ascii :=
  if in_range 65 90 c || in_range 192 214 c || in_range 216 222 c
  then ascii_of_nat (ord c + 32)
  else c.

(** [s.lower()] *)
Fixpoint lower (s : string) : string :=
  match s with
  | EmptyString => EmptyString
  | String c r => String (lower_char c) (lower r)
  end.

(** [str(n)] for a length *)
Definition str_nat (n : nat) : string := NilEmpty.string_of_uint (Nat.to_uint n).



End Py.

(** ** [strip_ansi_codes] *)

Definition ESC : ascii := ascii_of_nat 27.

(** The character classes of
    [\x1B(?:[@-Z\\-_]|\[[0-?]*[ -/]*[@-~])]. *)
Definition is_esc (c : ascii) : bool := Py.ascii_eqb c ESC.
(** [[@-Z\\-_]]: [@]..[Z] and [\]..[_] *)
Definition cls_fe (c : ascii) : bool := Py.in_range 64 90 c || Py.in_range 92 95 c.
(** [\[] *)
Definition is_lbracket (c : ascii) : bool := Py.ascii_eqb c "["%char.
(** [[0-?]] *)
Definition cls_param (c : ascii) : bool := Py.in_range 48 63 c.
(** [[ -/]] *)
Definition cls_inter (c : ascii) : bool := Py.in_range 32 47 c.
(** [[@-~]] *)
Definition cls_final (c : ascii) : bool := Py.in_range 64 126 c.

(** Length of the longest prefix in a class: a greedy [cls*]. *)
Fixpoint span (cls : ascii -> bool) (s : string) : nat :=
  match s with
  | EmptyString => 0
  | String c r => if cls c then S (span cls r) else 0
  end.

(** Length of the match of the pattern at the start of [s], if any.  The
    three classes of the second alternative are pairwise disjoint and
    [\[] is not in the class of the first one, so the greedy match is the
    only one and backtracking never finds another. *)
Definition ansi_escape_match (s : string) : option nat :=
  match s with
  | String c0 (String c1 rest) =>
      if is_esc c0 then
        if cls_fe c1 then Some 2
        else if is_lbracket c1 then
          let n1 := span cls_param rest in
          let n2 := span cls_inter (Py.drop n1 rest) in
          match Py.drop n2 (Py.drop n1 rest) with
          | String c _ => if cls_final c then Some (2 + n1 + n2 + 1) else None
          | EmptyString => None
          end
        else None
      else None
  | _ => None
  end.

(** [ansi_escape.sub('', s)]: matches are searched from the left; a match
    is dropped and the search resumes after it.  [skip] counts the
    characters of the current match still to drop. *)
Fixpoint ansi_sub (skip : nat) (s : string) : string :=
  match s with
  | EmptyString => EmptyString
  | String c r =>
      match skip with
      | S k => ansi_sub k r
      | O =>
          match ansi_escape_match s with
          | Some (S k) => ansi_sub k r
          | _ => String c (ansi_sub 0 r)
          end
      end
  end.

Definition strip_ansi_codes (text : string) : string :=
  if Py.truthy_str text then ansi_sub 0 text else text.

(** No ESC character occurs in [s]. *)
Fixpoint esc_free (s : string) : bool :=
  match s with
  | EmptyString => true
  | String c r => negb (is_esc c) && esc_free r
  end.


(** ** Values of the YAML documents *)

(** A YAML scalar, as far as the engine inspects one. *)
Inductive yaml : Type :=
  | YBool (b : bool)
  | YStr (s : string)
  | YInt (z : Z)
  | YNull.

(** [if v] *)
Definition truthy (v : yaml) : bool :=
  match v with
  | YBool b => b
  | YStr s => Py.truthy_str s
  | YInt z => negb (z =? 0)%Z
  | YNull => false
  end.

(** [isinstance(v, bool)] *)
Definition is_bool (v : yaml) : bool :=
  match v with YBool _ => true | _ => false end.

(** [v == s] for a string literal [s] *)
Definition yaml_is (v : yaml) (s : string) : bool :=
  match v with YStr t => String.eqb t s | _ => false end.

(** A mapping that the code iterates: keys are unique, order is insertion
    order. *)
Definition dict (V : Type) : Type := list (string * V).

(** [d.get(k)] *)
Fixpoint dict_get {V} (d : dict V) (k : string) : option V :=
  match d with
  | [] => None
  | (k', v) :: r => if String.eqb k' k then Some v else dict_get r k
  end.

(** [k in d] *)
Definition dict_mem {V} (d : dict V) (k : string) : bool :=
  match dict_get d k with Some _ => true | None => false end.

(** [d[k] = v] for a key that is present: the entry keeps its place. *)
Fixpoint dict_set {V} (d : dict V) (k : string) (v : V) : dict V :=
  match d with
  | [] => [(k, v)]
  | (k', v') :: r =>
      if String.eqb k' k then (k, v) :: r else (k', v') :: dict_set r k v
  end.

(** ** Flow, tool and alias definitions *)

(** A task record.  Its kind is decided by the keys that are present. *)
Record Task : Type := mkTask {
  task_alias : option string;
  task_command : option string;
  task_flow : option string;
  task_settings : option (dict yaml);
  task_variables : option (dict string)
}.

Record StageDef : Type := mkStage {
  stage_tasks : list Task;          (* absent = [[]] *)
  stage_parallel : option yaml;
  stage_distribution : option yaml
}.

(** An entry of the [flow] list: [{stage: name}]. *)
Record StageEntry : Type := mkEntry { entry_stage : option string }.

Record FlowDef : Type := mkFlow {
  flow_stages : gmap string StageDef;   (* absent = empty *)
  flow_order : list StageEntry          (* absent = [[]] *)
}.

Record VarDef : Type := mkVar {
  var_name : string;
  var_transform : option string
}.

Record AliasDef : Type := mkAliasDef {
  alias_command : option string;
  alias_variables : list VarDef     (* absent = [[]] *)
}.

Record ToolConfig : Type := mkTool {
  tool_run_command : option string;
  tool_header_flag : option string;
  tool_accepts_stdin : option yaml
}.

(** [task.get('settings', {}).get(key, True)] *)
Definition setting (task : Task) (key : string) : yaml :=
  match task_settings task with
  | Some settings => default (YBool true) (dict_get settings key)
  | None => YBool true
  end.

(** ** Results and exceptions *)

(** The three shapes of result dictionary the engine builds. *)
#[warnings="-register-all"]
Inductive result : Type :=
  | TaskResult (output : string) (success : bool) (tool : string)
  | ErrorResult (output : string) (success : bool) (error : string)
  | FlowResult (output : option string) (success : bool)
               (stage_results : list (string * list result)).

(** [r['output']] *)
Definition r_output (r : result) : option string :=
  match r with
  | TaskResult o _ _ => Some o
  | ErrorResult o _ _ => Some o
  | FlowResult o _ _ => o
  end.

(** [r['success']] *)
Definition r_success (r : result) : bool :=
  match r with
  | TaskResult _ s _ => s
  | ErrorResult _ s _ => s
  | FlowResult _ s _ => s
  end.

Inductive exn : Type :=
  | KeyError (key : string)
  | ValueError (msg : string)
  | TypeError (msg : string)
  | UnboundLocalError (name : string)
  | OSError (msg : string).

(** Normal return or raised exception. *)
Inductive outcome (A : Type) : Type :=
  | Ok (a : A)
  | Raise (e : exn).
Arguments Ok {A} a.
Arguments Raise {A} e.

#[global] Instance outcome_ret : MRet outcome := fun A a => Ok a.
#[global] Instance outcome_bind : MBind outcome := fun A B f m =>
  match m with
  | Ok a => f a
  | Raise e => Raise e
  end.
#[global] Instance outcome_fmap : FMap outcome := fun A B f m =>
  match m with
  | Ok a => Ok (f a)
  | Raise e => Raise e
  end.

(** A [for] loop whose body can raise. *)
Fixpoint for_each {S A} (body : S -> A -> outcome S) (l : list A) (s : S)
  : outcome S :=
  match l with
  | [] => Ok s
  | a :: r => s' ← body s a; for_each body r s'
  end.

(** What [subprocess.run] does with one command line. *)
Inductive proc : Type :=
  | Completed (stdout stderr : string) (returncode : Z)
  | LaunchFailed (e : exn).

(** The local variable [result] of [run_flow_internal]: not yet assigned,
    a result dictionary, or an exception object left by the loop over the
    gathered results. *)
Inductive binding : Type :=
  | Unbound
  | BoundResult (r : result)
  | BoundException (e : exn).

(** ** The engine *)

Definition dquote : string := String (ascii_of_nat 34) EmptyString.
Definition newline : string := String (ascii_of_nat 10) EmptyString.

(** [f"{{{{{name}}}}}"]: the placeholder of a variable. *)
Definition placeholder (name : string) : string := "{{" +:+ name +:+ "}}".

(** [f"{v}"] for an optional string. *)
Definition fmt_opt (v : option string) : string :=
  match v with Some s => s | None => "None" end.

(** The host system: what the program reads from the file system, the
    process table and the event loop. *)
Record Host : Type := mkHost {
  (** [load_flow(name)]: the flow definition stored under the name, [None]
      for the empty mapping returned when there is none. *)
  load_flow : string -> option FlowDef;
  (** [load_tool(name)]: the tool configuration and its alias catalog. *)
  load_tool : string -> ToolConfig * gmap string AliasDef;
  (** [os.path.isdir] on the directory of a tool. *)
  tool_isdir : string -> bool;
  (** [subprocess.run(cmd, shell=True, input=..., env=...)]; the flag tells
      whether the environment carries the two TLS-related entries. *)
  subprocess_run : bool -> string -> option string -> proc;
  (** [urlparse(value).netloc] *)
  urlparse_netloc : string -> string;
  (** [str(task)] *)
  str_task : Task -> string;
  (** The order in which the event loop completes [n] gathered coroutines. *)
  completion_order : nat -> list nat
}.

Section Engine.

Variable host : Host.

(** [transform_value] of [run_alias_async]. *)
Definition transform_value (value transform_type : string) : string :=
  if String.eqb transform_type "url_to_domain"
  then Py.removeprefix "www." (urlparse_netloc host value)
  else value.

(** First loop of [run_alias_async]: transforms of the declared
    variables. *)
Definition apply_transforms (variables : list VarDef) (vars : dict string)
  : dict string :=
  fold_left
    (fun pv var_def =>
       let vname := var_name var_def in
       match dict_get pv vname, var_transform var_def with
       | Some value, Some tr => dict_set pv vname (transform_value value tr)
       | _, _ => pv
       end)
    variables vars.

(** Second loop of [run_alias_async]: the placeholders of the declared
    variables that have a value. *)
Definition fill_template (variables : list VarDef) (vars : dict string)
    (cmd_template : string) : string :=
  fold_left
    (fun cmd var_def =>
       let vname := var_name var_def in
       match dict_get vars vname with
       | Some value => Py.replace (placeholder vname) value cmd
       | None => cmd
       end)
    variables cmd_template.

(** The command line [run_alias_async] builds. *)
Definition alias_command_line (tool_config : ToolConfig) (alias_def : AliasDef)
    (headers : list (string * string)) (var_values : dict string) : string :=
  let cmd_template := default EmptyString (alias_command alias_def) in
  let variables := alias_variables alias_def in
  let processed_vars := apply_transforms variables var_values in
  let cmd_template := fill_template variables processed_vars cmd_template in
  let full_cmd := fmt_opt (tool_run_command tool_config) +:+ " " +:+ cmd_template in
  let header_flag := default EmptyString (tool_header_flag tool_config) in
  if Py.truthy_str header_flag && negb (bool_decide (headers = []))
  then fold_left
         (fun cmd '(key, value) =>
            cmd +:+ " " +:+ header_flag +:+ " " +:+ dquote
                +:+ key +:+ ": " +:+ value +:+ dquote)
         headers full_cmd
  else full_cmd.

(** [stdout] as [run_proc] returns it. *)
Definition captured (strip_colors : bool) (stdout : string) : string :=
  if strip_colors then strip_ansi_codes stdout else stdout.

Definition run_alias_async (tool_name alias_name : string)
    (input_data : option string) (headers : list (string * string))
    (strip_colors : bool) (var_values : dict string) : outcome result :=
  let '(tool_config, tool_aliases) := load_tool host tool_name in
  match tool_aliases !! alias_name with
  | None => Raise (KeyError alias_name)
  | Some alias_def =>
      let full_cmd := alias_command_line tool_config alias_def headers var_values in
      let label := tool_name +:+ ":" +:+ alias_name in
      (* [run_proc] catches what [subprocess.run] raises and reports -1 *)
      match subprocess_run host true full_cmd input_data with
      | LaunchFailed _ => Ok (TaskResult EmptyString false label)
      | Completed stdout _ rc =>
          if negb (rc =? 0)%Z
          then Ok (TaskResult EmptyString false label)
          else Ok (TaskResult (captured strip_colors stdout) true label)
      end
  end.

(** The loop of [run_command_async] over [var_values.items()]. *)
Definition fill_command (var_values : dict string) (command : string) : string :=
  fold_left
    (fun cmd '(var_name, var_val) => Py.replace (placeholder var_name) var_val cmd)
    var_values command.

Definition run_command_async (command : string) (var_values : dict string)
    (input_data : option string) (strip_colors : bool) : outcome result :=
  let command := fill_command var_values command in
  let label := "command:" +:+ command in
  (* an exception of [run_proc] reaches the [except] of the coroutine *)
  match subprocess_run host false command input_data with
  | LaunchFailed _ => Ok (TaskResult EmptyString false label)
  | Completed stdout _ rc =>
      if negb (rc =? 0)%Z
      then Ok (TaskResult EmptyString false label)
      else Ok (TaskResult (captured strip_colors stdout) true label)
  end.

(** Bindings of a nested flow: a literal, or the parent's value of the
    variable a [{{name}}] entry names (the entry itself when unbound). *)
Definition child_vars (var_values : dict string) (task : Task) : dict string :=
  map (fun '(k, v) =>
         (k, if Py.startswith "{{" v
             then default v (dict_get var_values (Py.slice_2_m2 v))
             else v))
      (default [] (task_variables task)).

(** *** [run_flow_internal]

    The body of the function is written once, over the function [nested]
    that stands for the recursive call at [flow_depth + 1]. *)

Section Body.

Variable nested : FlowDef -> dict string -> option string -> outcome result.
Variable var_values : dict string.
Variable headers : list (string * string).
Variable strip_colors : bool.

(** State of the loop of a chained stage: [current_input], the variable
    [result] and [stage_tools_results]. *)
Record chain_state : Type := mkChain {
  cs_input : option string;
  cs_result : binding;
  cs_results : list result
}.

(** The value of [current_input] a recorded result leaves behind. *)
Definition next_input (task : Task) (r : result) : option string :=
  if r_success r && Py.truthy_opt (r_output r) && truthy (setting task "pipe_output")
  then Some (Py.strip (default EmptyString (r_output r)))
  else None.

(** The input handed to a task: the incoming value unless [pipe_input] is
    switched off. *)
Definition piped_input (task : Task) (incoming : option string) : option string :=
  if truthy (setting task "pipe_input") then incoming else None.

(** The [if 'flow' in task / elif 'alias' in task / elif 'command' in task]
    chain of the chained stage: the new value of the variable [result]. *)
Definition chained_dispatch (task : Task) (chain_input : option string)
    (previous : binding) : outcome binding :=
  match task_flow task with
  | Some flow_name =>
      match load_flow host flow_name with
      | Some child_flow =>
          r ← nested child_flow (child_vars var_values task) chain_input;
          mret (BoundResult r)
      | None =>
          mret (BoundResult
                  (TaskResult EmptyString false
                     ("flow:" +:+ flow_name +:+ " (not found)")))
      end
  | None =>
      match task_alias task with
      | Some alias_str =>
          match Py.split_once ":" alias_str with
          | Some (tool_name, alias_name) =>
              r ← run_alias_async tool_name alias_name chain_input headers
                    strip_colors var_values;
              mret (BoundResult r)
          | None =>
              Raise (ValueError "not enough values to unpack (expected 2, got 1)")
          end
      | None =>
          match task_command task with
          | Some command =>
              r ← run_command_async command var_values chain_input strip_colors;
              mret (BoundResult r)
          | None => mret previous
          end
      end
  end.

(** One iteration of [for task in tasks] of a chained stage. *)
Definition chained_task (st : chain_state) (task : Task) : outcome chain_state :=
  let chain_input := piped_input task (cs_input st) in
  b ← chained_dispatch task chain_input (cs_result st);
  match b with
  | Unbound => Raise (UnboundLocalError "result")
  | BoundException _ => Raise (TypeError "exception object is not subscriptable")
  | BoundResult r =>
      mret {| cs_input := next_input task r;
              cs_result := b;
              cs_results := (cs_results st ++ [r])%list |}
  end.

Definition run_chained (tasks : list Task) (st : chain_state) : outcome chain_state :=
  for_each chained_task tasks st.

(** A coroutine object: nothing of it runs before the event loop runs it.
    It yields a result dictionary, or [None] for [asyncio.sleep(0)]. *)
Definition coroutine : Type := unit -> outcome (option result).

(** The first loop of a broadcast stage: the coroutines, in task order.
    A task of no recognized kind adds none. *)
Definition broadcast_coroutine (previous_stage_output : option string)
    (coros : list coroutine) (task : Task) : outcome (list coroutine) :=
  let broadcast_input := piped_input task previous_stage_output in
  match task_flow task with
  | Some flow_name =>
      match load_flow host flow_name with
      | Some child_flow =>
          let vars := child_vars var_values task in
          mret (coros ++ [fun _ => Some <$> nested child_flow vars broadcast_input])%list
      | None => mret (coros ++ [fun _ => Ok None])%list
      end
  | None =>
      match task_alias task with
      | Some alias_str =>
          match Py.split_once ":" alias_str with
          | Some (tool_name, alias_name) =>
              mret (coros ++
                    [fun _ => Some <$> run_alias_async tool_name alias_name
                                broadcast_input headers strip_colors var_values])%list
          | None =>
              Raise (ValueError "not enough values to unpack (expected 2, got 1)")
          end
      | None =>
          match task_command task with
          | Some command =>
              mret (coros ++
                    [fun _ => Some <$> run_command_async command var_values
                                broadcast_input strip_colors])%list
          | None => mret coros
          end
      end
  end.

(** [asyncio.gather] over the coroutines, with [return_exceptions=True].
    The event loop completes the coroutines in the order [order]; the
    outcome of each is stored in the slot of its coroutine, and the slots
    are returned in the order of the coroutines.  An exception a coroutine
    raises is its outcome. *)
Definition gather_slots {A} (order : list nat) (coros : list (unit -> A))
  : list (option A) :=
  fold_left
    (fun slots i =>
       match coros !! i with
       | Some c => <[i := Some (c tt)]> slots
       | None => slots
       end)
    order (replicate (length coros) None).

Definition gather {A} (order : list nat) (coros : list (unit -> A)) : list A :=
  omap id (gather_slots order coros).

(** State of the loop over the gathered results: the variable [result],
    [stage_tools_results] and [combined_outputs]. *)
Record gather_state : Type := mkGather {
  gs_result : binding;
  gs_results : list result;
  gs_combined : list string
}.

(** One iteration of
    [for ((task_id, task), result) in zip(task_ids, results)]. *)
Definition collect (st : gather_state) (p : Task * outcome (option result))
  : outcome gather_state :=
  let '(task, res) := p in
  match res with
  | Raise e =>
      mret {| gs_result := BoundException e;
              gs_results :=
                (gs_results st ++ [TaskResult EmptyString false (str_task host task)])%list;
              gs_combined := gs_combined st |}
  | Ok None => Raise (TypeError "'NoneType' object is not subscriptable")
  | Ok (Some r) =>
      mret {| gs_result := BoundResult r;
              gs_results := (gs_results st ++ [r])%list;
              gs_combined :=
                if r_success r && Py.truthy_opt (r_output r)
                then (gs_combined st ++ [Py.strip (default EmptyString (r_output r))])%list
                else gs_combined st |}
  end.

(** ["\n".join(combined_outputs) if combined_outputs else None] *)
Definition joined (combined_outputs : list string) : option string :=
  match combined_outputs with
  | [] => None
  | _ => Some (Py.join newline combined_outputs)
  end.

(** What a stage leaves: the variable [result], [stage_tools_results] and
    [current_stage_output]. *)
Definition stage_outcome : Type := binding * list result * option string.

(** The branch [is_parallel and distribution == "broadcast"]. *)
Definition run_broadcast (tasks : list Task)
    (previous_stage_output : option string) (previous : binding)
  : outcome stage_outcome :=
  coros ← for_each (broadcast_coroutine previous_stage_output) tasks [];
  let results := gather (completion_order host (length coros)) coros in
  st ← for_each collect (combine tasks results)
         {| gs_result := previous; gs_results := []; gs_combined := [] |};
  mret (gs_result st, gs_results st, joined (gs_combined st)).

(** The branch [distribution == "chained" and not is_parallel]. *)
Definition run_chained_stage (tasks : list Task)
    (previous_stage_output : option string) (previous : binding)
  : outcome stage_outcome :=
  st ← run_chained tasks
         {| cs_input := previous_stage_output; cs_result := previous;
            cs_results := [] |};
  mret (cs_result st, cs_results st, cs_input st).

(** [stages.get(stage_name, {})] on a missing name. *)
Definition empty_stage : StageDef :=
  {| stage_tasks := []; stage_parallel := None; stage_distribution := None |}.

Definition is_parallel (stage_def : StageDef) : bool :=
  truthy (default (YBool false) (stage_parallel stage_def)).

Definition distribution (stage_def : StageDef) : yaml :=
  default (YStr "broadcast") (stage_distribution stage_def).

(** The two branches of a stage; a stage that fits neither runs nothing. *)
Definition run_stage_def (stage_def : StageDef)
    (previous_stage_output : option string) (previous : binding)
  : outcome stage_outcome :=
  let tasks := stage_tasks stage_def in
  if is_parallel stage_def && yaml_is (distribution stage_def) "broadcast"
  then run_broadcast tasks previous_stage_output previous
  else if yaml_is (distribution stage_def) "chained" && negb (is_parallel stage_def)
  then run_chained_stage tasks previous_stage_output previous
  else mret (previous, [], None).

(** State of the loop over the stages: [previous_stage_output], the
    variable [result] and [stage_results]. *)
Record flow_state : Type := mkFlowState {
  fs_previous : option string;
  fs_result : binding;
  fs_stage_results : list (string * list result)
}.

(** One iteration of [for stage_index, stage_entry in enumerate(flow_order, 1)]. *)
Definition run_stage (stages : gmap string StageDef) (st : flow_state)
    (stage_entry : StageEntry) : outcome flow_state :=
  match entry_stage stage_entry with
  | None => Raise (KeyError "stage")
  | Some stage_name =>
      let stage_def := default empty_stage (stages !! stage_name) in
      '(b, stage_tools_results, current_stage_output) ←
        run_stage_def stage_def (fs_previous st) (fs_result st);
      mret {| fs_previous := current_stage_output;
              fs_result := b;
              fs_stage_results :=
                (fs_stage_results st ++ [(stage_name, stage_tools_results)])%list |}
  end.

(** The function after its depth check. *)
Definition run_flow_body (flow_def : FlowDef) (input_data : option string)
  : outcome result :=
  st ← for_each (run_stage (flow_stages flow_def)) (flow_order flow_def)
         {| fs_previous := input_data; fs_result := Unbound;
            fs_stage_results := [] |};
  mret (FlowResult (fs_previous st) true (fs_stage_results st)).

End Body.

Definition depth_exceeded : result :=
  ErrorResult EmptyString false "Maximum flow nesting depth exceeded".

(** [run_flow_internal] by the number of levels still allowed:
    [6 - flow_depth].  With none left the depth check fails; otherwise the
    nested call runs with one level less. *)
Fixpoint run_flow_levels (levels : nat) (headers : list (string * string))
    (strip_colors : bool) (flow_def : FlowDef) (var_values : dict string)
    (input_data : option string) : outcome result :=
  match levels with
  | O => Ok depth_exceeded
  | S n =>
      run_flow_body
        (fun child_flow child_vars child_input =>
           run_flow_levels n headers strip_colors child_flow child_vars child_input)
        var_values headers strip_colors flow_def input_data
  end.

Definition run_flow_internal (flow_def : FlowDef) (var_values : dict string)
    (input_data : option string) (headers : list (string * string))
    (strip_colors : bool) (flow_depth : nat) : outcome result :=
  run_flow_levels (6 - flow_depth) headers strip_colors flow_def var_values
    input_data.

(** *** Validation *)

(** The settings [validate_task] requires to be boolean. *)
Definition boolean_settings : list string :=
  ["pipe_input"; "pipe_output"; "print_output"].

(** [for setting, value in settings.items()]: the first of the three
    settings whose value is not a boolean. *)
Fixpoint first_non_bool (settings : dict yaml) : option string :=
  match settings with
  | [] => None
  | (setting, value) :: r =>
      if existsb (String.eqb setting) boolean_settings && negb (is_bool value)
      then Some setting
      else first_non_bool r
  end.

(** The group of [{{(.*?)}}] once [{{] is read: the shortest run of
    characters other than a newline that [}}] follows. *)
Fixpoint lazy_group (s : string) : option string :=
  if Py.startswith "}}" s then Some EmptyString
  else match s with
       | EmptyString => None
       | String c r =>
           if Py.ascii_eqb c (ascii_of_nat 10) then None
           else String c <$> lazy_group r
       end.

(** The match of [{{(.*?)}}] at the start of [s]: its group. *)
Definition placeholder_match (s : string) : option string :=
  if Py.startswith "{{" s then lazy_group (Py.drop 2 s) else None.

(** [pattern.findall(s)]; [skip] counts the characters of the current
    match still to pass over. *)
Fixpoint findall_scan (skip : nat) (s : string) : list string :=
  match s with
  | EmptyString => []
  | String c r =>
      match skip with
      | S k => findall_scan k r
      | O =>
          match placeholder_match s with
          | Some name => name :: findall_scan (String.length name + 3) r
          | None => findall_scan 0 r
          end
      end
  end.

Definition findall_placeholders (cmd : string) : list string := findall_scan 0 cmd.

(** The [alias] branch of [validate_task]. *)
Definition validate_alias_task (task : Task) (alias_str : string)
  : bool * option string :=
  let not_in_format :=
    (false, Some ("Alias '" +:+ alias_str +:+ "' not in 'tool:alias' format")) in
  if negb (Py.contains_char ":" alias_str) then not_in_format else
  match Py.split_once ":" alias_str with
  | None => not_in_format   (* not reached: the string holds a colon *)
  | Some (tool_name, alias_name) =>
      if negb (tool_isdir host tool_name)
      then (false, Some ("Tool '" +:+ tool_name +:+ "' directory not found"))
      else
        let '(tool_config, tool_aliases) := load_tool host tool_name in
        match tool_aliases !! alias_name with
        | None =>
            (false, Some ("Alias '" +:+ alias_name +:+ "' not found in tool '"
                            +:+ tool_name +:+ "'."))
        | Some _ =>
            match task_settings task with
            | None => (true, None)
            | Some settings =>
                let header_flag := default EmptyString (tool_header_flag tool_config) in
                let accepts_stdin :=
                  if Py.truthy_str header_flag
                  then default (YBool true) (tool_accepts_stdin tool_config)
                  else YBool true in
                if truthy (default (YBool false) (dict_get settings "pipe_input"))
                   && negb (truthy accepts_stdin)
                then (false, Some ("Tool '" +:+ tool_name
                                     +:+ "' does not accept stdin, but pipe_input is true"))
                else match first_non_bool settings with
                     | Some setting =>
                         (false, Some ("Setting '" +:+ setting +:+ "' must be a boolean"))
                     | None => (true, None)
                     end
            end
        end
  end.

(** The [command] branch of [validate_task]. *)
Definition validate_command_task (task : Task) (cmd : string)
    (var_values : dict string) : bool * option string :=
  match find (fun var_name => negb (dict_mem var_values (Py.strip var_name)))
             (findall_placeholders cmd) with
  | Some var_name =>
      (false, Some ("Variable '" +:+ var_name +:+ "' not provided for command task"))
  | None =>
      match task_settings task with
      | None => (true, None)
      | Some settings =>
          match first_non_bool settings with
          | Some setting =>
              (false, Some ("Setting '" +:+ setting
                              +:+ "' must be a boolean in command task"))
          | None => (true, None)
          end
      end
  end.

(** The [flow] branch of [validate_task]. *)
Definition validate_flow_task (task : Task) (flow_name : string)
    (var_values : dict string) : bool * option string :=
  match load_flow host flow_name with
  | None => (false, Some ("Referenced flow '" +:+ flow_name +:+ "' not found"))
  | Some _ =>
      match find (fun '(_, var_value) =>
                    Py.startswith "{{" var_value
                    && negb (dict_mem var_values (Py.slice_2_m2 var_value)))
                 (default [] (task_variables task)) with
      | Some (_, var_value) =>
          (false, Some ("Parent variable '" +:+ var_value +:+ "' not found"))
      | None => (true, None)
      end
  end.

Definition validate_task (task : Task) (var_values : dict string)
  : bool * option string :=
  match task_alias task with
  | Some alias_str => validate_alias_task task alias_str
  | None =>
      match task_command task with
      | Some cmd => validate_command_task task cmd var_values
      | None =>
          match task_flow task with
          | Some flow_name => validate_flow_task task flow_name var_values
          | None => (false, Some "Task must have either 'alias' or 'command' key.")
          end
      end
  end.

(** [for task in tasks] of [validate_flow]: the message of the first task
    that does not validate. *)
Fixpoint first_invalid_task (tasks : list Task) (var_values : dict string)
  : option (option string) :=
  match tasks with
  | [] => None
  | task :: r =>
      let '(valid, msg) := validate_task task var_values in
      if negb valid then Some msg else first_invalid_task r var_values
  end.

(** The checks of [validate_flow] on one entry of the flow order: [None]
    when the entry passes, the error message otherwise. *)
Definition validate_entry (stages : gmap string StageDef)
    (var_values : dict string) (stage_entry : StageEntry) : option string :=
  match entry_stage stage_entry with
  | None => Some "Stage entry missing 'stage' field"
  | Some stage_name =>
      match stages !! stage_name with
      | None => Some ("Stage '" +:+ stage_name +:+ "' not defined in stages")
      | Some stage_def =>
          match stage_tasks stage_def with
          | [] => Some ("Stage '" +:+ stage_name +:+ "' has no 'tasks' defined.")
          | tasks =>
              if is_parallel stage_def && yaml_is (distribution stage_def) "chained"
              then Some ("Stage '" +:+ stage_name
                           +:+ "' is parallel with distribution='chained' which is not allowed.")
              else match first_invalid_task tasks var_values with
                   | Some msg =>
                       Some ("In stage '" +:+ stage_name +:+ "': " +:+ fmt_opt msg)
                   | None => None
                   end
          end
      end
  end.

(** [for stage_entry in flow_order]: the first error. *)
Fixpoint validate_entries (stages : gmap string StageDef)
    (var_values : dict string) (entries : list StageEntry) : option string :=
  match entries with
  | [] => None
  | stage_entry :: r =>
      match validate_entry stages var_values stage_entry with
      | Some msg => Some msg
      | None => validate_entries stages var_values r
      end
  end.

Definition validate_flow (flow_def : FlowDef) (var_values : dict string)
  : bool * option string :=
  let stages := flow_stages flow_def in
  let flow_order := flow_order flow_def in
  if (size stages =? 0)%nat then (false, Some "No stages defined in flow")
  else match flow_order with
       | [] => (false, Some "No flow order defined")
       | _ =>
           match validate_entries stages var_values flow_order with
           | Some msg => (false, Some msg)
           | None => (true, None)
           end
       end.

(** *** The part of [flow_run_command] between validation and execution *)

Inductive run_report : Type :=
  | Rejected (error_msg : option string)   (* printed; nothing is run *)
  | Ran (r : outcome result).

Definition flow_run (flow_def : FlowDef) (var_values : dict string)
    (headers : list (string * string)) (strip_colors : bool) : run_report :=
  let '(valid, error_msg) := validate_flow flow_def var_values in
  if negb valid then Rejected error_msg
  else Ran (run_flow_internal flow_def var_values None headers strip_colors 0).

End Engine.

(** ** The command line *)

(** What a command does with its arguments: it goes on with a value, or it
    prints a message and returns. *)
Inductive parsed (A : Type) : Type :=
  | Parsed (a : A)
  | Usage (message : string).

Arguments Parsed {A} a.
Arguments Usage {A} message.

(** *** [flow_run_command] *)

(** The loop over [ctx.args]: [--name value] pairs. *)
Fixpoint parse_flow_args (unknown_args : list string) (user_vars : dict string)
  : parsed (dict string) :=
  match unknown_args with
  | [] => Parsed user_vars
  | arg :: rest =>
      if Py.startswith "--" arg
      then
        let var_name := Py.lstrip_char "-" arg in
        match rest with
        | var_value :: rest' =>
            parse_flow_args rest' (dict_set user_vars var_name var_value)
        | [] =>
            Usage ("[red]No value provided for variable '" +:+ var_name
                     +:+ "'[/red]")
        end
      else Usage ("[red]Unexpected argument: " +:+ arg +:+ "[/red]")
  end.

(** The text of the prompt for a variable. *)
Definition prompt_text (var_name : string) : string :=
  "Please provide a value for variable '" +:+ var_name +:+ "'".

(** The loop over [flow_vars]; [prompt] is what the user answers to a
    prompt. *)
Definition bind_flow_vars (prompt : string -> string) (flow_vars : list string)
    (user_vars : dict string) : dict string :=
  fold_left
    (fun var_values var_name =>
       match dict_get user_vars var_name with
       | Some value => dict_set var_values var_name value
       | None => dict_set var_values var_name (prompt (prompt_text var_name))
       end)
    flow_vars [].

Definition invalid_header (header : string) : string :=
  "[red]Invalid header format: '" +:+ header +:+ "'. Use 'Key:Value'[/red]".

(** The loop over [headers]; [':' not in header] is the case in which
    [split] gives one piece. *)
Fixpoint parse_headers (headers : list string)
    (parsed_headers : list (string * string)) : parsed (list (string * string)) :=
  match headers with
  | [] => Parsed parsed_headers
  | header :: rest =>
      match Py.split_once ":" header with
      | None => Usage (invalid_header header)
      | Some (key, value) =>
          parse_headers rest
            (parsed_headers ++ [(Py.strip key, Py.strip value)])%list
      end
  end.

(** [flow_run_command] up to the run of the flow.  [flow_vars] are the
    keys of [flow_def.get('variables', {})]; the results directory and the
    summary that is printed and saved after the run are left out. *)
Definition flow_run_command (host : Host) (prompt : string -> string)
    (flow_name : string) (flow_vars : list string)
    (unknown_args headers : list string) (strip_colors : bool)
  : parsed run_report :=
  match load_flow host flow_name with
  | None => Usage ("[red]Flow '" +:+ flow_name +:+ "' not found.[/red]")
  | Some flow_def =>
      match parse_flow_args unknown_args [] with
      | Usage message => Usage message
      | Parsed user_vars =>
          let var_values := bind_flow_vars prompt flow_vars user_vars in
          match parse_headers headers [] with
          | Usage message => Usage message
          | Parsed parsed_headers =>
              Parsed (flow_run host flow_def var_values parsed_headers strip_colors)
          end
      end
  end.

(** *** [exec_command] *)

(** The header loop of [exec_command]. *)
Fixpoint exec_headers (header_flag : string) (headers : list string)
    (cmd_template : string) : parsed string :=
  match headers with
  | [] => Parsed cmd_template
  | header :: rest =>
      match Py.split_once ":" header with
      | None => Usage (invalid_header header)
      | Some (key, value) =>
          exec_headers header_flag rest
            (cmd_template +:+ " " +:+ header_flag +:+ " " +:+ dquote
               +:+ Py.strip key +:+ ": " +:+ Py.strip value +:+ dquote)
      end
  end.

(** [{var_def['name']: args[i] for i, var_def in enumerate(variables)}],
    for at least as many arguments as variables. *)
Definition var_map (variables : list VarDef) (args : list string) : dict string :=
  fold_left (fun m '(var_def, arg) => dict_set m (var_name var_def) arg)
    (combine variables args) [].

(** The command line [exec_command] hands to [subprocess.run], or the
    message it prints. *)
Definition exec_command (host : Host) (alias_name : string) (args : list string)
    (headers : list string) : parsed string :=
  match Py.split_once ":" alias_name with
  | None => Usage "[red]Please specify alias as tool:alias_name[/red]"
  | Some (tool_name, alias_key) =>
      let '(tool_config, tool_aliases) := load_tool host tool_name in
      match tool_aliases !! alias_key with
      | None =>
          Usage ("[red]Alias '" +:+ alias_key +:+ "' not found in tool '"
                   +:+ tool_name +:+ "'.[/red]")
      | Some alias_def =>
          let cmd_template := default EmptyString (alias_command alias_def) in
          let variables := alias_variables alias_def in
          if (length args <? length variables)%nat
          then Usage "[red]Not all variables provided.[/red]"
          else
            let cmd_template := fill_command (var_map variables args) cmd_template in
            let run_command := default EmptyString (tool_run_command tool_config) in
            if negb (Py.truthy_str run_command)
            then Usage ("[red]Tool '" +:+ tool_name
                          +:+ "' has no run_command defined.[/red]")
            else
              let header_flag := default EmptyString (tool_header_flag tool_config) in
              match
                (if Py.truthy_str header_flag && negb (bool_decide (headers = []))
                 then exec_headers header_flag headers cmd_template
                 else Parsed cmd_template)
              with
              | Usage message => Usage message
              | Parsed cmd_template => Parsed (run_command +:+ " " +:+ cmd_template)
              end
      end
  end.

(** *** The error details of [run_alias_async] and [run_command_async] *)

Definition noise_markers : list string :=
  ["warning:"; "traceback"; "file " +:+ dquote; "line "; "module"; "import";
   "certificate"; "insecurerequest"; "urllib3"].

(** [any(skip in line.lower() for skip in [...])] *)
Definition is_noise (line : string) : bool :=
  existsb (fun skip => Py.contains skip (Py.lower line)) noise_markers.

Definition cleaned_error_lines (stderr : string) : list string :=
  map Py.strip
    (List.filter
       (fun line => Py.truthy_str (Py.strip line) && negb (is_noise line))
       (Py.split (ascii_of_nat 10) stderr)).

Definition cleaned_stderr (stderr : string) : string :=
  if Py.truthy_str stderr
  then Py.join newline (cleaned_error_lines stderr)
  else EmptyString.

(** The text printed after [Details:] when the return code is not 0. *)
Definition error_msg (stderr : string) : string :=
  let cleaned := cleaned_stderr stderr in
  if Py.truthy_str cleaned then cleaned
  else "Command failed to execute properly".

(** *** [summarize_output] *)

Definition summarize_output (output tool_name : string) (show_full : bool)
  : string :=
  if negb (Py.truthy_str output) then "No output"
  else
    let lines := Py.split (ascii_of_nat 10) (Py.strip output) in
    if show_full then Py.strip output
    else if Py.startswith "paramspider:" tool_name
    then
      let params := List.filter (fun line => Py.contains_char "=" line) lines in
      "  - Discovered " +:+ Py.str_nat (length params) +:+ " parameters"
    else if Py.startswith "arjun:" tool_name
    then
      let params := List.filter (fun line => Py.startswith "[+]" line) lines in
      match params with
      | [] => "  - No parameters discovered"
      | _ => Py.join newline params
      end
    else if Py.startswith "katana:" tool_name
    then
      let urls := List.filter (fun line => Py.startswith "http" line) lines in
      "  - Discovered " +:+ Py.str_nat (length urls) +:+ " unique URLs"
    else if Py.startswith "gf:" tool_name
    then
      let matches := List.filter (fun line => Py.startswith "http" line) lines in
      "  - Found " +:+ Py.str_nat (length matches) +:+ " matches"
    else if Py.startswith "command:" tool_name
    then "  - " +:+ Py.str_nat (length lines) +:+ " lines of output"
    else "  - " +:+ Py.str_nat (length lines) +:+ " lines of output".

(** *** The listings: [tools_command] and [flow_list] *)

(** Whether an entry with these tags is listed under the option [--tag]:
    the test of [tools_command] and of [flow_list]. *)
Definition tag_listed (tag : option string) (tags : list string) : bool :=
  match tag with
  | Some text =>
      if Py.truthy_str text
      then
        let tag_lower := Py.lower text in
        existsb (fun t => Py.contains tag_lower (Py.lower t)) tags
      else true
  | None => true
  end.



(** ** [cli/click_manager.py] *)

Module ClickManager.

(** [parse_unknown_args]: the loop over [ctx.args], which goes on after a
    flag without a value and after an unexpected argument. *)
Fixpoint parse_unknown_loop (unknown_args : list string)
    (user_vars : dict (option string)) : dict (option string) :=
  match unknown_args with
  | [] => user_vars
  | arg :: rest =>
      if Py.startswith "--" arg
      then
        let var_name := Py.lstrip_char "-" arg in
        match rest with
        | var_value :: rest' =>
            if negb (Py.startswith "--" var_value)
            then parse_unknown_loop rest' (dict_set user_vars var_name (Some var_value))
            else parse_unknown_loop rest (dict_set user_vars var_name None)
        | [] => parse_unknown_loop rest (dict_set user_vars var_name None)
        end
      else parse_unknown_loop rest user_vars
  end.

Definition parse_unknown_args (unknown_args : list string)
  : dict (option string) :=
  parse_unknown_loop unknown_args [].

(** [validate_unknown_args] *)
Definition validate_unknown_args (prompt : string -> string)
    (extracted_vars : list string) (unknown_args : dict (option string))
  : dict string :=
  fold_left
    (fun flow_args var_name =>
       match dict_get unknown_args var_name with
       | Some (Some value) =>
           if Py.truthy_str value
           then dict_set flow_args var_name value
           else dict_set flow_args var_name (prompt (prompt_text var_name))
       | _ => dict_set flow_args var_name (prompt (prompt_text var_name))
       end)
    extracted_vars [].

End ClickManager.

(** ** Notions used to state the properties *)

(** What a result adds to the output of a broadcast stage: its trimmed
    output when it is a success with non-empty output. *)
Definition contribution (r : result) : option string :=
  if r_success r && Py.truthy_opt (r_output r)
  then Some (Py.strip (default EmptyString (r_output r)))
  else None.

(** The result recorded for a gathered outcome: the result itself, or a
    failed result when the outcome is an exception. *)
Definition records (host : Host) (p : Task * outcome (option result))
    (r : result) : Prop :=
  snd p = Ok (Some r)
  \/ exists e, snd p = Raise e
               /\ r = TaskResult EmptyString false (str_task host (fst p)).

(** The record has one of the three kinds. *)
Definition has_kind (task : Task) : bool :=
  bool_decide (is_Some (task_flow task))
  || bool_decide (is_Some (task_alias task))
  || bool_decide (is_Some (task_command task)).

(** The coroutine of the task can be created and is not the empty one:
    an alias has the form [tool:alias], a nested flow resolves. *)
Definition launches (host : Host) (task : Task) : Prop :=
  match task_flow task with
  | Some flow_name => is_Some (load_flow host flow_name)
  | None =>
      match task_alias task with
      | Some alias_str => is_Some (Py.split_once ":" alias_str)
      | None => True
      end
  end.

(** The same host with another order of completion. *)
Definition with_completion_order (host : Host) (order : nat -> list nat) : Host :=
  {| load_flow := load_flow host; load_tool := load_tool host;
     tool_isdir := tool_isdir host; subprocess_run := subprocess_run host;
     urlparse_netloc := urlparse_netloc host; str_task := str_task host;
     completion_order := order |}.

(** Every coroutine completes exactly once. *)
Definition completes_all (order : nat -> list nat) : Prop :=
  forall n, order n ≡ₚ seq 0 n.




(** The result of a flow that does nothing but invoke itself, seen from
    [levels] levels above the call that exceeds the depth. *)
Fixpoint self_nesting (stage_name : string) (levels : nat) : result :=
  match levels with
  | O => depth_exceeded
  | S n => FlowResult None true [(stage_name, [self_nesting stage_name n])]
  end.

(** The same host with other processes. *)
Definition with_subprocess_run (host : Host)
    (run : bool -> string -> option string -> proc) : Host :=
  {| load_flow := load_flow host; load_tool := load_tool host;
     tool_isdir := tool_isdir host; subprocess_run := run;
     urlparse_netloc := urlparse_netloc host; str_task := str_task host;
     completion_order := completion_order host |}.

(** The record reduced to one kind. *)
Definition only_alias (task : Task) (alias_str : string) : Task :=
  {| task_alias := Some alias_str; task_command := None; task_flow := None;
     task_settings := task_settings task; task_variables := task_variables task |}.

Definition only_command (task : Task) (cmd : string) : Task :=
  {| task_alias := None; task_command := Some cmd; task_flow := None;
     task_settings := task_settings task; task_variables := task_variables task |}.

(** The message of [validate_flow] for a parallel chained stage. *)
Definition parallel_chained_msg (stage_name : string) : string :=
  "Stage '" +:+ stage_name
    +:+ "' is parallel with distribution='chained' which is not allowed.".

(** Templates in which braces only delimit placeholders. *)

Definition is_brace (c : ascii) : bool :=
  Py.ascii_eqb c "{"%char || Py.ascii_eqb c "}"%char.

(** No brace occurs in [s]. *)
Fixpoint brace_free (s : string) : bool :=
  match s with
  | EmptyString => true
  | String c r => negb (is_brace c) && brace_free r
  end.

(** A piece of a template: literal text, or the placeholder of a name. *)
Inductive token : Type :=
  | Lit (text : string)
  | Hole (name : string).

Definition token_text (t : token) : string :=
  match t with Lit text => text | Hole name => name end.

Definition render_token (t : token) : string :=
  match t with Lit text => text | Hole name => placeholder name end.

(** The template that a list of pieces spells. *)
Fixpoint render (ts : list token) : string :=
  match ts with
  | [] => EmptyString
  | t :: r => render_token t +:+ render r
  end.

(** The pieces are free of braces. *)
Definition plain (ts : list token) : Prop :=
  Forall (fun t => brace_free (token_text t) = true) ts.

(** A placeholder with a bound name becomes the value; anything else
    stays. *)
Definition bind_token (vars : dict string) (t : token) : token :=
  match t with
  | Lit text => Lit text
  | Hole name =>
      match dict_get vars name with
      | Some value => Lit value
      | None => Hole name
      end
  end.

(** [name] is the name of one of the variables an alias declares. *)
Definition declared (variables : list VarDef) (name : string) : bool :=
  existsb (fun var_def => String.eqb (var_name var_def) name) variables.

(** As [bind_token], for the declared variables only. *)
Definition bind_declared (variables : list VarDef) (vars : dict string)
    (t : token) : token :=
  match t with
  | Lit text => Lit text
  | Hole name => if declared variables name then bind_token vars t else t
  end.

(** Every character of [s] is in the class. *)
Fixpoint all_in (cls : ascii -> bool) (s : string) : bool :=
  match s with
  | EmptyString => true
  | String c r => cls c && all_in cls r
  end.

(** A control sequence: ESC, [[], parameter characters, intermediate
    characters and a final character. *)
Definition csi (params inter : string) (final : ascii) : string :=
  String ESC (String "[" (params +:+ inter +:+ String final EmptyString)).

(** A result that reports a failure carries the empty output, and a flow
    result reports success, at every level of the result. *)
Fixpoint result_ok (r : result) : bool :=
  match r with
  | TaskResult output success _ => success || negb (Py.truthy_str output)
  | ErrorResult output success _ => success || negb (Py.truthy_str output)
  | FlowResult _ success stage_results =>
      success
      && forallb (fun stage => let '(_, results) := stage in forallb result_ok results)
           stage_results
  end.

(** The same of the variable [result]. *)
Definition binding_ok (b : binding) : bool :=
  match b with BoundResult r => result_ok r | _ => true end.

(** The entry a broadcast stage records for a task, read off what the
    task yields when it is run alone on the same input: its result, or a
    failed result when it raises. *)
Definition recorded_alone (host : Host)
    (nested : FlowDef -> dict string -> option string -> outcome result)
    (var_values : dict string) (headers : list (string * string))
    (strip_colors : bool) (input : option string) (task : Task) : result :=
  match chained_dispatch host nested var_values headers strip_colors task
          (piped_input task input) Unbound with
  | Ok (BoundResult r) => r
  | _ => TaskResult EmptyString false (str_task host task)
  end.

(** What the coroutine of a task yields, read off the task run alone. *)
Definition run_alone (host : Host)
    (nested : FlowDef -> dict string -> option string -> outcome result)
    (var_values : dict string) (headers : list (string * string))
    (strip_colors : bool) (input : option string) (task : Task)
  : outcome (option result) :=
  match chained_dispatch host nested var_values headers strip_colors task
          (piped_input task input) Unbound with
  | Ok (BoundResult r) => Ok (Some r)
  | Ok _ => Ok None
  | Raise e => Raise e
  end.

(** The result a chained stage records for a nested flow that does not
    resolve. *)
Definition flow_not_found (flow_name : string) : result :=
  TaskResult EmptyString false ("flow:" +:+ flow_name +:+ " (not found)").

(** What [validate_flow] requires of an entry of the flow order. *)
Definition entry_valid (host : Host) (stages : gmap string StageDef)
    (var_values : dict string) (stage_entry : StageEntry) : Prop :=
  exists stage_name stage_def,
    entry_stage stage_entry = Some stage_name
    /\ stages !! stage_name = Some stage_def
    /\ stage_tasks stage_def <> []
    /\ is_parallel stage_def && yaml_is (distribution stage_def) "chained" = false
    /\ Forall (fun task => fst (validate_task host task var_values) = true)
         (stage_tasks stage_def).


(** Concatenation of a list of strings. *)
Definition concat_strings (l : list string) : string :=
  fold_right String.append EmptyString l.

(** The text [run_alias_async] appends for one header. *)
Definition header_argument (header_flag : string) (header : string * string)
  : string :=
  " " +:+ header_flag +:+ " " +:+ dquote +:+ fst header +:+ ": " +:+ snd header
      +:+ dquote.

(** No newline occurs in [s]. *)
Fixpoint newline_free (s : string) : bool :=
  match s with
  | EmptyString => true
  | String c r => negb (Py.ascii_eqb c (ascii_of_nat 10)) && newline_free r
  end.

(** The names of the placeholders of a template, in order. *)
Definition hole_names (ts : list token) : list string :=
  omap (fun t => match t with Hole name => Some name | Lit _ => None end) ts.

(** The names of the placeholders carry neither a newline nor blanks
    around them. *)
Definition tidy_names (ts : list token) : Prop :=
  Forall (fun name => newline_free name = true /\ Py.strip name = name)
    (hole_names ts).

(** Tokens taken two by two. *)
Definition paired (pairs : list (string * string)) : list string :=
  flat_map (fun p => [fst p; snd p]) pairs.

(** The arguments [--name value] that give a list of bindings. *)
Definition flag_args (bindings : list (string * string)) : list string :=
  flat_map (fun kv => ["--" +:+ fst kv; snd kv]) bindings.

(** The bindings of the flow variables: for each one the value that is
    given, or else the answer to the prompt. *)
Definition bound_vars (prompt : string -> string) (flow_vars : list string)
    (given : dict string) : dict string :=
  map (fun var_name =>
         (var_name,
          default (prompt (prompt_text var_name)) (dict_get given var_name)))
    flow_vars.

(** A header as it is written on the command line. *)
Definition header_text (header : string * string) : string :=
  fst header +:+ ":" +:+ snd header.

(** The key holds no colon, and key and value carry no blanks around
    them. *)
Definition header_tidy (header : string * string) : Prop :=
  Py.contains_char ":" (fst header) = false
  /\ Py.strip (fst header) = fst header
  /\ Py.strip (snd header) = snd header.

(** ** A sample host

    Concrete tools, flows and processes on which the engine is run. *)

Module Sample.

(** An escape sequence right after a lone ESC: a pass removes the
    sequence, and the ESC is then followed by [A]. *)
Definition esc_esc_seq : string := String ESC (String ESC "[mA").

Definition red_text : string :=
  String ESC "[1;31mred" +:+ String ESC "[0m!".

Definition command_task (cmd : string) : Task :=
  {| task_alias := None; task_command := Some cmd; task_flow := None;
     task_settings := None; task_variables := None |}.

Definition alias_task (a : string) : Task :=
  {| task_alias := Some a; task_command := None; task_flow := None;
     task_settings := None; task_variables := None |}.

Definition flow_task (f : string) : Task :=
  {| task_alias := None; task_command := None; task_flow := Some f;
     task_settings := None; task_variables := None |}.

Definition chained_stage (tasks : list Task) : StageDef :=
  {| stage_tasks := tasks; stage_parallel := None;
     stage_distribution := Some (YStr "chained") |}.

Definition broadcast_stage (tasks : list Task) : StageDef :=
  {| stage_tasks := tasks; stage_parallel := Some (YBool true);
     stage_distribution := None |}.

Definition entry (name : string) : StageEntry := {| entry_stage := Some name |}.

(** The tool [nmap] with one alias, [scan]. *)
Definition nmap_scan : AliasDef :=
  {| alias_command := Some "-sV {{target}} -p {{ports}}";
     alias_variables := [ {| var_name := "target"; var_transform := None |} ] |}.

Definition sample_load_tool (name : string) : ToolConfig * gmap string AliasDef :=
  if String.eqb name "nmap"
  then ({| tool_run_command := Some "nmap"; tool_header_flag := None;
           tool_accepts_stdin := None |},
        {[ "scan" := nmap_scan ]})
  else ({| tool_run_command := None; tool_header_flag := None;
           tool_accepts_stdin := None |}, ∅).

Definition sample_tool_isdir (name : string) : bool := String.eqb name "nmap".

(** A flow whose only task invokes the flow itself. *)
Definition loop_flow : FlowDef :=
  {| flow_stages := {[ "again" := chained_stage [flow_task "loop"] ]};
     flow_order := [entry "again"] |}.

(** A flow that names an alias missing from the catalog, and a flow that
    invokes it. *)
Definition child_flow : FlowDef :=
  {| flow_stages :=
       {[ "scan" := chained_stage [alias_task "nmap:missing"; command_task "echo a"] ]};
     flow_order := [entry "scan"] |}.

Definition parent_flow : FlowDef :=
  {| flow_stages :=
       {[ "nested" := chained_stage [flow_task "child"; command_task "echo b"] ]};
     flow_order := [entry "nested"] |}.

Definition sample_load_flow (name : string) : option FlowDef :=
  if String.eqb name "loop" then Some loop_flow
  else if String.eqb name "child" then Some child_flow
  else if String.eqb name "parent" then Some parent_flow
  else None.

(** [echo a] and [echo b] print a line, [cat] copies its input, any other
    command fails with exit code 1. *)
Definition sample_subprocess_run (tls_env : bool) (cmd : string) (input : option string)
  : proc :=
  if String.eqb cmd "echo a" then Completed ("a" +:+ newline) EmptyString 0
  else if String.eqb cmd "echo b" then Completed ("b" +:+ newline) EmptyString 0
  else if String.eqb cmd "cat" then Completed (default EmptyString input) EmptyString 0
  else Completed EmptyString "not found" 1.

Definition sample_urlparse_netloc (value : string) : string := value.

Definition sample_str_task (task : Task) : string := "{...}".

(** Coroutines complete last to first. *)
Definition sample_completion_order (n : nat) : list nat := rev (seq 0 n).

(** A stage that is parallel and chained, which the flow order leaves out. *)
Definition spare_stage : StageDef :=
  {| stage_tasks := [command_task "echo b"];
     stage_parallel := Some (YBool true);
     stage_distribution := Some (YStr "chained") |}.

Definition unreferenced_flow : FlowDef :=
  {| flow_stages :=
       {[ "run" := chained_stage [command_task "echo a"];
          "spare" := spare_stage ]};
     flow_order := [entry "run"] |}.

(** A record with two kinds. *)
Definition two_kinds : Task :=
  {| task_alias := Some "nmap:scan"; task_command := Some "echo {{unset}}";
     task_flow := None; task_settings := None; task_variables := None |}.

(** Three commands broadcast, then two chained. *)
Definition two_stage_flow : FlowDef :=
  {| flow_stages :=
       {[ "fan" := broadcast_stage
                     [command_task "echo a"; command_task "echo b"; command_task "false"];
          "pipe" := chained_stage [command_task "cat"; command_task "cat"] ]};
     flow_order := [entry "fan"; entry "pipe"] |}.

(** The template of [nmap_scan] in pieces, and bindings for it. *)
Definition scan_template : list token :=
  [Lit "-sV "; Hole "target"; Lit " -p "; Hole "ports"].

Definition scan_vars : dict string := [("target", "10.0.0.1"); ("ports", "80")].

(** A [cat] that keeps its output to itself. *)
Definition quiet_cat : Task :=
  {| task_alias := None; task_command := Some "cat"; task_flow := None;
     task_settings := Some [("pipe_output", YBool false)];
     task_variables := None |}.

Definition pipe_tasks : list Task :=
  [command_task "echo a"; quiet_cat; command_task "cat"].

Definition fan_tasks : list Task :=
  [command_task "echo a"; command_task "echo b"; command_task "false"].

Definition echo_a_result : result :=
  TaskResult ("a" +:+ newline) true "command:echo a".

Definition echo_b_result : result :=
  TaskResult ("b" +:+ newline) true "command:echo b".

Definition false_result : result :=
  TaskResult EmptyString false "command:false".

Definition a_b : string := "a" +:+ newline +:+ "b".

(** The state of a chained loop before any task, and after [echo a]. *)
Definition start : chain_state :=
  {| cs_input := None; cs_result := Unbound; cs_results := [] |}.

Definition after_echo : chain_state :=
  {| cs_input := Some "a"; cs_result := BoundResult echo_a_result;
     cs_results := [echo_a_result] |}.

(** No nested flow is ever entered. *)
Definition no_nested : FlowDef -> dict string -> option string -> outcome result :=
  fun _ _ _ => Ok depth_exceeded.

(** What [two_stage_flow] returns. *)
Definition two_stage_result : result :=
  FlowResult (Some a_b) true
    [("fan", [echo_a_result; echo_b_result; false_result]);
     ("pipe", [TaskResult a_b true "command:cat";
               TaskResult a_b true "command:cat"])].

(** A stage with neither [parallel] nor [distribution]. *)
Definition idle_stage : StageDef :=
  {| stage_tasks := [command_task "echo a"]; stage_parallel := None;
     stage_distribution := None |}.

Definition idle_stages : gmap string StageDef := {[ "idle" := idle_stage ]}.

Definition fed : flow_state :=
  {| fs_previous := Some "input"; fs_result := Unbound; fs_stage_results := [] |}.

(** A flow whose order names the parallel chained stage. *)
Definition rejected_flow : FlowDef :=
  {| flow_stages := {[ "spare" := spare_stage ]};
     flow_order := [entry "spare"] |}.

(** A record with no kind. *)
Definition no_kind : Task :=
  {| task_alias := None; task_command := None; task_flow := None;
     task_settings := None; task_variables := None |}.

Definition host : Host :=
  {| load_flow := sample_load_flow; load_tool := sample_load_tool; tool_isdir := sample_tool_isdir;
     subprocess_run := sample_subprocess_run; urlparse_netloc := sample_urlparse_netloc;
     str_task := sample_str_task; completion_order := sample_completion_order |}.



(** A nested-flow record that passes a value of the caller and a literal. *)
Definition nested_with_vars : Task :=
  {| task_alias := None; task_command := None; task_flow := Some "loop";
     task_settings := None;
     task_variables := Some [("target", "{{domain}}"); ("mode", "fast")] |}.

Definition caller_vars : dict string := [("domain", "example.com")].

(** A broadcast stage with a nested flow that does not resolve. *)
Definition ghost_tasks : list Task :=
  [command_task "echo a"; flow_task "ghost"; command_task "echo b"].

(** Bindings given on a command line, one of them twice, headers, and a
    user who answers every prompt alike. *)
Definition given : list (string * string) :=
  [("target", "a.example"); ("ports", "80"); ("target", "b.example")].

Definition sample_headers : list (string * string) :=
  [("User-Agent", "Mozilla/5.0"); ("Authorization", "Bearer a:b")].

Definition sample_prompt (text : string) : string := "asked".

(** A tool with a header flag, on a host that is otherwise the same. *)
Definition curl_get : AliasDef :=
  {| alias_command := Some "-s {{url}}";
     alias_variables := [ {| var_name := "url"; var_transform := None |} ] |}.

Definition curl_load_tool (name : string) : ToolConfig * gmap string AliasDef :=
  if String.eqb name "curl"
  then ({| tool_run_command := Some "curl"; tool_header_flag := Some "-H";
           tool_accepts_stdin := None |},
        {[ "get" := curl_get ]})
  else sample_load_tool name.

Definition curl_host : Host :=
  {| load_flow := sample_load_flow; load_tool := curl_load_tool;
     tool_isdir := sample_tool_isdir; subprocess_run := sample_subprocess_run;
     urlparse_netloc := sample_urlparse_netloc; str_task := sample_str_task;
     completion_order := sample_completion_order |}.

End Sample.


(** * Properties *)

(** ** Python primitives *)

(** [s.split(c, 1)] has two elements exactly when [c in s]. *)
Lemma split_once_contains (c : ascii) (s : string) :
  Py.contains_char c s = true <-> is_Some (Py.split_once c s).
Proof.
  induction s as [|b r IH]; cbn.
  - split; [discriminate | now intros []].
  - destruct (Py.ascii_eqb c b); cbn; [split; eauto|].
    rewrite IH. destruct (Py.split_once c r) as [[x y]|]; split; eauto;
      now intros [].
Qed.

(** ** [strip_ansi_codes] *)

Lemma ansi_escape_match_not_esc c r :
  is_esc c = false -> ansi_escape_match (String c r) = None.
Proof.
  intros Hc. unfold ansi_escape_match.
  destruct r as [|c1 rest]; [reflexivity|]. now rewrite Hc.
Qed.

Lemma ansi_sub_esc_free s : esc_free s = true -> ansi_sub 0 s = s.
Proof.
  induction s as [|c r IH]; [reflexivity|].
  cbn [esc_free ansi_sub]. intros [Hc Hr]%andb_prop.
  apply negb_true_iff in Hc.
  rewrite (ansi_escape_match_not_esc _ _ Hc), (IH Hr). reflexivity.
Qed.

Lemma strip_ansi_codes_esc_free s :
  esc_free s = true -> strip_ansi_codes s = s.
Proof.
  intros H. unfold strip_ansi_codes.
  destruct (Py.truthy_str s); [now apply ansi_sub_esc_free | reflexivity].
Qed.

(** C9, as stated, fails: one pass over ESC ESC [[mA] leaves ESC [A],
    which a second pass removes. *)
Lemma strip_ansi_codes_not_idempotent :
  strip_ansi_codes (strip_ansi_codes Sample.esc_esc_seq)
  <> strip_ansi_codes Sample.esc_esc_seq.
Proof. vm_compute. discriminate. Qed.

(** C9 (amended): stripping is idempotent on every string whose stripped
    form holds no ESC character. *)
Theorem strip_ansi_codes_idempotent_esc_free (s : string) :
  esc_free (strip_ansi_codes s) = true ->
  strip_ansi_codes (strip_ansi_codes s) = strip_ansi_codes s.
Proof. apply strip_ansi_codes_esc_free. Qed.

Lemma strip_ansi_codes_idempotent_witness :
  strip_ansi_codes Sample.red_text = "red!" /\
  strip_ansi_codes (strip_ansi_codes Sample.red_text) = strip_ansi_codes Sample.red_text.
Proof.
  split; [reflexivity|].
  apply (strip_ansi_codes_idempotent_esc_free Sample.red_text). reflexivity.
Defined.


(** ** Loops *)

Lemma for_each_app {S A} (body : S -> A -> outcome S) (l1 l2 : list A) (s : S) :
  for_each body (l1 ++ l2)%list s = (s' ← for_each body l1 s; for_each body l2 s').
Proof.
  revert s. induction l1 as [|a l1 IH]; intros s; [reflexivity|].
  cbn [for_each app]. destruct (body s a) as [s1|e]; cbn; [apply IH | reflexivity].
Qed.

Lemma for_each_snoc {S A} (body : S -> A -> outcome S) (l : list A) (a : A) (s : S) :
  for_each body (l ++ [a])%list s = (s' ← for_each body l s; body s' a).
Proof.
  rewrite for_each_app. destruct (for_each body l s) as [s'|e]; cbn; [|reflexivity].
  now destruct (body s' a).
Qed.

Lemma bind_ok {A B} (m : outcome A) (f : A -> outcome B) (b : B) :
  (a ← m; f a) = Ok b -> exists a, m = Ok a /\ f a = Ok b.
Proof. destruct m as [a|e]; cbn; [eauto | discriminate]. Qed.

(** ** Chained stages *)

Section Chained.

Variable host : Host.
Variable nested : FlowDef -> dict string -> option string -> outcome result.
Variable var_values : dict string.
Variable headers : list (string * string).
Variable strip_colors : bool.

Abbreviation step := (chained_task host nested var_values headers strip_colors).
Abbreviation loop := (run_chained host nested var_values headers strip_colors).

(** A completed iteration records one result and derives the running
    value from that result and the task's own settings alone. *)
Lemma chained_task_ok (st st' : chain_state) (task : Task) :
  step st task = Ok st' ->
  exists r, cs_result st' = BoundResult r
            /\ cs_results st' = (cs_results st ++ [r])%list
            /\ cs_input st' = next_input task r.
Proof.
  unfold chained_task. intros H.
  apply bind_ok in H as (b & _ & H).
  destruct b as [|r|e]; try discriminate.
  injection H as <-. exists r. auto.
Qed.

Lemma run_chained_length (tasks : list Task) (st0 st : chain_state) :
  loop tasks st0 = Ok st ->
  length (cs_results st) = length (cs_results st0) + length tasks.
Proof.
  revert st0. induction tasks as [|t tasks IH]; intros st0 H; cbn in H.
  - injection H as <-. cbn. lia.
  - apply bind_ok in H as (st1 & H1 & H2).
    apply chained_task_ok in H1 as (r & _ & Hr & _).
    rewrite (IH _ H2), Hr, length_app. cbn. lia.
Qed.

(** What a record with a kind leaves in the variable [result] is its own
    result, whatever the variable held. *)
Lemma chained_dispatch_own (task : Task) (input : option string)
    (b1 b2 : binding) :
  has_kind task = true ->
  chained_dispatch host nested var_values headers strip_colors task input b1
  = chained_dispatch host nested var_values headers strip_colors task input b2.
Proof.
  unfold has_kind, chained_dispatch. intros Hkind.
  destruct (task_flow task); [reflexivity|].
  destruct (task_alias task); [reflexivity|].
  destruct (task_command task); [reflexivity|].
  discriminate Hkind.
Qed.

(** The stage output is the running value at the end of the loop: the
    stage input for an empty task list, else what the last recorded result
    leaves. *)
Lemma run_chained_last (tasks : list Task) (st0 st : chain_state) :
  loop tasks st0 = Ok st ->
  match last tasks with
  | None => st = st0
  | Some task => exists r, last (cs_results st) = Some r
                           /\ cs_input st = next_input task r
  end.
Proof.
  destruct tasks as [|t0 tasks _] using rev_ind; intros H.
  - cbn in H. now injection H.
  - rewrite last_snoc. unfold run_chained in H. rewrite for_each_snoc in H.
    apply bind_ok in H as (st1 & _ & H).
    apply chained_task_ok in H as (r & _ & Hr & Hi).
    exists r. rewrite Hr, last_snoc. auto.
Qed.



(** C1: in a chained stage, once the tasks up to position [i] have run,
    the running value is the trimmed output of the result recorded for task
    [i] when that result is a success with non-empty output and the task
    does not switch [pipe_output] off, and is absent otherwise, whatever
    the state the loop started from and whatever the tasks before [i]
    produced; for a record with a kind the recorded result is the task's
    own, obtained on the running value the task found; task [i+1] is run on
    the new running value (on nothing when it switches [pipe_input] off);
    the output of the stage is the running value after the last task. *)
Theorem chained_running_value (tasks : list Task) (i : nat) (task : Task)
    (st0 st : chain_state) :
  tasks !! i = Some task ->
  loop (take (S i) tasks) st0 = Ok st ->
  (exists st_before r,
      loop (take i tasks) st0 = Ok st_before
      /\ cs_results st !! (length (cs_results st0) + i) = Some r
      /\ cs_input st =
           (if r_success r && Py.truthy_opt (r_output r)
               && truthy (setting task "pipe_output")
            then Some (Py.strip (default EmptyString (r_output r)))
            else None)
      /\ (has_kind task = true ->
          forall b,
            chained_dispatch host nested var_values headers strip_colors task
              (if truthy (setting task "pipe_input")
               then cs_input st_before else None) b
            = Ok (BoundResult r)))
  /\ (forall next, tasks !! S i = Some next ->
        loop (take (S (S i)) tasks) st0 =
          (b ← chained_dispatch host nested var_values headers strip_colors next
                 (if truthy (setting next "pipe_input") then cs_input st else None)
                 (cs_result st);
           match b with
           | BoundResult r' =>
               Ok {| cs_input := next_input next r'; cs_result := b;
                     cs_results := (cs_results st ++ [r'])%list |}
           | Unbound => Raise (UnboundLocalError "result")
           | BoundException _ =>
               Raise (TypeError "exception object is not subscriptable")
           end))
  /\ (forall input previous b' results out,
        run_chained_stage host nested var_values headers strip_colors tasks
          input previous = Ok (b', results, out) ->
        exists t r,
          last tasks = Some t /\ last results = Some r
          /\ out =
               if r_success r && Py.truthy_opt (r_output r)
                  && truthy (setting t "pipe_output")
               then Some (Py.strip (default EmptyString (r_output r)))
               else None).
Proof.
  intros Hi Hrun. split; [|split].
  - unfold run_chained in *.
    rewrite (take_S_r _ _ _ Hi), for_each_snoc in Hrun.
    apply bind_ok in Hrun as (st1 & H1 & H2).
    pose proof (run_chained_length _ _ _ H1) as Hlen.
    rewrite length_take_le in Hlen by (apply lookup_lt_Some in Hi; lia).
    pose proof H2 as Hstep.
    apply chained_task_ok in H2 as (r & Hb & Hr & Hin).
    exists st1, r. split; [exact H1|]. split; [|split; [exact Hin|]].
    + rewrite Hr, lookup_app_r by lia.
      now replace (_ + i - _) with 0 by lia.
    + intros Hkind b. unfold chained_task in Hstep.
      apply bind_ok in Hstep as (b0 & Hdispatch & Hret).
      rewrite (chained_dispatch_own _ _ b (cs_result st1) Hkind).
      unfold piped_input in Hdispatch. rewrite Hdispatch. f_equal.
      destruct b0 as [|r0|e]; try discriminate.
      injection Hret as <-. cbn in Hb. exact Hb.
  - intros next Hnext. unfold run_chained in *.
    rewrite (take_S_r _ _ _ Hnext), for_each_snoc, Hrun. reflexivity.
  - intros input previous b' results out Hstage.
    unfold run_chained_stage in Hstage.
    apply bind_ok in Hstage as (st_end & Hloop & Hret).
    injection Hret as _ <- <-.
    apply run_chained_last in Hloop.
    destruct (last tasks) as [t|] eqn:Hlast.
    + destruct Hloop as (r & Hr & Hin). exists t, r. auto.
    + apply last_None in Hlast. subst tasks. discriminate.
Qed.

End Chained.

(** ** [gather] *)

Section Gather.

Context {A : Type}.
Implicit Types (coros : list (unit -> A)) (slots : list (option A))
  (order : list nat).

Abbreviation fill coros :=
  (fun slots i =>
     match coros !! i with
     | Some c => <[i := Some (c tt)]> slots
     | None => slots
     end).

Lemma fill_length coros order slots :
  length (fold_left (fill coros) order slots) = length slots.
Proof.
  revert slots. induction order as [|j order IH]; intros slots; [reflexivity|].
  cbn [fold_left]. rewrite IH. destruct (coros !! j); [apply length_insert | reflexivity].
Qed.

(** A slot holds the outcome of its coroutine once the coroutine has
    completed, and keeps its content otherwise. *)
Lemma fill_lookup coros order slots i :
  length slots = length coros ->
  fold_left (fill coros) order slots !! i =
    match coros !! i with
    | Some c => if decide (i ∈ order) then Some (Some (c tt)) else slots !! i
    | None => slots !! i
    end.
Proof.
  revert slots. induction order as [|j order IH]; intros slots Hlen.
  - cbn [fold_left]. destruct (coros !! i); [|reflexivity].
    rewrite decide_False; [reflexivity | apply not_elem_of_nil].
  - cbn [fold_left]. destruct (coros !! j) as [cj|] eqn:Hj.
    + rewrite IH by (now rewrite length_insert).
      destruct (coros !! i) as [ci|] eqn:Hci.
      * destruct (decide (i = j)) as [->|Hne].
        -- rewrite Hj in Hci. injection Hci as ->.
           rewrite (decide_True (P := j ∈ j :: order)) by apply list_elem_of_here.
           destruct (decide (j ∈ order)); [reflexivity|].
           apply list_lookup_insert_eq. rewrite Hlen. now apply lookup_lt_Some in Hj.
        -- rewrite list_lookup_insert_ne by congruence.
           destruct (decide (i ∈ order)) as [Hin|Hnin].
           ++ rewrite decide_True; [reflexivity | now apply list_elem_of_further].
           ++ rewrite decide_False; [reflexivity|].
              intros [?|?]%elem_of_cons; congruence.
      * apply list_lookup_insert_ne. intros ->. congruence.
    + rewrite IH by assumption.
      destruct (coros !! i) as [ci|] eqn:Hci; [|reflexivity].
      destruct (decide (i ∈ order)) as [Hin|Hnin].
      * rewrite decide_True; [reflexivity | now apply list_elem_of_further].
      * rewrite decide_False; [reflexivity|].
        intros [->|?]%elem_of_cons; congruence.
Qed.

(** Whatever the order of completion, [gather] returns the outcomes in the
    order of the coroutines. *)
Lemma gather_in_order coros order :
  order ≡ₚ seq 0 (length coros) ->
  gather order coros = map (fun c => c tt) coros.
Proof.
  intros Hperm. unfold gather, gather_slots.
  assert (fold_left (fill coros) order (replicate (length coros) None)
          = map (fun c => Some (c tt)) coros) as ->.
  { apply list_eq. intros i.
    rewrite fill_lookup by apply length_replicate.
    rewrite list_lookup_fmap.
    destruct (coros !! i) as [c|] eqn:Hc; cbn.
    - rewrite decide_True; [reflexivity|].
      rewrite Hperm. apply elem_of_seq. apply lookup_lt_Some in Hc. lia.
    - apply lookup_replicate_None. apply lookup_ge_None in Hc. lia. }
  clear Hperm. induction coros as [|c coros IH]; [reflexivity|].
  cbn. now rewrite IH.
Qed.

End Gather.

(** ** Broadcast stages *)

Section Broadcast.

Variable host : Host.
Variable nested : FlowDef -> dict string -> option string -> outcome result.
Variable var_values : dict string.
Variable headers : list (string * string).
Variable strip_colors : bool.

Abbreviation launch :=
  (broadcast_coroutine host nested var_values headers strip_colors).

Lemma collect_ok (st st' : gather_state) (p : Task * outcome (option result)) :
  collect host st p = Ok st' ->
  exists r, records host p r
            /\ gs_results st' = (gs_results st ++ [r])%list
            /\ gs_combined st' = (gs_combined st ++ option_list (contribution r))%list.
Proof.
  destruct p as [task [[r|]|e]]; cbn; intros H; try discriminate;
    injection H as <-; cbn.
  - exists r. split; [now left|]. split; [reflexivity|].
    unfold contribution. destruct (_ && _); cbn; [reflexivity|].
    now rewrite app_nil_r.
  - eexists. split; [right; eauto|]. split; [reflexivity|].
    cbn. now rewrite app_nil_r.
Qed.

Lemma collect_loop (pairs : list (Task * outcome (option result)))
    (st0 st : gather_state) :
  for_each (collect host) pairs st0 = Ok st ->
  exists rs, Forall2 (records host) pairs rs
             /\ gs_results st = (gs_results st0 ++ rs)%list
             /\ gs_combined st = (gs_combined st0 ++ omap contribution rs)%list.
Proof.
  revert st0. induction pairs as [|p pairs IH]; intros st0 H; cbn in H.
  - injection H as <-. exists []. rewrite !app_nil_r. auto.
  - apply bind_ok in H as (st1 & H1 & H2).
    apply collect_ok in H1 as (r & Hr & Hres & Hcomb).
    apply IH in H2 as (rs & Hrs & Hres' & Hcomb').
    exists (r :: rs). split; [now constructor|].
    rewrite Hres', Hcomb', Hres, Hcomb, <- !app_assoc. split; [reflexivity|].
    f_equal. cbn. now destruct (contribution r).
Qed.

(** With a completion order that completes every coroutine, the branch
    reads the outcomes in the order of the coroutines. *)
Lemma run_broadcast_in_order (tasks : list Task) (input : option string)
    (previous : binding) :
  completes_all (completion_order host) ->
  run_broadcast host nested var_values headers strip_colors tasks input previous =
    (coros ← for_each (launch input) tasks [];
     st ← for_each (collect host) (combine tasks (map (fun c => c tt) coros))
            {| gs_result := previous; gs_results := []; gs_combined := [] |};
     mret (gs_result st, gs_results st, joined (gs_combined st))).
Proof.
  intros Hall. unfold run_broadcast.
  destruct (for_each _ tasks []) as [coros|e]; cbn; [|reflexivity].
  now rewrite gather_in_order by apply Hall.
Qed.

(** C2: the output of a broadcast stage is the newline-joined trimmed
    outputs of the recorded results that are successes with non-empty
    output, in the order the tasks are declared, and is absent when there
    is none; the recorded results are the outcomes of the coroutines taken
    in task order, and neither they nor the output depend on the order in
    which the coroutines complete. *)
Theorem broadcast_output (tasks : list Task) (input : option string)
    (previous b : binding) (results : list result) (out : option string) :
  completes_all (completion_order host) ->
  run_broadcast host nested var_values headers strip_colors tasks input previous
    = Ok (b, results, out) ->
  (exists coros,
      for_each (launch input) tasks [] = Ok coros
      /\ Forall2 (records host) (combine tasks (map (fun c => c tt) coros)) results)
  /\ out = match omap contribution results with
           | [] => None
           | outputs => Some (Py.join newline outputs)
           end
  /\ (forall order, completes_all order ->
        run_broadcast (with_completion_order host order) nested var_values headers
          strip_colors tasks input previous = Ok (b, results, out)).
Proof.
  intros Hall Hrun.
  assert (forall order, completes_all order ->
            run_broadcast (with_completion_order host order) nested var_values
              headers strip_colors tasks input previous = Ok (b, results, out))
    as Hany.
  { intros order Horder. rewrite <- Hrun.
    rewrite (run_broadcast_in_order tasks input previous Hall).
    unfold run_broadcast. cbn [completion_order with_completion_order].
    change (broadcast_coroutine (with_completion_order host order))
      with (broadcast_coroutine host).
    destruct (for_each _ tasks []) as [coros'|e]; [|reflexivity].
    cbn [mbind outcome_bind]. now rewrite gather_in_order by apply Horder. }
  rewrite run_broadcast_in_order in Hrun by assumption.
  apply bind_ok in Hrun as (coros & Hcoros & Hrun).
  apply bind_ok in Hrun as (st & Hloop & Hret).
  injection Hret as <- <- <-.
  apply collect_loop in Hloop as (rs & Hrs & Hres & Hcomb).
  cbn in Hres, Hcomb. subst rs.
  split; [eauto|]. split; [|exact Hany].
  rewrite Hcomb. unfold joined. now destruct (omap contribution _).
Qed.

(** A task that launches adds at most one coroutine, which does not yield
    [None]. *)
Lemma launch_ok (task : Task) (input : option string) (acc : list coroutine) :
  launches host task ->
  Forall (fun c : coroutine => c tt <> Ok None) acc ->
  exists coros,
    launch input acc task = Ok coros
    /\ Forall (fun c : coroutine => c tt <> Ok None) coros.
Proof.
  intros Htask Hacc. unfold broadcast_coroutine, launches in *.
  assert (forall c : coroutine, c tt <> Ok None ->
            Forall (fun c : coroutine => c tt <> Ok None) (acc ++ [c])) as Hsnoc.
  { intros c Hc. apply Forall_app. split; [exact Hacc | now repeat constructor]. }
  destruct (task_flow task) as [flow_name|].
  - destruct Htask as [child ->]. eexists. split; [reflexivity|].
    apply Hsnoc. now destruct (nested _ _ _).
  - destruct (task_alias task) as [alias_str|].
    + destruct Htask as [[tool_name alias_name] ->]. eexists. split; [reflexivity|].
      apply Hsnoc. now destruct (run_alias_async _ _ _ _ _ _ _).
    + destruct (task_command task) as [command|]; eexists; (split; [reflexivity|]);
        [|exact Hacc].
      apply Hsnoc. now destruct (run_command_async _ _ _ _ _).
Qed.

(** The loop over the tasks creates the coroutines without raising. *)
Lemma launch_loop (tasks : list Task) (input : option string)
    (acc : list coroutine) :
  Forall (launches host) tasks ->
  Forall (fun c : coroutine => c tt <> Ok None) acc ->
  exists coros,
    for_each (launch input) tasks acc = Ok coros
    /\ Forall (fun c : coroutine => c tt <> Ok None) coros.
Proof.
  intros Htasks. revert acc.
  induction Htasks as [|task tasks Htask _ IH]; intros acc Hacc; [eauto|].
  cbn [for_each].
  destruct (launch_ok task input acc Htask Hacc) as (coros & -> & Hcoros).
  now apply IH.
Qed.



End Broadcast.

(** ** The flow as a whole *)

Section Flow.

Variable host : Host.
Variable headers : list (string * string).
Variable strip_colors : bool.

(** The function as the source states it: the depth check, then the body
    with the recursive call at [flow_depth + 1]. *)
Lemma run_flow_internal_eq (flow_def : FlowDef) (var_values : dict string)
    (input_data : option string) (flow_depth : nat) :
  run_flow_internal host flow_def var_values input_data headers strip_colors flow_depth =
    if (5 <? flow_depth)%nat then Ok depth_exceeded
    else run_flow_body host
           (fun child_flow child_vars child_input =>
              run_flow_internal host child_flow child_vars child_input headers
                strip_colors (flow_depth + 1))
           var_values headers strip_colors flow_def input_data.
Proof.
  unfold run_flow_internal.
  destruct (5 <? flow_depth)%nat eqn:Hd.
  - apply Nat.ltb_lt in Hd. now replace (6 - flow_depth) with 0 by lia.
  - apply Nat.ltb_ge in Hd.
    replace (6 - flow_depth) with (S (6 - (flow_depth + 1))) by lia.
    reflexivity.
Qed.

Lemma run_flow_body_success nested (flow_def : FlowDef) (var_values : dict string)
    (input_data : option string) (r : result) :
  run_flow_body host nested var_values headers strip_colors flow_def input_data = Ok r ->
  exists out stage_results, r = FlowResult out true stage_results.
Proof.
  unfold run_flow_body. intros H. apply bind_ok in H as (st & _ & H).
  injection H as <-. eauto.
Qed.

Lemma run_alias_async_nonzero (tool_name alias_name : string)
    (tool_config : ToolConfig) (tool_aliases : gmap string AliasDef)
    (alias_def : AliasDef) (var_values : dict string)
    (input_data : option string) (stdout stderr : string) (rc : Z) :
  load_tool host tool_name = (tool_config, tool_aliases) ->
  tool_aliases !! alias_name = Some alias_def ->
  subprocess_run host true
    (alias_command_line host tool_config alias_def headers var_values) input_data
    = Completed stdout stderr rc ->
  rc <> 0%Z ->
  run_alias_async host tool_name alias_name input_data headers strip_colors
    var_values
  = Ok (TaskResult EmptyString false (tool_name +:+ ":" +:+ alias_name)).
Proof.
  intros Hload Halias Hrun Hrc. unfold run_alias_async.
  rewrite Hload, Halias, Hrun. apply Z.eqb_neq in Hrc. now rewrite Hrc.
Qed.

Lemma run_command_async_nonzero (command : string) (var_values : dict string)
    (input_data : option string) (stdout stderr : string) (rc : Z) :
  subprocess_run host false (fill_command var_values command) input_data
    = Completed stdout stderr rc ->
  rc <> 0%Z ->
  run_command_async host command var_values input_data strip_colors
    = Ok (TaskResult EmptyString false
            ("command:" +:+ fill_command var_values command)).
Proof.
  intros Hrun Hrc. unfold run_command_async. rewrite Hrun.
  apply Z.eqb_neq in Hrc. now rewrite Hrc.
Qed.



(** C6: a run of the engine within the depth limit that returns, returns a
    flow result whose success flag is true, whatever the task results it
    holds; a command or an alias whose process exits with a non-zero code
    yields a failed task result and no exception. *)
Theorem flow_success_flag (flow_def : FlowDef) (var_values : dict string)
    (input_data : option string) (flow_depth : nat) (r : result) :
  flow_depth <= 5 ->
  run_flow_internal host flow_def var_values input_data headers strip_colors
    flow_depth = Ok r ->
  r_success r = true
  /\ (exists out stage_results, r = FlowResult out true stage_results)
  /\ (forall command vars input stdout stderr rc,
        subprocess_run host false (fill_command vars command) input
          = Completed stdout stderr rc ->
        rc <> 0%Z ->
        exists label,
          run_command_async host command vars input strip_colors
            = Ok (TaskResult EmptyString false label))
  /\ (forall tool_name alias_name tool_config tool_aliases alias_def vars input
             stdout stderr rc,
        load_tool host tool_name = (tool_config, tool_aliases) ->
        tool_aliases !! alias_name = Some alias_def ->
        subprocess_run host true
          (alias_command_line host tool_config alias_def headers vars) input
          = Completed stdout stderr rc ->
        rc <> 0%Z ->
        exists label,
          run_alias_async host tool_name alias_name input headers strip_colors vars
            = Ok (TaskResult EmptyString false label)).
Proof.
  intros Hd Hrun. rewrite run_flow_internal_eq in Hrun.
  replace (5 <? flow_depth)%nat with false in Hrun
    by (symmetry; apply Nat.ltb_ge; lia).
  apply run_flow_body_success in Hrun as (out & srs & ->).
  split; [reflexivity|]. split; [eauto|]. split.
  - intros command vars input stdout stderr rc Hproc Hrc.
    eexists. now apply (run_command_async_nonzero _ _ _ _ _ _ Hproc).
  - intros tool_name alias_name tool_config tool_aliases alias_def vars input
      stdout stderr rc Hload Halias Hproc Hrc.
    eexists. now apply (run_alias_async_nonzero _ _ _ _ _ _ _ _ _ _ Hload Halias Hproc).
Qed.

(** A stage whose single task invokes a flow that resolves: the stage
    records the result of the nested call and has no output when that
    result carries none. *)
Lemma run_stage_nested_flow nested (var_values : dict string)
    (stages : gmap string StageDef) (stage_name flow_name : string)
    (stage_def : StageDef) (task : Task) (child : FlowDef) (r : result)
    (st : flow_state) :
  stages !! stage_name = Some stage_def ->
  is_parallel stage_def = false ->
  yaml_is (distribution stage_def) "chained" = true ->
  stage_tasks stage_def = [task] ->
  task_flow task = Some flow_name ->
  load_flow host flow_name = Some child ->
  nested child (child_vars var_values task)
         (piped_input task (fs_previous st)) = Ok r ->
  run_stage host nested var_values headers strip_colors stages st
    {| entry_stage := Some stage_name |}
  = Ok {| fs_previous := next_input task r;
          fs_result := BoundResult r;
          fs_stage_results := (fs_stage_results st ++ [(stage_name, [r])])%list |}.
Proof.
  intros Hst Hpar Hdist Htasks Hflow Hload Hnested.
  unfold run_stage, run_stage_def. cbn [entry_stage].
  rewrite Hst. cbn [default from_option id]. rewrite Hpar, Hdist, Htasks.
  cbn [andb negb]. unfold run_chained_stage, run_chained. cbn [for_each].
  unfold chained_task, chained_dispatch. cbn [cs_input cs_result cs_results].
  rewrite Hflow, Hload, Hnested. reflexivity.
Qed.

(** The same stage, broadcast: the gathered result of the nested call is
    recorded, and adds to the output of the stage only when it carries
    one. *)
Lemma run_stage_nested_flow_broadcast nested (var_values : dict string)
    (stages : gmap string StageDef) (stage_name flow_name : string)
    (stage_def : StageDef) (task : Task) (child : FlowDef) (r : result)
    (st : flow_state) :
  completes_all (completion_order host) ->
  stages !! stage_name = Some stage_def ->
  is_parallel stage_def = true ->
  yaml_is (distribution stage_def) "broadcast" = true ->
  stage_tasks stage_def = [task] ->
  task_flow task = Some flow_name ->
  load_flow host flow_name = Some child ->
  nested child (child_vars var_values task)
         (piped_input task (fs_previous st)) = Ok r ->
  run_stage host nested var_values headers strip_colors stages st
    {| entry_stage := Some stage_name |}
  = Ok {| fs_previous := joined (option_list (contribution r));
          fs_result := BoundResult r;
          fs_stage_results := (fs_stage_results st ++ [(stage_name, [r])])%list |}.
Proof.
  intros Hall Hst Hpar Hdist Htasks Hflow Hload Hnested.
  unfold run_stage, run_stage_def. cbn [entry_stage].
  rewrite Hst. cbn [default from_option id]. rewrite Hpar, Hdist, Htasks.
  cbn [andb]. rewrite run_broadcast_in_order by assumption.
  cbn [for_each]. unfold broadcast_coroutine. rewrite Hflow, Hload.
  cbn [mret outcome_ret mbind outcome_bind app map combine for_each collect].
  rewrite Hnested.
  cbn [fmap outcome_fmap mret outcome_ret mbind outcome_bind gs_result gs_results
         gs_combined app].
  unfold contribution. now destruct (r_success r && Py.truthy_opt (r_output r)).
Qed.

(** C3: a call at a depth above 5 returns a failed result with empty
    output and raises nothing; a chained stage at depth 5 records that
    result for its nested-flow task and goes on with no running value; a
    flow whose single task invokes the flow itself returns, from depth 0,
    a successful flow result with no output in which six levels down the
    failed result is recorded, be the stage of that task chained or
    broadcast. *)
Theorem nesting_depth_capped :
  (forall flow_def var_values input_data flow_depth,
      5 < flow_depth ->
      run_flow_internal host flow_def var_values input_data headers strip_colors
        flow_depth = Ok depth_exceeded
      /\ r_success depth_exceeded = false
      /\ Py.truthy_opt (r_output depth_exceeded) = false)
  /\ (forall var_values st task flow_name child,
        task_flow task = Some flow_name ->
        load_flow host flow_name = Some child ->
        chained_task host
          (fun child_flow child_vars child_input =>
             run_flow_internal host child_flow child_vars child_input headers
               strip_colors (5 + 1))
          var_values headers strip_colors st task
        = Ok {| cs_input := None;
                cs_result := BoundResult depth_exceeded;
                cs_results := (cs_results st ++ [depth_exceeded])%list |})
  /\ (forall flow_def flow_name stage_name stage_def task var_values input_data,
        load_flow host flow_name = Some flow_def ->
        flow_order flow_def = [ {| entry_stage := Some stage_name |} ] ->
        flow_stages flow_def !! stage_name = Some stage_def ->
        (is_parallel stage_def = false
         /\ yaml_is (distribution stage_def) "chained" = true)
        \/ (is_parallel stage_def = true
            /\ yaml_is (distribution stage_def) "broadcast" = true
            /\ completes_all (completion_order host)) ->
        stage_tasks stage_def = [task] ->
        task_flow task = Some flow_name ->
        run_flow_internal host flow_def var_values input_data headers
          strip_colors 0 = Ok (self_nesting stage_name 6)).
Proof.
  split; [|split].
  - intros flow_def var_values input_data flow_depth Hd.
    rewrite run_flow_internal_eq.
    apply Nat.ltb_lt in Hd. rewrite Hd. auto.
  - intros var_values st task flow_name child Hflow Hload.
    unfold chained_task, chained_dispatch. rewrite Hflow, Hload.
    rewrite run_flow_internal_eq. reflexivity.
  - intros flow_def flow_name stage_name stage_def task var_values input_data
      Hload Horder Hstage Hkind Htasks Hflow.
    unfold run_flow_internal. change (6 - 0) with 6.
    generalize 6 as levels. intros levels. revert var_values input_data.
    induction levels as [|n IH]; intros var_values input_data; [reflexivity|].
    cbn [run_flow_levels self_nesting]. unfold run_flow_body.
    rewrite Horder. cbn [for_each].
    destruct Hkind as [[Hpar Hdist]|(Hpar & Hdist & Hall)].
    + erewrite run_stage_nested_flow; eauto.
      cbn [mbind outcome_bind mret outcome_ret fs_previous fs_stage_results app].
      do 2 f_equal. unfold next_input.
      destruct n; reflexivity.
    + erewrite run_stage_nested_flow_broadcast; eauto.
      cbn [mbind outcome_bind mret outcome_ret fs_previous fs_stage_results app].
      do 2 f_equal. unfold contribution.
      destruct n; reflexivity.
Qed.

Lemma yaml_is_broadcast_not_chained (v : yaml) :
  yaml_is v "broadcast" = true -> yaml_is v "chained" = false.
Proof.
  destruct v as [| s | |]; cbn; try discriminate.
  intros ->%String.eqb_eq. reflexivity.
Qed.

(** C10: a stage that is not parallel and whose distribution is
    [broadcast] (the two defaults) runs none of its tasks: its list of
    results is empty, its output is absent, and the stages after it start
    from no input; the validator accepts the stage when it has tasks and
    they validate. *)
Theorem sequential_broadcast_stage_runs_nothing nested
    (var_values : dict string) (stages : gmap string StageDef)
    (stage_name : string) (stage_def : StageDef) (st : flow_state) :
  stages !! stage_name = Some stage_def ->
  is_parallel stage_def = false ->
  yaml_is (distribution stage_def) "broadcast" = true ->
  run_stage host nested var_values headers strip_colors stages st
    {| entry_stage := Some stage_name |}
  = Ok {| fs_previous := None;
          fs_result := fs_result st;
          fs_stage_results := (fs_stage_results st ++ [(stage_name, [])])%list |}
  /\ (forall rest,
        for_each (run_stage host nested var_values headers strip_colors stages)
          ({| entry_stage := Some stage_name |} :: rest) st
        = for_each (run_stage host nested var_values headers strip_colors stages)
            rest
            {| fs_previous := None;
               fs_result := fs_result st;
               fs_stage_results :=
                 (fs_stage_results st ++ [(stage_name, [])])%list |})
  /\ (forall vars,
        stage_tasks stage_def <> [] ->
        first_invalid_task host (stage_tasks stage_def) vars = None ->
        validate_entry host stages vars {| entry_stage := Some stage_name |} = None)
  /\ (forall tasks,
        is_parallel (mkStage tasks None None) = false
        /\ yaml_is (distribution (mkStage tasks None None)) "broadcast" = true).
Proof.
  intros Hst Hpar Hdist.
  assert (run_stage host nested var_values headers strip_colors stages st
            {| entry_stage := Some stage_name |}
          = Ok {| fs_previous := None;
                  fs_result := fs_result st;
                  fs_stage_results :=
                    (fs_stage_results st ++ [(stage_name, [])])%list |}) as Hrun.
  { unfold run_stage, run_stage_def. cbn [entry_stage].
    rewrite Hst. cbn [default from_option id].
    rewrite Hpar, (yaml_is_broadcast_not_chained _ Hdist). reflexivity. }
  split; [exact Hrun|]. split; [|split].
  - intros rest. cbn [for_each]. now rewrite Hrun.
  - intros vars Htasks Hvalid. unfold validate_entry. cbn [entry_stage].
    rewrite Hst, Hpar. cbn [andb].
    destruct (stage_tasks stage_def); [congruence|]. now rewrite Hvalid.
  - intros tasks. split; reflexivity.
Qed.

End Flow.

(** ** Validation *)

Section Validation.

Variable host : Host.

(** The validator reads neither the processes nor the event loop. *)
Lemma validate_flow_without_processes run (flow_def : FlowDef)
    (var_values : dict string) :
  validate_flow (with_subprocess_run host run) flow_def var_values
  = validate_flow host flow_def var_values.
Proof. reflexivity. Qed.

Lemma validate_entries_app (stages : gmap string StageDef)
    (var_values : dict string) (pre post : list StageEntry) :
  validate_entries host stages var_values (pre ++ post)%list =
    match validate_entries host stages var_values pre with
    | Some msg => Some msg
    | None => validate_entries host stages var_values post
    end.
Proof.
  induction pre as [|e pre IH]; [reflexivity|]. cbn.
  destruct (validate_entry host stages var_values e); [reflexivity | exact IH].
Qed.

(** An entry that names a parallel chained stage never passes. *)
Lemma validate_entry_parallel_chained (stages : gmap string StageDef)
    (var_values : dict string) (stage_name : string) (stage_def : StageDef) :
  stages !! stage_name = Some stage_def ->
  is_parallel stage_def = true ->
  yaml_is (distribution stage_def) "chained" = true ->
  validate_entry host stages var_values {| entry_stage := Some stage_name |}
  = Some (match stage_tasks stage_def with
          | [] => "Stage '" +:+ stage_name +:+ "' has no 'tasks' defined."
          | _ => parallel_chained_msg stage_name
          end).
Proof.
  intros Hst Hpar Hdist. unfold validate_entry. cbn [entry_stage].
  rewrite Hst, Hpar, Hdist. now destruct (stage_tasks stage_def).
Qed.

(** The verdict on a flow with stages and a non-empty order is the first
    error of the entries of its order. *)
Lemma validate_flow_entries (flow_def : FlowDef) (var_values : dict string)
    (stage_name : string) (e : StageEntry) (pre post : list StageEntry) :
  is_Some (flow_stages flow_def !! stage_name) ->
  flow_order flow_def = (pre ++ e :: post)%list ->
  validate_flow host flow_def var_values =
    match validate_entries host (flow_stages flow_def) var_values
            (flow_order flow_def) with
    | Some msg => (false, Some msg)
    | None => (true, None)
    end.
Proof.
  intros [sd Hsd] Horder. unfold validate_flow.
  destruct (size (flow_stages flow_def) =? 0)%nat eqn:Hsize.
  - apply Nat.eqb_eq, map_size_empty_inv in Hsize.
    rewrite Hsize, lookup_empty in Hsd. discriminate.
  - rewrite Horder. now destruct pre.
Qed.

(** C5 (amended): a flow whose order names a stage that is parallel and
    chained is rejected by the validator, and [flow_run] then runs nothing,
    whatever the processes of the host; when the entries before that one
    pass and the stage has tasks, the message is the one that names the
    stage as parallel and chained.  Stages that the order does not name
    are not examined. *)
Theorem parallel_chained_rejected (flow_def : FlowDef) (var_values : dict string)
    (pre post : list StageEntry) (stage_name : string) (stage_def : StageDef) :
  flow_order flow_def = (pre ++ {| entry_stage := Some stage_name |} :: post)%list ->
  flow_stages flow_def !! stage_name = Some stage_def ->
  is_parallel stage_def = true ->
  yaml_is (distribution stage_def) "chained" = true ->
  (exists msg,
      validate_flow host flow_def var_values = (false, Some msg)
      /\ forall run headers strip_colors,
           flow_run (with_subprocess_run host run) flow_def var_values headers
             strip_colors = Rejected (Some msg))
  /\ (validate_entries host (flow_stages flow_def) var_values pre = None ->
      stage_tasks stage_def <> [] ->
      validate_flow host flow_def var_values
      = (false, Some (parallel_chained_msg stage_name))).
Proof.
  intros Horder Hst Hpar Hdist.
  pose proof (validate_flow_entries flow_def var_values stage_name _ pre post
                (ex_intro _ _ Hst) Horder) as Hflow.
  pose proof (validate_entry_parallel_chained _ var_values _ _ Hst Hpar Hdist)
    as Hentry.
  rewrite Horder, validate_entries_app in Hflow. cbn [validate_entries] in Hflow.
  rewrite Hentry in Hflow.
  split.
  - destruct (validate_entries host (flow_stages flow_def) var_values pre)
      as [msg|]; eexists; (split; [exact Hflow|]);
      intros run headers strip_colors; unfold flow_run;
      rewrite validate_flow_without_processes, Hflow; reflexivity.
  - intros Hpre Htasks. rewrite Hpre in Hflow. rewrite Hflow.
    destruct (stage_tasks stage_def); [congruence | reflexivity].
Qed.

(** C5, as stated, fails: the validator accepts a flow that contains a
    parallel chained stage when the flow order does not name the stage. *)
Lemma parallel_chained_unreferenced_accepted :
  is_parallel (Sample.spare_stage) = true
  /\ yaml_is (distribution Sample.spare_stage) "chained" = true
  /\ flow_stages Sample.unreferenced_flow !! "spare" = Some Sample.spare_stage
  /\ validate_flow Sample.host Sample.unreferenced_flow [] = (true, None).
Proof. vm_compute. auto. Qed.

(** C8 (amended): a record with none of the three kinds is rejected; a
    record with several is validated as the first of alias, command and
    flow that it has, the other kinds being ignored; so a record is
    accepted only if it has at least one kind. *)
Theorem validate_task_first_kind (task : Task) (var_values : dict string) :
  (task_alias task = None -> task_command task = None -> task_flow task = None ->
   validate_task host task var_values
   = (false, Some "Task must have either 'alias' or 'command' key."))
  /\ (forall alias_str,
        task_alias task = Some alias_str ->
        validate_task host task var_values
        = validate_task host (only_alias task alias_str) var_values)
  /\ (forall cmd,
        task_alias task = None -> task_command task = Some cmd ->
        validate_task host task var_values
        = validate_task host (only_command task cmd) var_values)
  /\ (fst (validate_task host task var_values) = true ->
      is_Some (task_alias task) \/ is_Some (task_command task)
      \/ is_Some (task_flow task)).
Proof.
  unfold validate_task. repeat split.
  - now intros -> -> ->.
  - now intros alias_str ->.
  - now intros cmd -> ->.
  - destruct (task_alias task); [eauto|].
    destruct (task_command task); [eauto|].
    destruct (task_flow task); [eauto|]. discriminate.
Qed.

(** C8, as stated, fails: a record with the two kinds alias and command
    passes validation. *)
Lemma two_kinds_accepted :
  is_Some (task_alias Sample.two_kinds)
  /\ is_Some (task_command Sample.two_kinds)
  /\ validate_task Sample.host Sample.two_kinds [] = (true, None).
Proof.
  split; [eexists; reflexivity|]. split; [eexists; reflexivity|].
  vm_compute. reflexivity.
Qed.

(** C4 fails on the code: a flow passes validation, the alias its nested
    flow names is missing from the catalog, the lookup raises in a chained
    stage, and the exception ends the nested flow, the stage and the flow;
    the tasks after it never run. *)
Lemma chained_exception_propagates :
  validate_flow Sample.host Sample.parent_flow [] = (true, None)
  /\ flow_run Sample.host Sample.parent_flow [] [] false
     = Ran (Raise (KeyError "missing")).
Proof. vm_compute. auto. Qed.

End Validation.

(** ** Template expansion *)

Lemma append_cons (c : ascii) (a b : string) :
  String c a +:+ b = String c (a +:+ b).
Proof. reflexivity. Qed.

Lemma append_nil_l (a : string) : EmptyString +:+ a = a.
Proof. reflexivity. Qed.

Lemma append_assoc (a b c : string) : (a +:+ b) +:+ c = a +:+ (b +:+ c).
Proof.
  induction a as [|x a IH]; [reflexivity|]. now rewrite !append_cons, IH.
Qed.

Lemma append_nil_r (a : string) : a +:+ EmptyString = a.
Proof.
  induction a as [|x a IH]; [reflexivity|]. now rewrite append_cons, IH.
Qed.

Lemma startswith_append (p rest : string) : Py.startswith p (p +:+ rest) = true.
Proof.
  induction p as [|c p IH]; [reflexivity|].
  rewrite append_cons. cbn [Py.startswith].
  unfold Py.ascii_eqb. now rewrite Ascii.eqb_refl.
Qed.

Lemma is_brace_false (c : ascii) :
  is_brace c = false -> c <> "{"%char /\ c <> "}"%char.
Proof.
  unfold is_brace, Py.ascii_eqb. intros [H1 H2]%orb_false_elim.
  split; intros ->; cbn in *; discriminate.
Qed.

Lemma brace_free_cons (c : ascii) (s : string) :
  brace_free (String c s) = true ->
  c <> "{"%char /\ c <> "}"%char /\ brace_free s = true.
Proof.
  cbn [brace_free]. intros [Hc Hs]%andb_prop.
  apply negb_true_iff, is_brace_false in Hc. tauto.
Qed.

Lemma startswith_cons (a b : ascii) (p s : string) :
  Py.startswith (String a p) (String b s) = true -> a = b /\ Py.startswith p s = true.
Proof.
  cbn [Py.startswith]. intros [H1 H2]%andb_prop.
  apply Ascii.eqb_eq in H1. auto.
Qed.

(** A closing placeholder can only match the closing of the same name. *)
Lemma closing_prefix (n m rest : string) :
  brace_free n = true -> brace_free m = true ->
  Py.startswith (n +:+ "}}") (m +:+ "}}" +:+ rest) = true -> n = m.
Proof.
  revert m. induction n as [|c n IH]; intros [|d m] Hn Hm H.
  - reflexivity.
  - apply brace_free_cons in Hm as (_ & Hd & _).
    rewrite append_nil_l, append_cons in H.
    apply startswith_cons in H as [? _]. congruence.
  - apply brace_free_cons in Hn as (_ & Hc & _).
    rewrite append_nil_l, append_cons in H.
    change ("}}" +:+ rest) with (String "}" (String "}" rest)) in H.
    apply startswith_cons in H as [? _]. congruence.
  - apply brace_free_cons in Hn as (_ & _ & Hn).
    apply brace_free_cons in Hm as (_ & _ & Hm).
    rewrite !append_cons in H. apply startswith_cons in H as [-> H].
    f_equal. eauto.
Qed.

Lemma replace_scan_skip (old new pre rest : string) :
  Py.replace_scan old new (String.length pre) (pre +:+ rest)
  = Py.replace_scan old new 0 rest.
Proof.
  induction pre as [|c pre IH]; [reflexivity|].
  rewrite append_cons. cbn [String.length Py.replace_scan]. exact IH.
Qed.

(** An occurrence at the start is replaced and the scan resumes after it. *)
Lemma replace_scan_here (c : ascii) (old new rest : string) :
  Py.replace_scan (String c old) new 0 (String c old +:+ rest)
  = new +:+ Py.replace_scan (String c old) new 0 rest.
Proof.
  pose proof (startswith_append (String c old) rest) as Hs.
  rewrite append_cons in *. cbn [Py.replace_scan]. rewrite Hs.
  cbn [String.length Nat.sub]. now rewrite Nat.sub_0_r, replace_scan_skip.
Qed.

Section Scan.

(** The scan for the placeholder of [n], with [v] as replacement. *)
Variable n v : string.
Hypothesis n_plain : brace_free n = true.

Abbreviation scan := (Py.replace_scan (placeholder n) v).

Lemma placeholder_eq (name : string) :
  placeholder name = String "{" (String "{" (name +:+ "}}")).
Proof. reflexivity. Qed.

Lemma replace_placeholder (s : string) :
  Py.replace (placeholder n) v s = scan 0 s.
Proof. reflexivity. Qed.

(** No occurrence starts at a character other than an opening brace. *)
Lemma scan_other (c : ascii) (r : string) :
  c <> "{"%char -> scan 0 (String c r) = String c (scan 0 r).
Proof.
  intros Hc. cbn [Py.replace_scan].
  destruct (Py.startswith (placeholder n) (String c r)) eqn:Hs; [|reflexivity].
  rewrite placeholder_eq in Hs. apply startswith_cons in Hs as [? _].
  congruence.
Qed.

Lemma scan_text (text rest : string) :
  brace_free text = true ->
  scan 0 (text +:+ rest) = text +:+ scan 0 rest.
Proof.
  induction text as [|c text IH]; intros H; [reflexivity|].
  apply brace_free_cons in H as (Hc & _ & H).
  rewrite !append_cons, scan_other by assumption. now rewrite IH.
Qed.

(** The placeholder of [n] is replaced. *)
Lemma scan_same (rest : string) :
  scan 0 (placeholder n +:+ rest) = v +:+ scan 0 rest.
Proof. rewrite placeholder_eq. apply replace_scan_here. Qed.

(** The placeholder of another name is passed over. *)
Lemma scan_different (m rest : string) :
  brace_free m = true -> m <> n ->
  scan 0 (placeholder m +:+ rest) = placeholder m +:+ scan 0 rest.
Proof.
  intros Hm Hne.
  rewrite (placeholder_eq m), !append_cons, !append_assoc.
  assert (scan 0 (String "{" (String "{" (m +:+ "}}" +:+ rest)))
          = String "{" (scan 0 (String "{" (m +:+ "}}" +:+ rest)))) as ->.
  { cbn [Py.replace_scan].
    destruct (Py.startswith (placeholder n) _) eqn:Hs; [|reflexivity].
    rewrite placeholder_eq in Hs.
    apply startswith_cons in Hs as [_ Hs]. apply startswith_cons in Hs as [_ Hs].
    apply closing_prefix in Hs; congruence. }
  assert (scan 0 (String "{" (m +:+ "}}" +:+ rest))
          = String "{" (scan 0 (m +:+ "}}" +:+ rest))) as ->.
  { cbn [Py.replace_scan].
    destruct (Py.startswith (placeholder n) _) eqn:Hs; [|reflexivity].
    rewrite placeholder_eq in Hs. apply startswith_cons in Hs as [_ Hs].
    destruct m as [|d m].
    - rewrite append_nil_l in Hs.
      change ("}}" +:+ rest) with (String "}" (String "}" rest)) in Hs.
      apply startswith_cons in Hs as [? _]. discriminate.
    - apply brace_free_cons in Hm as (Hd & _ & _).
      rewrite append_cons in Hs. apply startswith_cons in Hs as [? _].
      congruence. }
  rewrite scan_text by assumption.
  change ("}}" +:+ rest) with (String "}" (String "}" rest)).
  rewrite !scan_other by discriminate.
  reflexivity.
Qed.

Lemma bind_one (t : token) :
  render_token (bind_token [(n, v)] t) =
    match t with
    | Lit text => text
    | Hole m => if String.eqb n m then v else placeholder m
    end.
Proof.
  destruct t as [text|m]; [reflexivity|]. cbn [bind_token dict_get].
  now destruct (String.eqb n m).
Qed.

(** One [replace] on a plain template binds the placeholders of its
    name and nothing else. *)
Lemma replace_render (ts : list token) :
  plain ts ->
  Py.replace (placeholder n) v (render ts) = render (map (bind_token [(n, v)]) ts).
Proof.
  rewrite replace_placeholder.
  induction 1 as [|t ts Ht _ IH]; [reflexivity|].
  cbn [render map]. rewrite bind_one, <- IH.
  destruct t as [text|m]; cbn [render_token token_text] in *.
  - now apply scan_text.
  - destruct (String.eqb_spec n m) as [<-|Hne].
    + apply scan_same.
    + apply scan_different; congruence.
Qed.

End Scan.

Lemma dict_get_Forall {V} (P : V -> Prop) (d : dict V) (k : string) (x : V) :
  Forall (fun kv => P (snd kv)) d -> dict_get d k = Some x -> P x.
Proof.
  induction 1 as [|[k' w] d Hw _ IH]; [discriminate|].
  cbn [dict_get]. destruct (String.eqb k' k); [|exact IH].
  now intros [= <-].
Qed.

Lemma plain_bind (vars : dict string) (ts : list token) :
  Forall (fun kv => brace_free (snd kv) = true) vars ->
  plain ts -> plain (map (bind_token vars) ts).
Proof.
  intros Hvars Hts. unfold plain in *. rewrite Forall_fmap.
  eapply Forall_impl; [exact Hts|]. intros [text|m] Ht; [exact Ht|].
  cbn [bind_token compose]. destruct (dict_get vars m) as [value|] eqn:Hget; [|exact Ht].
  exact (dict_get_Forall (fun value => brace_free value = true) _ _ _ Hvars Hget).
Qed.

(** Binding with the first entry, then with the others, is binding with
    the whole mapping. *)
Lemma bind_token_cons (k w : string) (vars : dict string) (t : token) :
  bind_token vars (bind_token [(k, w)] t) = bind_token ((k, w) :: vars) t.
Proof.
  destruct t as [text|m]; [reflexivity|]. cbn [bind_token dict_get].
  now destruct (String.eqb k m).
Qed.

Lemma bind_token_nil (ts : list token) : map (bind_token []) ts = ts.
Proof.
  induction ts as [|[text|m] ts IH]; [reflexivity| |]; cbn; now rewrite IH.
Qed.

Lemma bind_declared_nil (vars : dict string) (ts : list token) :
  map (bind_declared [] vars) ts = ts.
Proof.
  induction ts as [|[text|m] ts IH]; [reflexivity| |]; cbn; now rewrite IH.
Qed.

(** The loop of [run_command_async] on a plain template. *)
Lemma fill_command_render (vars : dict string) (ts : list token) :
  Forall (fun kv => brace_free (fst kv) = true /\ brace_free (snd kv) = true) vars ->
  plain ts ->
  fill_command vars (render ts) = render (map (bind_token vars) ts).
Proof.
  intros Hvars. revert ts.
  induction Hvars as [|[k w] vars [Hk Hw] _ IH]; intros ts Hts.
  - now rewrite bind_token_nil.
  - unfold fill_command in *. cbn [fold_left]. cbn [fst snd] in Hk, Hw.
    rewrite replace_render by assumption.
    rewrite IH by (apply plain_bind; [repeat constructor; exact Hw | exact Hts]).
    rewrite map_map. f_equal. apply map_ext. intros t. apply bind_token_cons.
Qed.

(** Binding the first declared variable, then the others. *)
Lemma bind_declared_cons (var_def : VarDef) (variables : list VarDef)
    (vars : dict string) (t : token) :
  bind_declared variables vars
    (match dict_get vars (var_name var_def) with
     | Some value => bind_token [(var_name var_def, value)] t
     | None => t
     end)
  = bind_declared (var_def :: variables) vars t.
Proof.
  destruct t as [text|m].
  - now destruct (dict_get vars (var_name var_def)).
  - cbn [bind_declared declared existsb].
    destruct (String.eqb_spec (var_name var_def) m) as [<-|Hne].
    + destruct (dict_get vars (var_name var_def)) as [value|] eqn:Hget.
      * cbn [bind_token dict_get]. rewrite String.eqb_refl, Hget. reflexivity.
      * cbn [bind_declared bind_token orb]. rewrite Hget. now destruct (declared _ _).
    + apply String.eqb_neq in Hne.
      destruct (dict_get vars (var_name var_def)) as [value|];
        cbn [bind_token dict_get bind_declared orb]; now rewrite ?Hne.
Qed.

(** The second loop of [run_alias_async] on a plain template. *)
Lemma fill_template_render (variables : list VarDef) (vars : dict string)
    (ts : list token) :
  Forall (fun var_def => brace_free (var_name var_def) = true) variables ->
  Forall (fun kv => brace_free (snd kv) = true) vars ->
  plain ts ->
  fill_template variables vars (render ts)
  = render (map (bind_declared variables vars) ts).
Proof.
  intros Hnames Hvars. revert ts.
  induction Hnames as [|var_def variables Hname _ IH]; intros ts Hts.
  - now rewrite bind_declared_nil.
  - unfold fill_template in *. cbn [fold_left].
    rewrite <- (map_ext _ _ (bind_declared_cons var_def variables vars)).
    rewrite <- map_map.
    destruct (dict_get vars (var_name var_def)) as [value|] eqn:Hget.
    + pose proof (dict_get_Forall (fun value => brace_free value = true)
                    _ _ _ Hvars Hget) as Hvalue.
      rewrite replace_render by assumption.
      apply IH, plain_bind; [repeat constructor; exact Hvalue | exact Hts].
    + rewrite map_id. now apply IH.
Qed.

Section Expansion.

Variable host : Host.

(** C7 (amended): on a template in which braces only delimit [{{name}}]
    placeholders, with names and values free of braces, the expansion of a
    raw command replaces every placeholder whose name is bound by its value
    and leaves the others as they are; the expansion of an alias template
    does the same with the transformed values, for the variables the alias
    declares: the placeholder of a variable it does not declare stays, bound
    or not; the command line of the alias is the run command of the tool
    followed by that expansion. *)
Theorem template_expansion_plain (ts : list token) (vars : dict string) :
  plain ts ->
  (Forall (fun kv => brace_free (fst kv) = true /\ brace_free (snd kv) = true) vars ->
   fill_command vars (render ts) = render (map (bind_token vars) ts))
  /\ (forall variables,
        let processed_vars := apply_transforms host variables vars in
        Forall (fun var_def => brace_free (var_name var_def) = true) variables ->
        Forall (fun kv => brace_free (snd kv) = true) processed_vars ->
        fill_template variables processed_vars (render ts)
        = render (map (bind_declared variables processed_vars) ts))
  /\ (forall tool_config alias_def,
        let variables := alias_variables alias_def in
        let processed_vars := apply_transforms host variables vars in
        alias_command alias_def = Some (render ts) ->
        Forall (fun var_def => brace_free (var_name var_def) = true) variables ->
        Forall (fun kv => brace_free (snd kv) = true) processed_vars ->
        alias_command_line host tool_config alias_def [] vars
        = fmt_opt (tool_run_command tool_config) +:+ " "
            +:+ render (map (bind_declared variables processed_vars) ts)).
Proof.
  intros Hts. split; [|split].
  - intros Hvars. now apply fill_command_render.
  - intros variables processed_vars Hnames Hvalues.
    now apply fill_template_render.
  - intros tool_config alias_def variables processed_vars Hcmd Hnames Hvalues.
    unfold alias_command_line. rewrite Hcmd. cbn [default from_option id].
    fold variables. fold processed_vars.
    rewrite fill_template_render by assumption.
    rewrite bool_decide_eq_true_2 by reflexivity.
    now rewrite andb_false_r.
Qed.

End Expansion.

(** A value that spells the placeholder of a variable replaced before it
    brings that placeholder back. *)
Example value_with_placeholder :
  fill_command [("a", "x"); ("b", "{{a}}")] "echo {{b}}" = "echo {{a}}".
Proof. reflexivity. Qed.

(** C7, as stated, fails: [ports] has a value, the alias does not declare
    it, and its placeholder is still in the command line. *)
Lemma bound_placeholder_survives :
  dict_get Sample.scan_vars "ports" = Some "80"
  /\ alias_command (Sample.nmap_scan) = Some (render Sample.scan_template)
  /\ alias_command_line Sample.host (fst (load_tool Sample.host "nmap"))
       Sample.nmap_scan [] Sample.scan_vars
     = "nmap -sV 10.0.0.1 -p {{ports}}".
Proof. vm_compute. auto. Qed.

(** ** The properties on the sample host *)

Lemma sample_completes_all : completes_all (completion_order Sample.host).
Proof. intros n. symmetry. apply Permutation_rev. Qed.

Lemma chained_running_value_witness :
  Sample.pipe_tasks !! 0 = Some (Sample.command_task "echo a")
  /\ run_chained Sample.host Sample.no_nested [] [] false
       (take 1 Sample.pipe_tasks) Sample.start = Ok Sample.after_echo
  /\ exists st_before r,
       run_chained Sample.host Sample.no_nested [] [] false
         (take 0 Sample.pipe_tasks) Sample.start = Ok st_before
       /\ cs_results Sample.after_echo !! (length (cs_results Sample.start) + 0)
          = Some r
       /\ cs_input Sample.after_echo =
            (if r_success r && Py.truthy_opt (r_output r)
                && truthy (setting (Sample.command_task "echo a") "pipe_output")
             then Some (Py.strip (default EmptyString (r_output r)))
             else None)
       /\ (has_kind (Sample.command_task "echo a") = true ->
           forall b,
             chained_dispatch Sample.host Sample.no_nested [] [] false
               (Sample.command_task "echo a")
               (if truthy (setting (Sample.command_task "echo a") "pipe_input")
                then cs_input st_before else None) b
             = Ok (BoundResult r)).
Proof.
  split; [reflexivity|]. split; [reflexivity|].
  exact (proj1 (chained_running_value Sample.host Sample.no_nested [] [] false
                  Sample.pipe_tasks 0 (Sample.command_task "echo a")
                  Sample.start Sample.after_echo eq_refl eq_refl)).
Defined.

Lemma broadcast_output_witness :
  run_broadcast Sample.host Sample.no_nested [] [] false Sample.fan_tasks None
    Unbound
  = Ok (BoundResult Sample.false_result,
        [Sample.echo_a_result; Sample.echo_b_result; Sample.false_result],
        Some Sample.a_b)
  /\ Some Sample.a_b =
       match omap contribution
               [Sample.echo_a_result; Sample.echo_b_result; Sample.false_result] with
       | [] => None
       | outputs => Some (Py.join newline outputs)
       end.
Proof.
  split; [reflexivity|].
  exact (proj1 (proj2 (broadcast_output Sample.host Sample.no_nested [] [] false
                         Sample.fan_tasks None Unbound _ _ _
                         sample_completes_all eq_refl))).
Defined.

Lemma nesting_depth_capped_witness :
  load_flow Sample.host "loop" = Some Sample.loop_flow
  /\ run_flow_internal Sample.host Sample.loop_flow [] None [] false 0
     = Ok (self_nesting "again" 6).
Proof.
  split; [reflexivity|].
  apply (proj2 (proj2 (nesting_depth_capped Sample.host [] false))
           Sample.loop_flow "loop" "again"
           (Sample.chained_stage [Sample.flow_task "loop"])
           (Sample.flow_task "loop") [] None);
    try (vm_compute; reflexivity).
  left. split; reflexivity.
Defined.

Lemma flow_success_flag_witness :
  0 <= 5
  /\ run_flow_internal Sample.host Sample.two_stage_flow [] None [] false 0
     = Ok Sample.two_stage_result
  /\ r_success Sample.two_stage_result = true.
Proof.
  assert (run_flow_internal Sample.host Sample.two_stage_flow [] None [] false 0
          = Ok Sample.two_stage_result) as Hrun by (vm_compute; reflexivity).
  split; [lia|]. split; [exact Hrun|].
  apply (proj1 (flow_success_flag Sample.host [] false Sample.two_stage_flow []
                  None 0 Sample.two_stage_result (Nat.le_0_l 5) Hrun)).
Defined.

Lemma sequential_broadcast_stage_witness :
  Sample.idle_stages !! "idle" = Some Sample.idle_stage
  /\ is_parallel Sample.idle_stage = false
  /\ yaml_is (distribution Sample.idle_stage) "broadcast" = true
  /\ run_stage Sample.host Sample.no_nested [] [] false Sample.idle_stages
       Sample.fed {| entry_stage := Some "idle" |}
     = Ok {| fs_previous := None; fs_result := Unbound;
             fs_stage_results := [("idle", [])] |}.
Proof.
  assert (Sample.idle_stages !! "idle" = Some Sample.idle_stage) as Hst
    by (vm_compute; reflexivity).
  split; [exact Hst|]. split; [reflexivity|]. split; [reflexivity|].
  exact (proj1 (sequential_broadcast_stage_runs_nothing Sample.host [] false
                  Sample.no_nested [] Sample.idle_stages "idle"
                  Sample.idle_stage Sample.fed Hst eq_refl eq_refl)).
Defined.

Lemma parallel_chained_rejected_witness :
  flow_order Sample.rejected_flow = [ {| entry_stage := Some "spare" |} ]
  /\ flow_stages Sample.rejected_flow !! "spare" = Some Sample.spare_stage
  /\ validate_flow Sample.host Sample.rejected_flow []
     = (false, Some (parallel_chained_msg "spare")).
Proof.
  assert (flow_stages Sample.rejected_flow !! "spare" = Some Sample.spare_stage)
    as Hst by (vm_compute; reflexivity).
  split; [reflexivity|]. split; [exact Hst|].
  apply (proj2 (parallel_chained_rejected Sample.host Sample.rejected_flow []
                  [] [] "spare" Sample.spare_stage eq_refl Hst eq_refl eq_refl));
    [reflexivity | discriminate].
Defined.

Lemma validate_task_first_kind_witness :
  validate_task Sample.host Sample.no_kind []
  = (false, Some "Task must have either 'alias' or 'command' key.")
  /\ validate_task Sample.host Sample.two_kinds []
     = validate_task Sample.host (only_alias Sample.two_kinds "nmap:scan") [].
Proof.
  split.
  - apply (proj1 (validate_task_first_kind Sample.host Sample.no_kind []));
      reflexivity.
  - apply (proj1 (proj2 (validate_task_first_kind Sample.host Sample.two_kinds [])));
      reflexivity.
Defined.

Lemma template_expansion_plain_witness :
  plain Sample.scan_template
  /\ fill_command Sample.scan_vars (render Sample.scan_template)
     = render (map (bind_token Sample.scan_vars) Sample.scan_template)
  /\ render (map (bind_token Sample.scan_vars) Sample.scan_template)
     = "-sV 10.0.0.1 -p 80".
Proof.
  assert (plain Sample.scan_template) as Hplain by (repeat constructor).
  split; [exact Hplain|]. split; [|reflexivity].
  apply (proj1 (template_expansion_plain Sample.host Sample.scan_template
                  Sample.scan_vars Hplain)).
  repeat constructor.
Defined.

(** * Further properties of the code *)

(** ** [strip_ansi_codes] on plain and on coloured text *)

(** X1: text without an ESC character is returned as it is. *)
Theorem strip_ansi_codes_plain_text (s : string) :
  esc_free s = true -> strip_ansi_codes s = s.
Proof.
  intros H. unfold strip_ansi_codes.
  destruct (Py.truthy_str s); [|reflexivity].
  induction s as [|c r IH]; [reflexivity|].
  cbn [esc_free] in H. apply andb_prop in H as [Hc Hr].
  apply negb_true_iff in Hc. cbn [ansi_sub].
  now rewrite (ansi_escape_match_not_esc _ _ Hc), (IH Hr).
Qed.

Lemma strip_ansi_codes_plain_text_witness :
  esc_free "plain text" = true /\ strip_ansi_codes "plain text" = "plain text".
Proof.
  split; [reflexivity|].
  apply (strip_ansi_codes_plain_text "plain text"). reflexivity.
Defined.

Lemma ansi_sub_length (skip : nat) (s : string) :
  String.length (ansi_sub skip s) <= String.length s.
Proof.
  revert skip. induction s as [|c r IH]; intros skip; [reflexivity|].
  cbn [ansi_sub String.length]. destruct skip as [|k].
  - destruct (ansi_escape_match (String c r)) as [[|k]|];
      cbn [String.length]; try (specialize (IH 0); lia).
    specialize (IH k). lia.
  - specialize (IH k). lia.
Qed.

(** X2: stripping never makes a text longer. *)
Theorem strip_ansi_codes_length (s : string) :
  String.length (strip_ansi_codes s) <= String.length s.
Proof.
  unfold strip_ansi_codes. destruct (Py.truthy_str s); [|reflexivity].
  apply ansi_sub_length.
Qed.

Lemma ansi_sub_skip (pre rest : string) :
  ansi_sub (String.length pre) (pre +:+ rest) = ansi_sub 0 rest.
Proof.
  induction pre as [|c pre IH]; [reflexivity|].
  rewrite append_cons. cbn [String.length ansi_sub]. exact IH.
Qed.

Lemma drop_append (pre rest : string) :
  Py.drop (String.length pre) (pre +:+ rest) = rest.
Proof.
  induction pre as [|c pre IH]; [reflexivity|].
  rewrite append_cons. cbn [String.length Py.drop]. exact IH.
Qed.

(** A greedy class stops at the end of a run that a character outside
    the class follows. *)
Lemma span_run (cls : ascii -> bool) (run : string) (c : ascii) (rest : string) :
  all_in cls run = true -> cls c = false ->
  span cls (run +:+ String c rest) = String.length run.
Proof.
  intros Hrun Hc. induction run as [|d run IH].
  - rewrite append_nil_l. cbn [span]. now rewrite Hc.
  - cbn [all_in] in Hrun. apply andb_prop in Hrun as [Hd Hrun].
    rewrite append_cons. cbn [span String.length]. now rewrite Hd, IH.
Qed.

Lemma length_append (a b : string) :
  String.length (a +:+ b) = String.length a + String.length b.
Proof.
  induction a as [|c a IH]; [reflexivity|].
  rewrite append_cons. cbn [String.length]. now rewrite IH.
Qed.

Lemma in_range_disjoint (lo1 hi1 lo2 hi2 : nat) (c : ascii) :
  hi1 < lo2 \/ hi2 < lo1 ->
  Py.in_range lo1 hi1 c = true -> Py.in_range lo2 hi2 c = false.
Proof.
  unfold Py.in_range. intros Hd [H1 H2]%andb_prop.
  apply Nat.leb_le in H1, H2. apply andb_false_iff.
  destruct Hd; [left | right]; apply Nat.leb_gt; lia.
Qed.

(** The pattern matches a whole control sequence. *)
Lemma ansi_escape_match_csi (params inter : string) (final : ascii) (rest : string) :
  all_in cls_param params = true ->
  all_in cls_inter inter = true ->
  cls_final final = true ->
  ansi_escape_match (csi params inter final +:+ rest)
  = Some (String.length (csi params inter final)).
Proof.
  intros Hp Hi Hf. unfold csi. rewrite !append_cons.
  cbn [ansi_escape_match]. unfold is_esc at 1, Py.ascii_eqb.
  rewrite Ascii.eqb_refl.
  replace (cls_fe "[") with false by reflexivity.
  replace (is_lbracket "[") with true by reflexivity.
  assert (cls_param final = false) as Hfp
    by (eapply in_range_disjoint; [|exact Hf]; lia).
  assert (cls_inter final = false) as Hfi
    by (eapply in_range_disjoint; [|exact Hf]; lia).
  assert (span cls_param ((params +:+ inter +:+ String final EmptyString) +:+ rest)
          = String.length params) as Hn1.
  { rewrite !append_assoc, append_cons, append_nil_l.
    destruct inter as [|d inter].
    - rewrite append_nil_l. now apply span_run.
    - rewrite append_cons. apply span_run; [exact Hp|].
      cbn [all_in] in Hi. apply andb_prop in Hi as [Hd _].
      eapply in_range_disjoint; [|exact Hd]. lia. }
  cbv zeta. rewrite Hn1.
  rewrite !append_assoc, drop_append, append_cons, append_nil_l.
  rewrite (span_run cls_inter inter final rest Hi Hfi), drop_append, Hf.
  f_equal. cbn [String.length]. rewrite !length_append. cbn [String.length]. lia.
Qed.

(** X3: a control sequence in front of plain text is removed whole: what
    is left is the plain text. *)
Theorem strip_ansi_codes_csi (params inter : string) (final : ascii)
    (text : string) :
  all_in cls_param params = true ->
  all_in cls_inter inter = true ->
  cls_final final = true ->
  esc_free text = true ->
  strip_ansi_codes (csi params inter final +:+ text) = text.
Proof.
  intros Hp Hi Hf Ht. unfold strip_ansi_codes.
  replace (Py.truthy_str (csi params inter final +:+ text)) with true
    by (unfold csi; now rewrite append_cons).
  pose proof (ansi_escape_match_csi params inter final text Hp Hi Hf) as Hm.
  unfold csi in *. rewrite !append_cons in *.
  cbn [ansi_sub]. rewrite Hm. cbn [String.length].
  rewrite ansi_sub_skip. now apply ansi_sub_esc_free.
Qed.

Lemma strip_ansi_codes_csi_witness :
  strip_ansi_codes (csi "1;31" EmptyString "m" +:+ "red") = "red".
Proof.
  apply (strip_ansi_codes_csi "1;31" EmptyString "m" "red"); reflexivity.
Defined.

(** ** The results the engine builds *)

Lemma gather_elements {A} (order : list nat) (coros : list (unit -> A)) (x : A) :
  x ∈ gather order coros -> exists c, c ∈ coros /\ x = c tt.
Proof.
  unfold gather, gather_slots.
  assert (forall slots : list (option A),
            (forall y, Some y ∈ slots -> exists c, c ∈ coros /\ y = c tt) ->
            forall y,
              Some y ∈ fold_left
                         (fun slots i =>
                            match coros !! i with
                            | Some c => <[i := Some (c tt)]> slots
                            | None => slots
                            end) order slots ->
              exists c, c ∈ coros /\ y = c tt) as Hfold.
  { induction order as [|i order IH]; intros slots Hslots y Hy; [now apply Hslots|].
    cbn [fold_left] in Hy. revert Hy. apply IH. intros z Hz.
    destruct (coros !! i) as [c|] eqn:Hc; [|now apply Hslots].
    apply list_elem_of_lookup in Hz as [j Hj].
    destruct (decide (i = j)) as [->|Hne].
    - destruct (decide (j < length slots)) as [Hlt|Hge].
      + rewrite list_lookup_insert_eq in Hj by assumption.
        injection Hj as <-. exists c. split; [|reflexivity].
        apply list_elem_of_lookup. eauto.
      + rewrite list_insert_ge in Hj by lia.
        apply Hslots, list_elem_of_lookup. eauto.
    - rewrite list_lookup_insert_ne in Hj by assumption.
      apply Hslots, list_elem_of_lookup. eauto. }
  intros Hx. apply list_elem_of_omap in Hx as (o & Ho & Hox).
  destruct o as [y|]; [|discriminate]. cbn in Hox. injection Hox as ->.
  revert Ho. apply Hfold. intros y Hy.
  apply elem_of_replicate in Hy as [? _]. discriminate.
Qed.

Section Results.

Variable host : Host.
Variable nested : FlowDef -> dict string -> option string -> outcome result.
Variable var_values : dict string.
Variable headers : list (string * string).
Variable strip_colors : bool.

Hypothesis nested_ok :
  forall child vars input r, nested child vars input = Ok r -> result_ok r = true.

Lemma run_alias_async_ok tool_name alias_name input (r : result) :
  run_alias_async host tool_name alias_name input headers strip_colors var_values
    = Ok r ->
  result_ok r = true.
Proof.
  unfold run_alias_async.
  destruct (load_tool host tool_name) as [tool_config tool_aliases].
  destruct (tool_aliases !! alias_name); [|discriminate].
  destruct (subprocess_run host true _ _) as [stdout stderr rc|e];
    [destruct (negb (rc =? 0)%Z)|]; now intros [= <-].
Qed.

Lemma run_command_async_ok command input (r : result) :
  run_command_async host command var_values input strip_colors = Ok r ->
  result_ok r = true.
Proof.
  unfold run_command_async.
  destruct (subprocess_run host false _ _) as [stdout stderr rc|e];
    [destruct (negb (rc =? 0)%Z)|]; now intros [= <-].
Qed.

Lemma chained_dispatch_ok (task : Task) (input : option string) (b b' : binding) :
  binding_ok b = true ->
  chained_dispatch host nested var_values headers strip_colors task input b = Ok b' ->
  binding_ok b' = true.
Proof.
  intros Hb. unfold chained_dispatch.
  destruct (task_flow task) as [flow_name|].
  - destruct (load_flow host flow_name) as [child|]; [|now intros [= <-]].
    intros H. apply bind_ok in H as (r & Hr & [= <-]). cbn. eauto.
  - destruct (task_alias task) as [alias_str|].
    + destruct (Py.split_once ":" alias_str) as [[tool_name alias_name]|];
        [|discriminate].
      intros H. apply bind_ok in H as (r & Hr & [= <-]). cbn.
      eapply run_alias_async_ok; eauto.
    + destruct (task_command task) as [command|]; [|now intros [= <-]].
      intros H. apply bind_ok in H as (r & Hr & [= <-]). cbn.
      eapply run_command_async_ok; eauto.
Qed.

Lemma run_chained_ok (tasks : list Task) (st st' : chain_state) :
  binding_ok (cs_result st) = true ->
  forallb result_ok (cs_results st) = true ->
  run_chained host nested var_values headers strip_colors tasks st = Ok st' ->
  binding_ok (cs_result st') = true /\ forallb result_ok (cs_results st') = true.
Proof.
  revert st. induction tasks as [|task tasks IH]; intros st Hb Hrs H.
  - cbn in H. now injection H as <-.
  - unfold run_chained in *. cbn [for_each] in H.
    apply bind_ok in H as (st1 & H1 & H2). revert H2. apply IH;
      unfold chained_task in H1; apply bind_ok in H1 as (b & Hd & H1);
      pose proof (chained_dispatch_ok _ _ _ _ Hb Hd) as Hb';
      destruct b as [|r|e]; try discriminate; injection H1 as <-;
      cbn [cs_result cs_results]; [exact Hb'|].
    rewrite forallb_app, Hrs. cbn. cbn in Hb'. now rewrite Hb'.
Qed.

Lemma collect_loop_ok (pairs : list (Task * outcome (option result)))
    (st st' : gather_state) :
  (forall task r, (task, Ok (Some r)) ∈ pairs -> result_ok r = true) ->
  binding_ok (gs_result st) = true ->
  forallb result_ok (gs_results st) = true ->
  for_each (collect host) pairs st = Ok st' ->
  binding_ok (gs_result st') = true /\ forallb result_ok (gs_results st') = true.
Proof.
  revert st. induction pairs as [|[task res] pairs IH]; intros st Hpairs Hb Hrs H.
  - cbn in H. now injection H as <-.
  - cbn [for_each] in H. apply bind_ok in H as (st1 & H1 & H2). revert H2.
    assert (forall task r, (task, Ok (Some r)) ∈ pairs -> result_ok r = true)
      as Hrest by (intros; eapply Hpairs; right; eauto).
    destruct res as [[r|]|e]; cbn in H1; try discriminate; injection H1 as <-.
    + assert (result_ok r = true) as Hr by (eapply Hpairs; left).
      apply IH; cbn [gs_result gs_results binding_ok]; auto.
      rewrite forallb_app, Hrs. cbn. now rewrite Hr.
    + apply IH; cbn [gs_result gs_results binding_ok]; auto.
      rewrite forallb_app, Hrs. reflexivity.
Qed.

Lemma launch_loop_ok (tasks : list Task) (input : option string)
    (acc coros : list coroutine) :
  (forall c r, c ∈ acc -> c tt = Ok (Some r) -> result_ok r = true) ->
  for_each (broadcast_coroutine host nested var_values headers strip_colors input)
    tasks acc = Ok coros ->
  forall c r, c ∈ coros -> c tt = Ok (Some r) -> result_ok r = true.
Proof.
  revert acc. induction tasks as [|task tasks IH]; intros acc Hacc H.
  - cbn in H. now injection H as <-.
  - cbn [for_each] in H. apply bind_ok in H as (acc1 & H1 & H2).
    revert H2. apply IH. intros c r Hc Hr.
    assert (forall c0 : coroutine,
              (forall r0, c0 tt = Ok (Some r0) -> result_ok r0 = true) ->
              c ∈ (acc ++ [c0])%list -> result_ok r = true) as Hsnoc.
    { intros c0 Hc0 [Hin|Hin%list_elem_of_singleton]%elem_of_app;
        [eapply Hacc; eauto | subst c0; eauto]. }
    unfold broadcast_coroutine in H1.
    destruct (task_flow task) as [flow_name|].
    + destruct (load_flow host flow_name) as [child|]; injection H1 as <-;
        eapply Hsnoc; eauto; [|discriminate].
      intros r0. destruct (nested _ _ _) as [r1|] eqn:Hn; [|discriminate].
      intros [= <-]. eauto.
    + destruct (task_alias task) as [alias_str|].
      * destruct (Py.split_once ":" alias_str) as [[tool_name alias_name]|];
          [|discriminate].
        injection H1 as <-. eapply Hsnoc; eauto.
        intros r0. destruct (run_alias_async _ _ _ _ _ _ _) as [r1|] eqn:Hn;
          [|discriminate].
        intros [= <-]. eapply run_alias_async_ok; eauto.
      * destruct (task_command task) as [command|]; injection H1 as <-;
          [|eapply Hacc; eauto].
        eapply Hsnoc; eauto.
        intros r0. destruct (run_command_async _ _ _ _ _) as [r1|] eqn:Hn;
          [|discriminate].
        intros [= <-]. eapply run_command_async_ok; eauto.
Qed.

Lemma run_stage_def_ok (stage_def : StageDef) (input : option string)
    (b b' : binding) (results : list result) (out : option string) :
  binding_ok b = true ->
  run_stage_def host nested var_values headers strip_colors stage_def input b
    = Ok (b', results, out) ->
  binding_ok b' = true /\ forallb result_ok results = true.
Proof.
  intros Hb. unfold run_stage_def.
  destruct (_ && _).
  - unfold run_broadcast. intros H.
    apply bind_ok in H as (coros & Hcoros & H).
    apply bind_ok in H as (st & Hloop & [= <- <- <-]).
    eapply collect_loop_ok; [| | |exact Hloop]; auto.
    intros task r Hin. apply list_elem_of_In, in_combine_r, list_elem_of_In in Hin.
    apply gather_elements in Hin as (c & Hc & Hr).
    eapply (launch_loop_ok _ _ [] coros); eauto.
    intros ? ? Hnil. now apply not_elem_of_nil in Hnil.
  - destruct (_ && _).
    + unfold run_chained_stage. intros H.
      apply bind_ok in H as (st & Hloop & [= <- <- <-]).
      eapply run_chained_ok; [| |exact Hloop]; auto.
    + now intros [= <- <- <-].
Qed.

Lemma run_flow_body_ok (flow_def : FlowDef) (input : option string) (r : result) :
  run_flow_body host nested var_values headers strip_colors flow_def input = Ok r ->
  result_ok r = true.
Proof.
  unfold run_flow_body. intros H. apply bind_ok in H as (st & Hloop & [= <-]).
  cbn [result_ok andb].
  assert (forall entries st0 st1,
            binding_ok (fs_result st0) = true ->
            forallb (fun stage : string * list result =>
                       let '(_, results) := stage in forallb result_ok results)
              (fs_stage_results st0) = true ->
            for_each (run_stage host nested var_values headers strip_colors
                        (flow_stages flow_def)) entries st0 = Ok st1 ->
            forallb (fun stage : string * list result =>
                       let '(_, results) := stage in forallb result_ok results)
              (fs_stage_results st1) = true) as Hall.
  { induction entries as [|e entries IH]; intros st0 st1 Hb Hrs H.
    - cbn in H. now injection H as <-.
    - cbn [for_each] in H. apply bind_ok in H as (st2 & H1 & H2).
      unfold run_stage in H1.
      destruct (entry_stage e) as [stage_name|]; [|discriminate].
      apply bind_ok in H1 as ([[b rs] out] & Hdef & [= <-]).
      apply run_stage_def_ok in Hdef as [Hb' Hrs']; [|exact Hb].
      revert H2. apply IH; cbn [fs_result fs_stage_results]; [exact Hb'|].
      rewrite forallb_app, Hrs. cbn. now rewrite Hrs'. }
  eapply Hall; [| |exact Hloop]; reflexivity.
Qed.

End Results.

(** X4: in every result the engine returns, at every level of nesting, a
    task result that reports a failure carries the empty output and a flow
    result reports success. *)
Theorem run_flow_internal_result_ok (host : Host) (flow_def : FlowDef)
    (var_values : dict string) (input_data : option string)
    (headers : list (string * string)) (strip_colors : bool) (flow_depth : nat)
    (r : result) :
  run_flow_internal host flow_def var_values input_data headers strip_colors
    flow_depth = Ok r ->
  result_ok r = true.
Proof.
  unfold run_flow_internal. generalize (6 - flow_depth) as levels.
  intros levels. revert flow_def var_values input_data r.
  induction levels as [|n IH]; intros flow_def var_values input_data r H.
  - cbn in H. now injection H as <-.
  - cbn [run_flow_levels] in H. eapply run_flow_body_ok; [|exact H].
    intros child vars input r0. apply IH.
Qed.

Lemma run_flow_internal_result_ok_witness :
  run_flow_internal Sample.host Sample.two_stage_flow [] None [] false 0
    = Ok Sample.two_stage_result
  /\ result_ok Sample.two_stage_result = true.
Proof.
  assert (run_flow_internal Sample.host Sample.two_stage_flow [] None [] false 0
          = Ok Sample.two_stage_result) as Hrun by (vm_compute; reflexivity).
  split; [exact Hrun|].
  exact (run_flow_internal_result_ok _ _ _ _ _ _ _ _ Hrun).
Defined.

(** ** The shape of the stage results *)

Section Shape.

Variable host : Host.
Variable nested : FlowDef -> dict string -> option string -> outcome result.
Variable var_values : dict string.
Variable headers : list (string * string).
Variable strip_colors : bool.

Lemma run_stage_def_count (stage_def : StageDef) (input : option string)
    (b b' : binding) (results : list result) (out : option string) :
  run_stage_def host nested var_values headers strip_colors stage_def input b
    = Ok (b', results, out) ->
  length results <= length (stage_tasks stage_def)
  /\ (is_parallel stage_def = false ->
      yaml_is (distribution stage_def) "chained" = true ->
      length results = length (stage_tasks stage_def)).
Proof.
  unfold run_stage_def. destruct (is_parallel stage_def) eqn:Hpar; cbn [andb negb].
  - destruct (yaml_is (distribution stage_def) "broadcast").
    + unfold run_broadcast. intros H.
      apply bind_ok in H as (coros & _ & H).
      apply bind_ok in H as (st & Hloop & [= <- <- <-]).
      apply collect_loop in Hloop as (rs & Hrs & -> & _).
      apply Forall2_length in Hrs. cbn. rewrite <- Hrs, length_combine.
      split; [lia | discriminate].
    + rewrite andb_false_r. intros [= <- <- <-]. cbn. split; [lia | discriminate].
  - rewrite andb_true_r. destruct (yaml_is (distribution stage_def) "chained").
    + unfold run_chained_stage. intros H.
      apply bind_ok in H as (st & Hloop & [= <- <- <-]).
      apply run_chained_length in Hloop. cbn in Hloop. split; [lia | auto].
    + intros [= <- <- <-]. cbn. split; [lia | discriminate].
Qed.

Lemma run_stages_shape (stages : gmap string StageDef)
    (entries : list StageEntry) (st st' : flow_state) :
  for_each (run_stage host nested var_values headers strip_colors stages) entries st
    = Ok st' ->
  exists added,
    fs_stage_results st' = (fs_stage_results st ++ added)%list
    /\ Forall2
         (fun stage_entry stage =>
            let stage_def := default empty_stage (stages !! fst stage) in
            entry_stage stage_entry = Some (fst stage)
            /\ length (snd stage) <= length (stage_tasks stage_def)
            /\ (is_parallel stage_def = false ->
                yaml_is (distribution stage_def) "chained" = true ->
                length (snd stage) = length (stage_tasks stage_def)))
         entries added.
Proof.
  revert st. induction entries as [|e entries IH]; intros st H.
  - cbn in H. injection H as <-. exists []. rewrite app_nil_r. auto.
  - cbn [for_each] in H. apply bind_ok in H as (st1 & H1 & H2).
    unfold run_stage in H1.
    destruct (entry_stage e) as [stage_name|] eqn:He; [|discriminate].
    apply bind_ok in H1 as ([[b rs] out] & Hdef & [= <-]).
    apply run_stage_def_count in Hdef as [Hle Heq].
    apply IH in H2 as (added & Hadded & Hshape). cbn in Hadded.
    exists ((stage_name, rs) :: added). split.
    + now rewrite Hadded, <- app_assoc.
    + constructor; auto.
Qed.

End Shape.

(** X5: a run within the depth limit that returns holds one stage result
    per entry of the flow order, in that order and under the name of the
    entry; a stage result never holds more task results than the stage
    has tasks, and a chained stage holds exactly one per task. *)
Theorem stage_results_shape (host : Host) (flow_def : FlowDef)
    (var_values : dict string) (input_data : option string)
    (headers : list (string * string)) (strip_colors : bool) (flow_depth : nat)
    (r : result) :
  flow_depth <= 5 ->
  run_flow_internal host flow_def var_values input_data headers strip_colors
    flow_depth = Ok r ->
  exists out stage_results,
    r = FlowResult out true stage_results
    /\ Forall2
         (fun stage_entry stage =>
            let stage_def :=
              default empty_stage (flow_stages flow_def !! fst stage) in
            entry_stage stage_entry = Some (fst stage)
            /\ length (snd stage) <= length (stage_tasks stage_def)
            /\ (is_parallel stage_def = false ->
                yaml_is (distribution stage_def) "chained" = true ->
                length (snd stage) = length (stage_tasks stage_def)))
         (flow_order flow_def) stage_results.
Proof.
  intros Hd H. rewrite run_flow_internal_eq in H.
  replace (5 <? flow_depth)%nat with false in H
    by (symmetry; apply Nat.ltb_ge; lia).
  unfold run_flow_body in H. apply bind_ok in H as (st & Hloop & [= <-]).
  apply run_stages_shape in Hloop as (added & Hadded & Hshape).
  cbn in Hadded. subst added. eauto.
Qed.

Lemma stage_results_shape_witness :
  exists out stage_results,
    Sample.two_stage_result = FlowResult out true stage_results
    /\ Forall2
         (fun stage_entry stage =>
            let stage_def :=
              default empty_stage
                (flow_stages Sample.two_stage_flow !! fst stage) in
            entry_stage stage_entry = Some (fst stage)
            /\ length (snd stage) <= length (stage_tasks stage_def)
            /\ (is_parallel stage_def = false ->
                yaml_is (distribution stage_def) "chained" = true ->
                length (snd stage) = length (stage_tasks stage_def)))
         (flow_order Sample.two_stage_flow) stage_results.
Proof.
  apply (stage_results_shape Sample.host Sample.two_stage_flow [] None [] false 0).
  - lia.
  - vm_compute. reflexivity.
Defined.

(** ** Tasks of a broadcast stage, one by one *)

Section Isolation.

Variable host : Host.
Variable nested : FlowDef -> dict string -> option string -> outcome result.
Variable var_values : dict string.
Variable headers : list (string * string).
Variable strip_colors : bool.

Abbreviation alone := (run_alone host nested var_values headers strip_colors).

Lemma launch_alone (task : Task) (input : option string) (acc : list coroutine) :
  launches host task -> has_kind task = true ->
  exists c : coroutine,
    broadcast_coroutine host nested var_values headers strip_colors input acc task
    = Ok (acc ++ [c])%list
    /\ c tt = alone input task /\ c tt <> Ok None.
Proof.
  unfold launches, has_kind, broadcast_coroutine, run_alone, chained_dispatch.
  intros Hl Hk. destruct (task_flow task) as [flow_name|].
  - destruct Hl as [child ->]. eexists. split; [reflexivity|].
    destruct (nested _ _ _); cbn; split; congruence.
  - destruct (task_alias task) as [alias_str|].
    + destruct Hl as [[tool_name alias_name] ->]. eexists. split; [reflexivity|].
      destruct (run_alias_async _ _ _ _ _ _ _); cbn; split; congruence.
    + destruct (task_command task) as [command|]; [|discriminate Hk].
      eexists. split; [reflexivity|].
      destruct (run_command_async _ _ _ _ _); cbn; split; congruence.
Qed.

Lemma launch_loop_alone (tasks : list Task) (input : option string)
    (acc : list coroutine) :
  Forall (fun task => launches host task /\ has_kind task = true) tasks ->
  exists coros,
    for_each (broadcast_coroutine host nested var_values headers strip_colors input)
      tasks acc = Ok coros
    /\ map (fun c : coroutine => c tt) coros
       = (map (fun c : coroutine => c tt) acc ++ map (alone input) tasks)%list.
Proof.
  intros Htasks. revert acc.
  induction Htasks as [|task tasks [Hl Hk] _ IH]; intros acc.
  - exists acc. cbn. now rewrite app_nil_r.
  - cbn [for_each].
    destruct (launch_alone task input acc Hl Hk) as (c & -> & Hc & _).
    destruct (IH (acc ++ [c])%list) as (coros & Hcoros & Hout).
    exists coros. split; [exact Hcoros|].
    rewrite Hout, map_app, <- app_assoc. cbn. now rewrite Hc.
Qed.

Lemma alone_recorded (input : option string) (task : Task) :
  launches host task -> has_kind task = true ->
  records host (task, alone input task)
    (recorded_alone host nested var_values headers strip_colors input task).
Proof.
  intros Hl Hk.
  destruct (launch_alone task input [] Hl Hk) as (c & _ & Hc & Hnone).
  rewrite Hc in Hnone. unfold records, recorded_alone, run_alone in *. cbn [fst snd].
  destruct (chained_dispatch _ _ _ _ _ _ _ _) as [[|r|e]|e]; try congruence; eauto.
Qed.

Lemma collect_alone (tasks : list Task) (input : option string) (st : gather_state) :
  Forall (fun task => launches host task /\ has_kind task = true) tasks ->
  exists st',
    for_each (collect host) (combine tasks (map (alone input) tasks)) st = Ok st'
    /\ gs_results st'
       = (gs_results st
          ++ map (recorded_alone host nested var_values headers strip_colors input)
               tasks)%list.
Proof.
  intros Htasks. revert st.
  induction Htasks as [|task tasks [Hl Hk] _ IH]; intros st.
  - exists st. cbn. now rewrite app_nil_r.
  - cbn [map combine for_each].
    pose proof (alone_recorded input task Hl Hk) as Hrec.
    unfold records in Hrec. cbn [fst snd] in Hrec.
    destruct Hrec as [Hok|(e & Hraise & Hr)].
    + rewrite Hok. cbn [collect mbind outcome_bind mret outcome_ret].
      destruct (IH {| gs_result := BoundResult
                        (recorded_alone host nested var_values headers
                           strip_colors input task);
                      gs_results :=
                        (gs_results st
                         ++ [recorded_alone host nested var_values headers
                               strip_colors input task])%list;
                      gs_combined :=
                        if r_success
                             (recorded_alone host nested var_values headers
                                strip_colors input task)
                           && Py.truthy_opt
                                (r_output
                                   (recorded_alone host nested var_values headers
                                      strip_colors input task))
                        then (gs_combined st
                              ++ [Py.strip
                                    (default EmptyString
                                       (r_output
                                          (recorded_alone host nested var_values
                                             headers strip_colors input task)))])%list
                        else gs_combined st |}) as (st' & -> & Hres).
      exists st'. split; [reflexivity|].
      rewrite Hres. cbn [gs_results]. now rewrite <- app_assoc.
    + rewrite Hraise. cbn [collect mbind outcome_bind mret outcome_ret].
      destruct (IH {| gs_result := BoundException e;
                      gs_results :=
                        (gs_results st
                         ++ [TaskResult EmptyString false (str_task host task)])%list;
                      gs_combined := gs_combined st |}) as (st' & -> & Hres).
      exists st'. split; [reflexivity|].
      rewrite Hres. cbn [gs_results]. rewrite <- app_assoc. cbn. now rewrite Hr.
Qed.

(** X6: in a broadcast stage whose tasks all have a kind and launch, the
    stage returns and the entry recorded for each task is what that task
    yields when it is run alone on the stage input: its own result, or a
    failed result with empty output when it raises.  No task changes the
    entry of another. *)
Theorem broadcast_tasks_isolated (tasks : list Task) (input : option string)
    (previous : binding) :
  completes_all (completion_order host) ->
  Forall (fun task => launches host task /\ has_kind task = true) tasks ->
  exists b out,
    run_broadcast host nested var_values headers strip_colors tasks input previous
    = Ok (b,
          map (recorded_alone host nested var_values headers strip_colors input)
            tasks,
          out).
Proof.
  intros Hall Htasks. rewrite run_broadcast_in_order by assumption.
  destruct (launch_loop_alone tasks input [] Htasks) as (coros & -> & Hout).
  cbn [mbind outcome_bind]. unfold coroutine in *. rewrite Hout. cbn [map app].
  destruct (collect_alone tasks input
              {| gs_result := previous; gs_results := []; gs_combined := [] |}
              Htasks) as (st' & -> & Hres).
  cbn [mbind outcome_bind mret outcome_ret]. rewrite Hres. cbn. eauto.
Qed.

Lemma collect_none (good : list (outcome (option result)))
    (rest : list (outcome (option result))) (tasks : list Task)
    (st : gather_state) :
  Forall (fun o => o <> Ok None) good ->
  length good < length tasks ->
  for_each (collect host) (combine tasks (good ++ Ok None :: rest)) st
  = Raise (TypeError "'NoneType' object is not subscriptable").
Proof.
  intros Hgood. revert tasks st.
  induction Hgood as [|o good Ho _ IH]; intros [|task tasks] st Hlen;
    cbn in Hlen; try lia; cbn [app combine for_each].
  - reflexivity.
  - destruct o as [[r|]|e]; [| congruence |];
      cbn [collect mbind outcome_bind mret outcome_ret]; apply IH; lia.
Qed.

(** The loop that creates the coroutines only adds to the list, one
    coroutine per task at most. *)
Lemma launch_loop_extends (tasks : list Task) (input : option string)
    (acc coros : list coroutine) :
  for_each (broadcast_coroutine host nested var_values headers strip_colors input)
    tasks acc = Ok coros ->
  exists more, coros = (acc ++ more)%list /\ length more <= length tasks.
Proof.
  revert acc. induction tasks as [|task tasks IH]; intros acc H.
  - cbn in H. injection H as <-. exists []. rewrite app_nil_r. auto.
  - cbn [for_each] in H. apply bind_ok in H as (acc1 & H1 & H2).
    apply IH in H2 as (more & -> & Hlen).
    assert (exists one, acc1 = (acc ++ one)%list /\ length one <= 1)
      as (one & -> & Hone).
    { unfold broadcast_coroutine in H1.
      destruct (task_flow task) as [flow_name|].
      - destruct (load_flow host flow_name); injection H1 as <-; eexists; eauto.
      - destruct (task_alias task) as [alias_str|].
        + destruct (Py.split_once ":" alias_str) as [[tool_name alias_name]|];
            [|discriminate].
          injection H1 as <-. eexists; eauto.
        + destruct (task_command task); injection H1 as <-;
            [eexists; eauto|].
          exists []. rewrite app_nil_r. cbn. auto. }
    exists (one ++ more)%list. rewrite <- app_assoc, length_app. cbn. split; [auto | lia].
Qed.

(** X7: a nested-flow task whose flow does not resolve is recorded as a
    failed task by a chained stage, which goes on with no running value;
    in a broadcast stage the same task makes the stage raise a
    [TypeError]. *)
Theorem unresolved_flow_task (task : Task) (flow_name : string) :
  task_flow task = Some flow_name ->
  load_flow host flow_name = None ->
  (forall st,
      chained_task host nested var_values headers strip_colors st task
      = Ok {| cs_input := None;
              cs_result := BoundResult (flow_not_found flow_name);
              cs_results := (cs_results st ++ [flow_not_found flow_name])%list |})
  /\ (forall before after input previous,
        completes_all (completion_order host) ->
        Forall (launches host) before ->
        Forall (launches host) after ->
        run_broadcast host nested var_values headers strip_colors
          (before ++ task :: after) input previous
        = Raise (TypeError "'NoneType' object is not subscriptable")).
Proof.
  intros Hflow Hload. split.
  - intros st. unfold chained_task, chained_dispatch. now rewrite Hflow, Hload.
  - intros before after input previous Hall Hbefore Hafter.
    rewrite run_broadcast_in_order by assumption.
    destruct (launch_loop host nested var_values headers strip_colors before input []
                Hbefore) as (coros1 & Hloop1 & Hgood1); [constructor|].
    pose proof (launch_loop_extends _ _ _ _ Hloop1) as (more1 & Hmore1 & Hlen1).
    cbn in Hmore1. subst more1.
    assert (broadcast_coroutine host nested var_values headers strip_colors input
              coros1 task = Ok (coros1 ++ [fun _ => Ok None])%list) as Hnone.
    { unfold broadcast_coroutine. now rewrite Hflow, Hload. }
    destruct (for_each
                (broadcast_coroutine host nested var_values headers strip_colors
                   input) after (coros1 ++ [fun _ => Ok None])%list)
      as [coros|e] eqn:Hloop2.
    + pose proof (launch_loop_extends _ _ _ _ Hloop2) as (more2 & -> & _).
      rewrite for_each_app, Hloop1. cbn [mbind outcome_bind for_each].
      rewrite Hnone. cbn [mbind outcome_bind]. rewrite Hloop2.
      cbn [mbind outcome_bind]. rewrite <- app_assoc, map_app. cbn [app map].
      rewrite collect_none; [reflexivity | |].
      * apply Forall_fmap. exact Hgood1.
      * rewrite length_map, length_app. cbn. lia.
    + exfalso. clear -Hafter Hloop2.
      revert Hloop2. generalize (coros1 ++ [fun _ : unit => Ok None])%list.
      induction Hafter as [|t after Ht _ IH]; intros acc H; [discriminate|].
      cbn [for_each] in H.
      assert (exists acc1,
                broadcast_coroutine host nested var_values headers strip_colors
                  input acc t = Ok acc1) as [acc1 Hacc1].
      { unfold broadcast_coroutine, launches in *.
        destruct (task_flow t); [destruct Ht as [? ->]; eauto|].
        destruct (task_alias t); [destruct Ht as [[] ->]; eauto|].
        destruct (task_command t); eauto. }
      rewrite Hacc1 in H. cbn in H. eauto.
Qed.

End Isolation.

Lemma broadcast_tasks_isolated_witness :
  Forall (fun task => launches Sample.host task /\ has_kind task = true)
    Sample.fan_tasks
  /\ exists b out,
       run_broadcast Sample.host Sample.no_nested [] [] false Sample.fan_tasks
         None Unbound
       = Ok (b,
             map (recorded_alone Sample.host Sample.no_nested [] [] false None)
               Sample.fan_tasks,
             out).
Proof.
  assert (Forall (fun task => launches Sample.host task /\ has_kind task = true)
            Sample.fan_tasks) as Htasks
    by (repeat constructor).
  split; [exact Htasks|].
  exact (broadcast_tasks_isolated Sample.host Sample.no_nested [] [] false
           Sample.fan_tasks None Unbound sample_completes_all Htasks).
Defined.

Lemma unresolved_flow_task_witness :
  task_flow (Sample.flow_task "ghost") = Some "ghost"
  /\ load_flow Sample.host "ghost" = None
  /\ chained_task Sample.host Sample.no_nested [] [] false Sample.start
       (Sample.flow_task "ghost")
     = Ok {| cs_input := None;
             cs_result := BoundResult (flow_not_found "ghost");
             cs_results := [flow_not_found "ghost"] |}
  /\ run_broadcast Sample.host Sample.no_nested [] [] false Sample.ghost_tasks
       None Unbound
     = Raise (TypeError "'NoneType' object is not subscriptable").
Proof.
  split; [reflexivity|]. split; [reflexivity|].
  pose proof (unresolved_flow_task Sample.host Sample.no_nested [] [] false
                (Sample.flow_task "ghost") "ghost" eq_refl eq_refl) as [Hc Hb].
  split.
  - exact (Hc Sample.start).
  - apply (Hb [Sample.command_task "echo a"] [Sample.command_task "echo b"] None
             Unbound sample_completes_all); repeat constructor.
Defined.

(** ** What the validator accepts *)

Section Accepted.

Variable host : Host.

Lemma first_invalid_task_none (tasks : list Task) (var_values : dict string) :
  first_invalid_task host tasks var_values = None
  <-> Forall (fun task => fst (validate_task host task var_values) = true) tasks.
Proof.
  induction tasks as [|task tasks IH]; cbn [first_invalid_task].
  - split; [constructor | reflexivity].
  - destruct (validate_task host task var_values) as [[|] msg] eqn:Hv; cbn.
    + rewrite IH. split.
      * intros H. constructor; [now rewrite Hv | exact H].
      * now intros H; inversion H.
    + split; [discriminate|]. intros H. inversion H as [|? ? Hhd _]; subst.
      rewrite Hv in Hhd. discriminate.
Qed.

Lemma validate_entry_none (stages : gmap string StageDef)
    (var_values : dict string) (stage_entry : StageEntry) :
  validate_entry host stages var_values stage_entry = None
  <-> entry_valid host stages var_values stage_entry.
Proof.
  unfold validate_entry, entry_valid. split.
  - destruct (entry_stage stage_entry) as [stage_name|]; [|discriminate].
    destruct (stages !! stage_name) as [stage_def|] eqn:Hst; [|discriminate].
    destruct (stage_tasks stage_def) as [|task tasks] eqn:Htasks; [discriminate|].
    destruct (is_parallel stage_def && _) eqn:Hpc; [discriminate|].
    destruct (first_invalid_task host (task :: tasks) var_values) eqn:Hf;
      [discriminate|].
    intros _. exists stage_name, stage_def.
    split; [reflexivity|]. split; [exact Hst|]. split; [congruence|].
    split; [exact Hpc|]. rewrite Htasks. now apply first_invalid_task_none.
  - intros (stage_name & stage_def & -> & -> & Htasks & -> & Hvalid).
    apply first_invalid_task_none in Hvalid.
    destruct (stage_tasks stage_def); [congruence|]. now rewrite Hvalid.
Qed.

Lemma validate_entries_none (stages : gmap string StageDef)
    (var_values : dict string) (entries : list StageEntry) :
  validate_entries host stages var_values entries = None
  <-> Forall (entry_valid host stages var_values) entries.
Proof.
  induction entries as [|e entries IH]; cbn [validate_entries].
  - split; [constructor | reflexivity].
  - destruct (validate_entry host stages var_values e) eqn:He.
    + split; [discriminate|]. intros H. inversion H as [|? ? Hhd _]; subst.
      apply validate_entry_none in Hhd. congruence.
    + rewrite IH. apply validate_entry_none in He. split.
      * intros H. now constructor.
      * now intros H; inversion H.
Qed.

(** X8: [validate_flow] accepts a flow exactly when the flow has stages,
    its order is not empty, and every entry of the order names a stage
    that is defined, has tasks, is not parallel and chained at once, and
    whose tasks all pass [validate_task]. *)
Theorem validate_flow_accepts (flow_def : FlowDef) (var_values : dict string) :
  fst (validate_flow host flow_def var_values) = true
  <-> flow_stages flow_def <> ∅
      /\ flow_order flow_def <> []
      /\ Forall (entry_valid host (flow_stages flow_def) var_values)
           (flow_order flow_def).
Proof.
  unfold validate_flow. split.
  - destruct (size (flow_stages flow_def) =? 0)%nat eqn:Hsize; [discriminate|].
    destruct (flow_order flow_def) as [|e entries] eqn:Horder; [discriminate|].
    destruct (validate_entries _ _ _ _) eqn:Hv; [discriminate|].
    intros _. split; [|split; [discriminate|]].
    + intros Hempty. rewrite Hempty, map_size_empty in Hsize. discriminate.
    + now apply validate_entries_none.
  - intros (Hstages & Horder & Hvalid).
    destruct (size (flow_stages flow_def) =? 0)%nat eqn:Hsize.
    + apply Nat.eqb_eq, map_size_empty_inv in Hsize. contradiction.
    + apply validate_entries_none in Hvalid.
      destruct (flow_order flow_def); [contradiction|]. now rewrite Hvalid.
Qed.

Lemma validate_task_verdict (task : Task) (var_values : dict string) :
  validate_task host task var_values = (true, None)
  \/ exists msg, validate_task host task var_values = (false, Some msg).
Proof.
  unfold validate_task.
  destruct (task_alias task) as [alias_str|].
  - unfold validate_alias_task.
    destruct (negb (Py.contains_char ":" alias_str)); [eauto|].
    destruct (Py.split_once ":" alias_str) as [[tool_name alias_name]|]; [|eauto].
    destruct (negb (tool_isdir host tool_name)); [eauto|].
    destruct (load_tool host tool_name) as [tool_config tool_aliases].
    destruct (tool_aliases !! alias_name); [|eauto].
    destruct (task_settings task) as [settings|]; [|eauto].
    destruct (_ && _); [eauto|].
    destruct (first_non_bool settings); eauto.
  - destruct (task_command task) as [cmd|].
    + unfold validate_command_task.
      destruct (find _ _); [eauto|].
      destruct (task_settings task) as [settings|]; [|eauto].
      destruct (first_non_bool settings); eauto.
    + destruct (task_flow task) as [flow_name|]; [|eauto].
      unfold validate_flow_task.
      destruct (load_flow host flow_name); [|eauto].
      destruct (find _ _) as [[? ?]|]; eauto.
Qed.

(** X9: the validators answer [(True, None)] or [(False, message)]: a
    rejection always carries a message (the text that is printed) and an
    acceptance never does, for a task and for a flow. *)
Theorem validation_verdicts (var_values : dict string) :
  (forall task,
      validate_task host task var_values = (true, None)
      \/ exists msg, validate_task host task var_values = (false, Some msg))
  /\ (forall flow_def,
        validate_flow host flow_def var_values = (true, None)
        \/ exists msg, validate_flow host flow_def var_values = (false, Some msg)).
Proof.
  split; [intros task; apply validate_task_verdict|].
  intros flow_def. unfold validate_flow.
  destruct (size _ =? 0)%nat; [eauto|].
  destruct (flow_order flow_def); [eauto|].
  destruct (validate_entries _ _ _ _); eauto.
Qed.




End Accepted.



(** ** Variables of aliases and of nested flows *)

Lemma dict_set_keys {V} (d : dict V) (k : string) (x v : V) :
  dict_get d k = Some x -> map fst (dict_set d k v) = map fst d.
Proof.
  induction d as [|[k' w] d IH]; [discriminate|].
  cbn [dict_get dict_set]. destruct (String.eqb_spec k' k) as [->|Hne].
  - reflexivity.
  - intros H. cbn [map fst]. now rewrite IH.
Qed.

Lemma dict_get_set_other {V} (d : dict V) (k k' : string) (v : V) :
  k <> k' -> dict_get (dict_set d k v) k' = dict_get d k'.
Proof.
  intros Hne. induction d as [|[k0 w] d IH]; cbn [dict_get dict_set].
  - apply String.eqb_neq in Hne. now rewrite Hne.
  - destruct (String.eqb_spec k0 k) as [->|Hk0]; cbn [dict_get].
    + apply String.eqb_neq in Hne. now rewrite Hne.
    + destruct (String.eqb k0 k'); [reflexivity | exact IH].
Qed.

(** X11: the transforms of an alias neither add nor remove nor reorder a
    variable, and they leave the value of every variable for which the alias
    declares no transform as it is. *)
Theorem apply_transforms_frame (host : Host) (variables : list VarDef)
    (vars : dict string) :
  map fst (apply_transforms host variables vars) = map fst vars
  /\ forall name,
       (forall var_def, var_def ∈ variables -> var_name var_def = name ->
                        var_transform var_def = None) ->
       dict_get (apply_transforms host variables vars) name = dict_get vars name.
Proof.
  unfold apply_transforms. revert vars.
  induction variables as [|var_def variables IH]; intros vars; [auto|].
  cbn [fold_left].
  destruct (dict_get vars (var_name var_def)) as [value|] eqn:Hget.
  - destruct (var_transform var_def) as [tr|] eqn:Htr.
    + destruct (IH (dict_set vars (var_name var_def)
                      (transform_value host value tr))) as [Hkeys Hvals].
      split; [now rewrite Hkeys, (dict_set_keys _ _ _ _ Hget)|].
      intros name Hname. rewrite Hvals.
      * apply dict_get_set_other. intros Heq.
        specialize (Hname var_def (list_elem_of_here _ _) Heq). congruence.
      * intros vd Hin. apply Hname. now right.
    + destruct (IH vars) as [Hkeys Hvals]. split; [exact Hkeys|].
      intros name Hname. apply Hvals. intros vd Hin. apply Hname. now right.
  - destruct (IH vars) as [Hkeys Hvals]. split; [exact Hkeys|].
    intros name Hname. apply Hvals. intros vd Hin. apply Hname. now right.
Qed.

(** X12: once [validate_task] has accepted a nested-flow record, the
    bindings handed to the nested flow keep the keys of the record in
    order; a literal value is passed as it is and a [{{name}}] value is
    replaced by the value of [name] in the calling flow, never left as
    text. *)
Theorem child_vars_resolved (host : Host) (task : Task) (flow_name : string)
    (var_values : dict string) :
  fst (validate_flow_task host task flow_name var_values) = true ->
  Forall2
    (fun entry bound =>
       fst bound = fst entry
       /\ if Py.startswith "{{" (snd entry)
          then dict_get var_values (Py.slice_2_m2 (snd entry)) = Some (snd bound)
          else snd bound = snd entry)
    (default [] (task_variables task)) (child_vars var_values task).
Proof.
  unfold validate_flow_task, child_vars.
  destruct (load_flow host flow_name); [|discriminate].
  destruct (find _ _) as [[k v]|] eqn:Hfind; [discriminate|]. intros _.
  pose proof (find_none _ _ Hfind) as Hall. clear Hfind.
  induction (default [] (task_variables task)) as [|[k v] l IH]; [constructor|].
  cbn [map]. constructor.
  - cbn [fst snd]. split; [reflexivity|].
    specialize (Hall (k, v) (or_introl eq_refl)).
    change (Py.startswith "{{" v
            && negb (dict_mem var_values (Py.slice_2_m2 v)) = false) in Hall.
    destruct (Py.startswith "{{" v); [|reflexivity].
    cbn [andb] in Hall. apply negb_false_iff in Hall. unfold dict_mem in Hall.
    now destruct (dict_get var_values (Py.slice_2_m2 v)).
  - apply IH. intros x Hx. apply Hall. now right.
Qed.

Lemma child_vars_resolved_witness :
  fst (validate_flow_task Sample.host Sample.nested_with_vars "loop"
         Sample.caller_vars) = true
  /\ child_vars Sample.caller_vars Sample.nested_with_vars
     = [("target", "example.com"); ("mode", "fast")]
  /\ Forall2
       (fun entry bound =>
          fst bound = fst entry
          /\ if Py.startswith "{{" (snd entry)
             then dict_get Sample.caller_vars (Py.slice_2_m2 (snd entry))
                  = Some (snd bound)
             else snd bound = snd entry)
       (default [] (task_variables Sample.nested_with_vars))
       (child_vars Sample.caller_vars Sample.nested_with_vars).
Proof.
  split; [reflexivity|]. split; [reflexivity|].
  apply (child_vars_resolved Sample.host Sample.nested_with_vars "loop"
           Sample.caller_vars).
  reflexivity.
Defined.

Lemma fold_left_append {A} (f : A -> string) (l : list A) (base : string) :
  fold_left (fun cmd a => cmd +:+ f a) l base
  = base +:+ concat_strings (map f l).
Proof.
  revert base. induction l as [|a l IH]; intros base; cbn [fold_left map].
  - now rewrite append_nil_r.
  - rewrite IH. unfold concat_strings. cbn [fold_right]. now rewrite append_assoc.
Qed.

(** X13: the command line of an alias run with headers is the command
    line without headers followed by one flag and quoted header per header,
    in order, when the tool declares a header flag; without a flag the
    headers are ignored. *)
Theorem alias_command_line_headers (host : Host) (tool_config : ToolConfig)
    (alias_def : AliasDef) (headers : list (string * string))
    (var_values : dict string) :
  alias_command_line host tool_config alias_def headers var_values
  = alias_command_line host tool_config alias_def [] var_values
    +:+ match tool_header_flag tool_config with
        | Some header_flag =>
            if Py.truthy_str header_flag
            then concat_strings (map (header_argument header_flag) headers)
            else EmptyString
        | None => EmptyString
        end.
Proof.
  unfold alias_command_line.
  rewrite (bool_decide_eq_true_2 ([] = [])) by reflexivity.
  rewrite andb_false_r.
  destruct (tool_header_flag tool_config) as [header_flag|];
    cbn [default from_option id Py.truthy_str andb]; [|now rewrite append_nil_r].
  destruct (Py.truthy_str header_flag); cbn [andb]; [|now rewrite append_nil_r].
  destruct (bool_decide (headers = [])) eqn:Hnil; cbn [negb].
  - apply bool_decide_eq_true in Hnil. subst headers. cbn.
    now rewrite append_nil_r.
  - rewrite <- (fold_left_append (header_argument header_flag)).
    clear Hnil. generalize (fmt_opt (tool_run_command tool_config) +:+ " "
                            +:+ fill_template (alias_variables alias_def)
                                  (apply_transforms host (alias_variables alias_def)
                                     var_values)
                                  (default EmptyString (alias_command alias_def))).
    induction headers as [|[key value] headers IH]; intros base; [reflexivity|].
    cbn [fold_left]. apply IH.
Qed.

(** ** Validation and expansion of a raw command *)

Lemma placeholder_match_other (c : ascii) (r : string) :
  c <> "{"%char -> placeholder_match (String c r) = None.
Proof.
  intros Hc. unfold placeholder_match.
  destruct (Py.startswith "{{" (String c r)) eqn:Hs; [|reflexivity].
  apply startswith_cons in Hs as [? _]. congruence.
Qed.

Lemma findall_text (text rest : string) :
  brace_free text = true ->
  findall_scan 0 (text +:+ rest) = findall_scan 0 rest.
Proof.
  induction text as [|c text IH]; intros H; [reflexivity|].
  apply brace_free_cons in H as (Hc & _ & H).
  rewrite append_cons. cbn [findall_scan].
  now rewrite (placeholder_match_other _ _ Hc), IH.
Qed.

Lemma findall_skip (pre rest : string) :
  findall_scan (String.length pre) (pre +:+ rest) = findall_scan 0 rest.
Proof.
  induction pre as [|c pre IH]; [reflexivity|].
  rewrite append_cons. cbn [String.length findall_scan]. exact IH.
Qed.

(** The lazy group stops at the first closing of a plain name. *)
Lemma lazy_group_name (name rest : string) :
  brace_free name = true -> newline_free name = true ->
  lazy_group (name +:+ "}}" +:+ rest) = Some name.
Proof.
  induction name as [|c name IH]; intros Hb Hn.
  - reflexivity.
  - apply brace_free_cons in Hb as (_ & Hc & Hb).
    cbn [newline_free] in Hn. apply andb_prop in Hn as [Hnl Hn].
    apply negb_true_iff in Hnl.
    rewrite append_cons. cbn [lazy_group].
    replace (Py.startswith "}}" (String c (name +:+ "}}" +:+ rest))) with false.
    + rewrite Hnl, IH by assumption. reflexivity.
    + symmetry. destruct (Py.startswith _ _) eqn:Hs; [|reflexivity].
      apply startswith_cons in Hs as [? _]. congruence.
Qed.

Lemma findall_hole (name rest : string) :
  brace_free name = true -> newline_free name = true ->
  findall_scan 0 (placeholder name +:+ rest) = name :: findall_scan 0 rest.
Proof.
  intros Hb Hn.
  pose proof (findall_skip (String "{" (name +:+ "}}")) rest) as Hskip.
  rewrite placeholder_eq, !append_cons, append_assoc in *.
  cbn [findall_scan]. unfold placeholder_match.
  cbn [Py.startswith Py.drop]. unfold Py.ascii_eqb. rewrite Ascii.eqb_refl.
  cbn [andb]. rewrite lazy_group_name by assumption. f_equal.
  cbn [String.length] in Hskip. rewrite length_append in Hskip.
  cbn [String.length] in Hskip.
  replace (String.length name + 3) with (S (String.length name + 2)) by lia.
  exact Hskip.
Qed.

(** On a plain template the pattern of the validator finds the names of
    the placeholders, in order. *)
Lemma findall_render (ts : list token) :
  plain ts ->
  Forall (fun name => newline_free name = true) (hole_names ts) ->
  findall_placeholders (render ts) = hole_names ts.
Proof.
  unfold findall_placeholders, hole_names.
  induction 1 as [|t ts Ht _ IH]; intros Hn; [reflexivity|].
  cbn [render omap]. destruct t as [text|name]; cbn [render_token token_text] in *.
  - rewrite findall_text by assumption. now apply IH.
  - cbn in Hn. inversion Hn as [|? ? Hname Hrest]; subst.
    rewrite findall_hole by assumption. cbn. f_equal. now apply IH.
Qed.

Lemma brace_free_append (a b : string) :
  brace_free (a +:+ b) = brace_free a && brace_free b.
Proof.
  induction a as [|c a IH]; [reflexivity|].
  rewrite append_cons. cbn [brace_free]. now rewrite IH, andb_assoc.
Qed.

(** X14: a raw command that [validate_task] accepts, written with
    placeholders whose names carry no newline and no blanks around them,
    holds no brace once expanded with brace-free names and values: every
    placeholder has been replaced. *)
Theorem validated_command_expands (task : Task) (ts : list token)
    (var_values : dict string) :
  plain ts ->
  tidy_names ts ->
  Forall (fun kv => brace_free (fst kv) = true /\ brace_free (snd kv) = true)
    var_values ->
  fst (validate_command_task task (render ts) var_values) = true ->
  brace_free (fill_command var_values (render ts)) = true.
Proof.
  intros Hplain Htidy Hvars Hvalid.
  rewrite fill_command_render by assumption.
  unfold validate_command_task in Hvalid.
  assert (Forall (fun name => newline_free name = true) (hole_names ts)) as Hnl
    by (eapply Forall_impl; [exact Htidy | now intros ? []]).
  rewrite (findall_render ts Hplain Hnl) in Hvalid.
  destruct (find _ _) eqn:Hfind; [discriminate|]. clear Hvalid.
  pose proof (find_none _ _ Hfind) as Hbound. clear Hfind Hnl.
  unfold plain, tidy_names, hole_names in *.
  induction Hplain as [|t ts Ht _ IH]; [reflexivity|].
  cbn [map render]. rewrite brace_free_append.
  destruct t as [text|name]; cbn [bind_token render_token token_text omap] in *.
  - rewrite Ht. apply IH; assumption.
  - cbn in Htidy, Hbound. inversion Htidy as [|? ? [_ Hstrip] Hrest]; subst.
    specialize (Hbound name (or_introl eq_refl)) as Hname.
    cbn in Hname. apply negb_false_iff in Hname. rewrite Hstrip in Hname.
    unfold dict_mem in Hname.
    destruct (dict_get var_values name) as [value|] eqn:Hget; [|discriminate].
    cbn [render_token].
    assert (brace_free value = true) as ->.
    { apply (dict_get_Forall (fun value => brace_free value = true) var_values
               name value); [|exact Hget].
      eapply Forall_impl; [exact Hvars | now intros ? []]. }
    apply IH; [assumption|]. intros x Hx. apply Hbound. now right.
Qed.

Lemma validated_command_expands_witness :
  plain Sample.scan_template
  /\ tidy_names Sample.scan_template
  /\ fst (validate_command_task (Sample.command_task (render Sample.scan_template))
            (render Sample.scan_template) Sample.scan_vars) = true
  /\ fill_command Sample.scan_vars (render Sample.scan_template)
     = "-sV 10.0.0.1 -p 80"
  /\ brace_free (fill_command Sample.scan_vars (render Sample.scan_template))
     = true.
Proof.
  assert (plain Sample.scan_template) as Hplain by (repeat constructor).
  assert (tidy_names Sample.scan_template) as Htidy
    by (repeat constructor).
  split; [exact Hplain|]. split; [exact Htidy|].
  split; [vm_compute; reflexivity|]. split; [vm_compute; reflexivity|].
  apply (validated_command_expands
           (Sample.command_task (render Sample.scan_template))
           Sample.scan_template Sample.scan_vars Hplain Htidy).
  - repeat constructor.
  - vm_compute. reflexivity.
Defined.

(** ** The arguments of [flow run] *)

Lemma pair_ind {A} (P : list A -> Prop) :
  P [] -> (forall a, P [a]) -> (forall a b l, P l -> P (a :: b :: l)) ->
  forall l, P l.
Proof.
  intros H0 H1 H2 l.
  assert (P l /\ forall a, P (a :: l)) as [H _]; [|exact H].
  induction l as [|b l [IH1 IH2]]; split; auto.
Qed.

Lemma parse_flow_args_paired (pairs : list (string * string)) (acc : dict string) :
  Forall (fun p => Py.startswith "--" (fst p) = true) pairs ->
  parse_flow_args (paired pairs) acc
  = Parsed (fold_left (fun d p => dict_set d (Py.lstrip_char "-" (fst p)) (snd p))
              pairs acc).
Proof.
  intros Hpairs. revert acc.
  induction Hpairs as [|[f v] pairs Hf _ IH]; intros acc; [reflexivity|].
  cbn [paired flat_map app fst snd parse_flow_args fold_left] in *.
  rewrite Hf. apply IH.
Qed.

Lemma parse_flow_args_inv (args : list string) :
  forall acc user_vars,
    parse_flow_args args acc = Parsed user_vars ->
    exists pairs,
      args = paired pairs
      /\ Forall (fun p => Py.startswith "--" (fst p) = true) pairs.
Proof.
  induction args as [|a|a b args IH] using pair_ind; intros acc user_vars H.
  - exists []. split; [reflexivity | constructor].
  - cbn [parse_flow_args] in H. destruct (Py.startswith "--" a); discriminate.
  - cbn [parse_flow_args] in H.
    destruct (Py.startswith "--" a) eqn:Ha; [|discriminate].
    apply IH in H as (pairs & -> & Hpairs).
    exists ((a, b) :: pairs). split; [reflexivity|]. now constructor.
Qed.

(** X15: the arguments after the flow name are accepted exactly when they
    come two by two, the first of each two starting with [--]; anything
    else ends the command with a message. *)
Theorem parse_flow_args_accepts (args : list string) :
  (exists user_vars, parse_flow_args args [] = Parsed user_vars)
  <-> exists pairs,
        args = paired pairs
        /\ Forall (fun p => Py.startswith "--" (fst p) = true) pairs.
Proof.
  split.
  - intros [user_vars H]. eapply parse_flow_args_inv; eauto.
  - intros (pairs & -> & Hpairs). rewrite parse_flow_args_paired by assumption.
    eauto.
Qed.

Lemma lstrip_char_flag (name : string) :
  Py.startswith "-" name = false -> Py.lstrip_char "-" ("--" +:+ name) = name.
Proof.
  intros Hname. rewrite !append_cons, append_nil_l.
  change (Py.lstrip_char "-" name = name).
  destruct name as [|c r]; [reflexivity|].
  cbn [Py.lstrip_char]. cbn [Py.startswith] in Hname.
  rewrite andb_true_r in Hname. now rewrite Hname.
Qed.

Lemma parse_flow_args_flags (bindings : list (string * string)) (acc : dict string) :
  Forall (fun kv => Py.startswith "-" (fst kv) = false) bindings ->
  parse_flow_args (flag_args bindings) acc
  = Parsed (fold_left (fun d kv => dict_set d (fst kv) (snd kv)) bindings acc).
Proof.
  intros Hb. revert acc.
  induction Hb as [|[n v] bindings Hn _ IH]; intros acc; [reflexivity|].
  cbn [flag_args flat_map app fst snd parse_flow_args fold_left] in *.
  rewrite startswith_append, (lstrip_char_flag n Hn). apply IH.
Qed.

Lemma dict_get_set_same {V} (d : dict V) (k : string) (v : V) :
  dict_get (dict_set d k v) k = Some v.
Proof.
  induction d as [|[k0 w] d IH]; cbn [dict_get dict_set].
  - now rewrite String.eqb_refl.
  - destruct (String.eqb k0 k) eqn:Hk; cbn [dict_get].
    + now rewrite String.eqb_refl.
    + now rewrite Hk.
Qed.

Lemma dict_get_app {V} (d e : dict V) (k : string) :
  dict_get (d ++ e)%list k
  = match dict_get d k with Some v => Some v | None => dict_get e k end.
Proof.
  induction d as [|[k0 w] d IH]; [reflexivity|].
  cbn [app dict_get]. now destruct (String.eqb k0 k).
Qed.

Lemma dict_get_fold_set {V} (bindings : list (string * V)) (acc : dict V)
    (name : string) :
  dict_get (fold_left (fun d kv => dict_set d (fst kv) (snd kv)) bindings acc) name
  = match dict_get (rev bindings) name with
    | Some v => Some v
    | None => dict_get acc name
    end.
Proof.
  revert acc. induction bindings as [|[n v] bindings IH]; intros acc; [reflexivity|].
  cbn [fold_left rev fst snd]. rewrite IH, dict_get_app.
  destruct (dict_get (rev bindings) name); [reflexivity|].
  cbn [dict_get]. destruct (String.eqb_spec n name) as [->|Hne].
  - apply dict_get_set_same.
  - now apply dict_get_set_other.
Qed.

(** X16: arguments written [--name value], with names that do not start
    with a dash, are accepted whatever the values are, and each name is
    bound to the value given for it last. *)
Theorem parse_flow_args_last_wins (bindings : list (string * string)) :
  Forall (fun kv => Py.startswith "-" (fst kv) = false) bindings ->
  exists user_vars,
    parse_flow_args (flag_args bindings) [] = Parsed user_vars
    /\ forall name, dict_get user_vars name = dict_get (rev bindings) name.
Proof.
  intros Hb. rewrite parse_flow_args_flags by assumption.
  eexists. split; [reflexivity|]. intros name.
  rewrite dict_get_fold_set. now destruct (dict_get (rev bindings) name).
Qed.

Lemma parse_flow_args_last_wins_witness :
  Forall (fun kv => Py.startswith "-" (fst kv) = false) Sample.given
  /\ parse_flow_args (flag_args Sample.given) []
     = Parsed [("target", "b.example"); ("ports", "80")]
  /\ exists user_vars,
       parse_flow_args (flag_args Sample.given) [] = Parsed user_vars
       /\ forall name, dict_get user_vars name = dict_get (rev Sample.given) name.
Proof.
  assert (Forall (fun kv => Py.startswith "-" (fst kv) = false) Sample.given)
    as Hgiven by (repeat constructor).
  split; [exact Hgiven|]. split; [reflexivity|].
  exact (parse_flow_args_last_wins Sample.given Hgiven).
Defined.

Lemma dict_set_fresh {V} (d : dict V) (k : string) (v : V) :
  dict_get d k = None -> dict_set d k v = (d ++ [(k, v)])%list.
Proof.
  induction d as [|[k0 w] d IH]; [reflexivity|].
  cbn [dict_get dict_set app]. destruct (String.eqb k0 k); [discriminate|].
  intros H. now rewrite IH.
Qed.

Lemma dict_get_map_fresh {V} (f : string -> V) (l : list string) (k : string) :
  k ∉ l -> dict_get (map (fun n => (n, f n)) l) k = None.
Proof.
  induction l as [|n l IH]; [reflexivity|].
  intros Hk. apply not_elem_of_cons in Hk as [Hne Hk].
  cbn [map dict_get]. destruct (String.eqb_spec n k) as [->|_]; [congruence|].
  now apply IH.
Qed.

Lemma fold_set_fresh {V} (f : string -> V) (rest done : list string) :
  NoDup (done ++ rest) ->
  fold_left (fun d n => dict_set d n (f n)) rest (map (fun n => (n, f n)) done)
  = map (fun n => (n, f n)) (done ++ rest).
Proof.
  revert done. induction rest as [|n rest IH]; intros done Hnd.
  - now rewrite app_nil_r.
  - cbn [fold_left]. rewrite dict_set_fresh.
    + change [(n, f n)] with (map (fun n => (n, f n)) [n]).
      rewrite <- map_app. rewrite IH by now rewrite <- app_assoc.
      now rewrite <- app_assoc.
    + apply dict_get_map_fresh. apply NoDup_app in Hnd as (_ & Hdisj & _).
      intros Hin. apply (Hdisj n Hin). now left.
Qed.

Lemma bind_flow_vars_bound (prompt : string -> string) (flow_vars : list string)
    (user_vars : dict string) :
  NoDup flow_vars ->
  bind_flow_vars prompt flow_vars user_vars = bound_vars prompt flow_vars user_vars.
Proof.
  intros Hnd. unfold bind_flow_vars, bound_vars.
  pose proof (fold_set_fresh
                (fun n => default (prompt (prompt_text n)) (dict_get user_vars n))
                flow_vars [] Hnd) as Hfold.
  cbn [map app] in Hfold. rewrite <- Hfold. clear Hfold.
  generalize (@nil (string * string)).
  induction flow_vars as [|n l IH]; intros acc; [reflexivity|].
  cbn [fold_left]. inversion Hnd; subst.
  rewrite <- IH by assumption.
  now destruct (dict_get user_vars n).
Qed.

(** X17: the variables of a flow are bound in the order in which the flow
    declares them, each to the value given on the command line or else to
    the answer to its prompt; a value given for a name the flow does not
    declare is dropped. *)
Theorem bind_flow_vars_declared (prompt : string -> string)
    (flow_vars : list string) (user_vars : dict string) :
  NoDup flow_vars ->
  bind_flow_vars prompt flow_vars user_vars = bound_vars prompt flow_vars user_vars
  /\ map fst (bind_flow_vars prompt flow_vars user_vars) = flow_vars.
Proof.
  intros Hnd. rewrite bind_flow_vars_bound by assumption.
  split; [reflexivity|]. unfold bound_vars. rewrite map_map. cbn [fst].
  apply map_id.
Qed.

Lemma bind_flow_vars_declared_witness :
  NoDup ["ports"; "rate"]
  /\ bind_flow_vars Sample.sample_prompt ["ports"; "rate"]
       [("target", "b.example"); ("ports", "80")]
     = [("ports", "80"); ("rate", "asked")]
  /\ bind_flow_vars Sample.sample_prompt ["ports"; "rate"]
       [("target", "b.example"); ("ports", "80")]
     = bound_vars Sample.sample_prompt ["ports"; "rate"]
         [("target", "b.example"); ("ports", "80")].
Proof.
  assert (NoDup ["ports"; "rate"]) as Hnd by compute_done.
  split; [exact Hnd|]. split; [reflexivity|].
  exact (proj1 (bind_flow_vars_declared Sample.sample_prompt ["ports"; "rate"]
                  [("target", "b.example"); ("ports", "80")] Hnd)).
Defined.

Lemma split_once_append (c : ascii) (key value : string) :
  Py.contains_char c key = false ->
  Py.split_once c (key +:+ String c value) = Some (key, value).
Proof.
  induction key as [|b key IH]; intros Hkey.
  - rewrite append_nil_l. cbn [Py.split_once].
    unfold Py.ascii_eqb. now rewrite Ascii.eqb_refl.
  - rewrite append_cons. cbn [Py.split_once Py.contains_char] in *.
    apply orb_false_elim in Hkey as [Hb Hkey].
    now rewrite Hb, IH.
Qed.

Lemma parse_headers_texts (headers acc : list (string * string)) :
  Forall header_tidy headers ->
  parse_headers (map header_text headers) acc = Parsed (acc ++ headers)%list.
Proof.
  intros Hh. revert acc.
  induction Hh as [|[key value] headers (Hcolon & Hkey & Hvalue) _ IH]; intros acc.
  - now rewrite app_nil_r.
  - cbn [map parse_headers header_text fst snd] in *.
    unfold header_text at 1. cbn [fst snd].
    rewrite append_cons, append_nil_l, split_once_append by exact Hcolon.
    rewrite Hkey, Hvalue, IH, <- app_assoc. reflexivity.
Qed.

(** X18: headers written [Key:Value], with a key that holds no colon and
    with no blanks around key and value, are read back as the pairs
    (key, value), in order; the value may hold colons. *)
Theorem parse_headers_round_trip (headers : list (string * string)) :
  Forall header_tidy headers ->
  parse_headers (map header_text headers) [] = Parsed headers.
Proof. intros Hh. now rewrite parse_headers_texts. Qed.

Lemma sample_headers_tidy : Forall header_tidy Sample.sample_headers.
Proof. repeat constructor. Qed.

Lemma parse_headers_round_trip_witness :
  Forall header_tidy Sample.sample_headers
  /\ map header_text Sample.sample_headers
     = ["User-Agent:Mozilla/5.0"; "Authorization:Bearer a:b"]
  /\ parse_headers (map header_text Sample.sample_headers) []
     = Parsed Sample.sample_headers.
Proof.
  split; [exact sample_headers_tidy|]. split; [reflexivity|].
  exact (parse_headers_round_trip Sample.sample_headers sample_headers_tidy).
Defined.

(** X19: for a flow that loads, arguments [--name value] and headers
    [Key:Value] that are written as above lead to the validation and the
    run of the flow with the declared variables bound to the value given
    last or to the answer to the prompt, and with the headers as pairs. *)
Theorem flow_run_command_runs (host : Host) (prompt : string -> string)
    (flow_name : string) (flow_def : FlowDef) (flow_vars : list string)
    (bindings headers : list (string * string)) (strip_colors : bool) :
  load_flow host flow_name = Some flow_def ->
  NoDup flow_vars ->
  Forall (fun kv => Py.startswith "-" (fst kv) = false) bindings ->
  Forall header_tidy headers ->
  flow_run_command host prompt flow_name flow_vars (flag_args bindings)
    (map header_text headers) strip_colors
  = Parsed (flow_run host flow_def
              (bound_vars prompt flow_vars (rev bindings)) headers strip_colors).
Proof.
  intros Hload Hnd Hb Hh. unfold flow_run_command.
  rewrite Hload, parse_flow_args_flags, parse_headers_texts by assumption.
  rewrite bind_flow_vars_bound by assumption. cbn [app].
  do 2 f_equal. unfold bound_vars. apply map_ext. intros name.
  rewrite dict_get_fold_set. now destruct (dict_get (rev bindings) name).
Qed.

Lemma flow_run_command_runs_witness :
  load_flow Sample.host "loop" = Some Sample.loop_flow
  /\ flow_run_command Sample.host Sample.sample_prompt "loop" ["ports"; "rate"]
       (flag_args Sample.given) (map header_text Sample.sample_headers) false
     = Parsed (flow_run Sample.host Sample.loop_flow
                 (bound_vars Sample.sample_prompt ["ports"; "rate"]
                    (rev Sample.given))
                 Sample.sample_headers false).
Proof.
  split; [reflexivity|].
  apply (flow_run_command_runs Sample.host Sample.sample_prompt "loop"
           Sample.loop_flow ["ports"; "rate"] Sample.given Sample.sample_headers
           false eq_refl).
  - compute_done.
  - repeat constructor.
  - exact sample_headers_tidy.
Defined.

(** ** [exec_command] *)

Lemma combine_app_extra {A B} (l : list A) (a b : list B) :
  length l <= length a -> combine l (a ++ b) = combine l a.
Proof.
  revert a. induction l as [|x l IH]; intros a Hlen; [reflexivity|].
  destruct a as [|y a]; cbn [length] in Hlen; [lia|].
  cbn [app combine]. rewrite IH by lia. reflexivity.
Qed.

(** X20: once [exec] accepts its arguments, arguments beyond the
    variables the alias declares change nothing: the command line is the
    same. *)
Theorem exec_command_extra_args (host : Host) (alias_name : string)
    (args extra headers : list string) (line : string) :
  exec_command host alias_name args headers = Parsed line ->
  exec_command host alias_name (args ++ extra) headers = Parsed line.
Proof.
  unfold exec_command.
  destruct (Py.split_once ":" alias_name) as [[tool_name alias_key]|];
    [|discriminate].
  destruct (load_tool host tool_name) as [tool_config tool_aliases].
  destruct (tool_aliases !! alias_key) as [alias_def|]; [|discriminate].
  destruct (length args <? length (alias_variables alias_def))%nat eqn:Hlen;
    [discriminate|].
  apply Nat.ltb_ge in Hlen.
  assert ((length (args ++ extra) <? length (alias_variables alias_def))%nat = false)
    as -> by (apply Nat.ltb_ge; rewrite length_app; lia).
  unfold var_map. now rewrite combine_app_extra.
Qed.

Lemma exec_command_extra_args_witness :
  exec_command Sample.host "nmap:scan" ["10.0.0.1"] []
  = Parsed "nmap -sV 10.0.0.1 -p {{ports}}"
  /\ exec_command Sample.host "nmap:scan" (["10.0.0.1"] ++ ["80"; "443"]) []
     = Parsed "nmap -sV 10.0.0.1 -p {{ports}}".
Proof.
  assert (exec_command Sample.host "nmap:scan" ["10.0.0.1"] []
          = Parsed "nmap -sV 10.0.0.1 -p {{ports}}") as Hrun
    by (vm_compute; reflexivity).
  split; [exact Hrun|].
  exact (exec_command_extra_args Sample.host "nmap:scan" ["10.0.0.1"]
           ["80"; "443"] [] _ Hrun).
Defined.

Lemma dict_get_fresh {V} (d : dict V) (k : string) :
  k ∉ map fst d -> dict_get d k = None.
Proof.
  induction d as [|[k0 w] d IH]; [reflexivity|].
  cbn [map fst]. intros Hk. apply not_elem_of_cons in Hk as [Hne Hk].
  cbn [dict_get]. destruct (String.eqb_spec k0 k) as [->|_]; [congruence|].
  now apply IH.
Qed.

Lemma fold_set_pairs {V} (ps acc : dict V) :
  NoDup (map fst (acc ++ ps)) ->
  fold_left (fun d kv => dict_set d (fst kv) (snd kv)) ps acc = (acc ++ ps)%list.
Proof.
  revert acc. induction ps as [|[k v] ps IH]; intros acc Hnd.
  - now rewrite app_nil_r.
  - cbn [fold_left fst snd]. rewrite dict_set_fresh.
    + rewrite IH by now rewrite <- app_assoc.
      now rewrite <- app_assoc.
    + apply dict_get_fresh. rewrite map_app in Hnd.
      apply NoDup_app in Hnd as (_ & Hdisj & _).
      intros Hin. apply (Hdisj k Hin). now left.
Qed.

Lemma map_fst_combine {A B} (l : list A) (a : list B) :
  length l <= length a -> map fst (combine l a) = l.
Proof.
  revert a. induction l as [|x l IH]; intros a Hlen; [reflexivity|].
  destruct a as [|y a]; cbn [length] in Hlen; [lia|].
  cbn [combine map fst]. rewrite IH by lia. reflexivity.
Qed.

Lemma var_map_combine (variables : list VarDef) (args : list string) :
  NoDup (map var_name variables) ->
  length variables <= length args ->
  var_map variables args = combine (map var_name variables) args.
Proof.
  intros Hnd Hlen. unfold var_map.
  transitivity
    (fold_left (fun d kv => dict_set d (fst kv) (snd kv))
       (combine (map var_name variables) args) (@nil (string * string))).
  - clear. generalize (@nil (string * string)). revert args.
    induction variables as [|vd variables IH]; intros args acc; [reflexivity|].
    destruct args as [|a args]; [reflexivity|].
    cbn [map combine fold_left fst snd]. apply IH.
  - rewrite fold_set_pairs; [reflexivity|]. cbn [app].
    rewrite map_fst_combine; [exact Hnd|]. now rewrite length_map.
Qed.

Lemma apply_transforms_none (host : Host) (variables : list VarDef)
    (vars : dict string) :
  Forall (fun var_def => var_transform var_def = None) variables ->
  apply_transforms host variables vars = vars.
Proof.
  unfold apply_transforms. induction 1 as [|vd variables Hvd _ IH]; [reflexivity|].
  cbn [fold_left]. rewrite Hvd.
  destruct (dict_get vars (var_name vd)); exact IH.
Qed.

Lemma fill_template_combine (variables : list VarDef) :
  forall (args : list string) (pre : dict string) (cmd : string),
    NoDup (map var_name variables) ->
    length variables <= length args ->
    (forall var_def, var_def ∈ variables -> dict_get pre (var_name var_def) = None) ->
    fill_template variables (pre ++ combine (map var_name variables) args)%list cmd
    = fill_command (combine (map var_name variables) args) cmd.
Proof.
  unfold fill_template, fill_command.
  induction variables as [|vd variables IH]; intros args pre cmd Hnd Hlen Hpre;
    [reflexivity|].
  destruct args as [|a args]; cbn [length] in Hlen; [lia|].
  cbn [map combine fold_left]. cbn [map] in Hnd. apply NoDup_cons in Hnd as [Hvd Hnd].
  rewrite dict_get_app, (Hpre vd) by now left.
  cbn [dict_get]. rewrite String.eqb_refl.
  specialize (IH args (pre ++ [(var_name vd, a)])%list
                (Py.replace (placeholder (var_name vd)) a cmd) Hnd).
  rewrite <- app_assoc in IH. cbn [app] in IH. apply IH; [lia|].
  intros var_def Hin. rewrite dict_get_app, (Hpre var_def) by now right.
  cbn [dict_get]. destruct (String.eqb_spec (var_name vd) (var_name var_def)) as [He|_];
    [|reflexivity].
  exfalso. apply Hvd. rewrite He. apply list_elem_of_fmap. eauto.
Qed.

Lemma exec_headers_parsed (header_flag : string) (headers : list string) :
  forall (acc parsed_headers : list (string * string)) (cmd : string),
    parse_headers headers acc = Parsed parsed_headers ->
    exists more,
      parsed_headers = (acc ++ more)%list
      /\ length more = length headers
      /\ exec_headers header_flag headers cmd
         = Parsed (fold_left
                     (fun cmd '(key, value) =>
                        cmd +:+ " " +:+ header_flag +:+ " " +:+ dquote
                            +:+ key +:+ ": " +:+ value +:+ dquote)
                     more cmd).
Proof.
  induction headers as [|header headers IH]; intros acc parsed_headers cmd H.
  - injection H as <-. exists []. now rewrite app_nil_r.
  - cbn [parse_headers exec_headers] in *.
    destruct (Py.split_once ":" header) as [[key value]|]; [|discriminate].
    destruct (IH _ _ (cmd +:+ " " +:+ header_flag +:+ " " +:+ dquote
                        +:+ Py.strip key +:+ ": " +:+ Py.strip value +:+ dquote) H)
      as (more & -> & Hlen & ->).
    exists ((Py.strip key, Py.strip value) :: more).
    rewrite <- app_assoc. cbn [app length fold_left]. auto.
Qed.

Lemma fold_headers_prefix (header_flag pre : string)
    (headers : list (string * string)) (cmd : string) :
  fold_left
    (fun cmd '(key, value) =>
       cmd +:+ " " +:+ header_flag +:+ " " +:+ dquote
           +:+ key +:+ ": " +:+ value +:+ dquote)
    headers (pre +:+ cmd)
  = pre +:+ fold_left
              (fun cmd '(key, value) =>
                 cmd +:+ " " +:+ header_flag +:+ " " +:+ dquote
                     +:+ key +:+ ": " +:+ value +:+ dquote)
              headers cmd.
Proof.
  revert cmd. induction headers as [|[key value] headers IH]; intros cmd;
    [reflexivity|].
  cbn [fold_left]. rewrite append_assoc. apply IH.
Qed.

(** X21: [exec] and a flow task build the same command line for an alias
    whose variables have distinct names and no transform: with at least as
    many arguments as variables and headers that [flow run] accepts, the
    line [exec] runs is the line [run_alias_async] builds when the
    variables are bound to the arguments in order. *)
Theorem exec_command_as_flow_alias (host : Host) (tool_name alias_key : string)
    (tool_config : ToolConfig) (tool_aliases : gmap string AliasDef)
    (alias_def : AliasDef) (args headers : list string)
    (parsed_headers : list (string * string)) :
  Py.contains_char ":" tool_name = false ->
  load_tool host tool_name = (tool_config, tool_aliases) ->
  tool_aliases !! alias_key = Some alias_def ->
  Py.truthy_opt (tool_run_command tool_config) = true ->
  NoDup (map var_name (alias_variables alias_def)) ->
  Forall (fun var_def => var_transform var_def = None) (alias_variables alias_def) ->
  length (alias_variables alias_def) <= length args ->
  parse_headers headers [] = Parsed parsed_headers ->
  exec_command host (tool_name +:+ ":" +:+ alias_key) args headers
  = Parsed (alias_command_line host tool_config alias_def parsed_headers
              (combine (map var_name (alias_variables alias_def)) args)).
Proof.
  intros Hcolon Hload Halias Hrun Hnd Hnone Hlen Hheaders.
  unfold exec_command, alias_command_line.
  rewrite append_cons, append_nil_l, split_once_append, Hload, Halias
    by exact Hcolon.
  apply Nat.ltb_ge in Hlen as Hltb. rewrite Hltb.
  rewrite var_map_combine, apply_transforms_none by (assumption || lia).
  pose proof (fill_template_combine (alias_variables alias_def) args [] 
                (default EmptyString (alias_command alias_def)) Hnd Hlen
                (fun _ _ => eq_refl)) as Hfill.
  cbn [app] in Hfill. rewrite Hfill. clear Hfill.
  destruct (tool_run_command tool_config) as [run_command|]; [|discriminate].
  cbn [Py.truthy_opt] in Hrun. cbn [default from_option id fmt_opt]. rewrite Hrun.
  cbn [negb].
  destruct (exec_headers_parsed
              (default EmptyString (tool_header_flag tool_config)) headers []
              parsed_headers
              (fill_command (combine (map var_name (alias_variables alias_def)) args)
                 (default EmptyString (alias_command alias_def))) Hheaders)
    as (more & -> & Hmore & Hexec).
  cbn [app].
  assert (bool_decide (headers = []) = bool_decide (more = [])) as ->.
  { destruct headers, more; try discriminate; reflexivity. }
  destruct (Py.truthy_str _ && negb (bool_decide (more = []))); [|reflexivity].
  rewrite Hexec. f_equal. symmetry.
  rewrite <- append_assoc. rewrite fold_headers_prefix. now rewrite append_assoc.
Qed.

Lemma exec_command_as_flow_alias_witness :
  parse_headers ["Accept: text/html"] [] = Parsed [("Accept", "text/html")]
  /\ exec_command Sample.curl_host "curl:get" ["http://a.example"; "spare"]
       ["Accept: text/html"]
     = Parsed ("curl -s http://a.example -H " +:+ dquote +:+ "Accept: text/html"
                 +:+ dquote)
  /\ exec_command Sample.curl_host ("curl" +:+ ":" +:+ "get")
       ["http://a.example"; "spare"] ["Accept: text/html"]
     = Parsed (alias_command_line Sample.curl_host
                 (fst (Sample.curl_load_tool "curl")) Sample.curl_get
                 [("Accept", "text/html")]
                 (combine (map var_name (alias_variables Sample.curl_get))
                    ["http://a.example"; "spare"])).
Proof.
  split; [reflexivity|]. split; [vm_compute; reflexivity|].
  apply (exec_command_as_flow_alias Sample.curl_host "curl" "get"
           (fst (Sample.curl_load_tool "curl")) (snd (Sample.curl_load_tool "curl"))
           Sample.curl_get ["http://a.example"; "spare"] ["Accept: text/html"]
           [("Accept", "text/html")]).
  - reflexivity.
  - reflexivity.
  - vm_compute. reflexivity.
  - reflexivity.
  - compute_done.
  - repeat constructor.
  - cbn. lia.
  - reflexivity.
Defined.

(** ** The error details *)

Lemma startswith_newline (m s rest : string) :
  newline_free m = true ->
  Py.startswith m (s +:+ String (ascii_of_nat 10) rest) = Py.startswith m s.
Proof.
  revert s. induction m as [|c m IH]; intros s Hm; [reflexivity|].
  cbn [newline_free] in Hm. apply andb_prop in Hm as [Hc Hm].
  apply negb_true_iff in Hc.
  destruct s as [|y s].
  - rewrite append_nil_l. cbn [Py.startswith]. now rewrite Hc.
  - rewrite append_cons. cbn [Py.startswith]. now rewrite IH.
Qed.

Lemma contains_newline (m a rest : string) :
  newline_free m = true ->
  Py.contains m (a +:+ String (ascii_of_nat 10) rest)
  = Py.contains m a || Py.contains m rest.
Proof.
  intros Hm. induction a as [|x a IH].
  - rewrite append_nil_l. cbn [Py.contains].
    rewrite (startswith_newline m EmptyString rest Hm : 
               Py.startswith m (String (ascii_of_nat 10) rest) = _).
    now rewrite orb_false_r.
  - rewrite append_cons. cbn [Py.contains]. rewrite IH.
    rewrite <- append_cons, startswith_newline by exact Hm.
    now rewrite orb_assoc.
Qed.

Lemma startswith_append_r (p s t : string) :
  Py.startswith p s = true -> Py.startswith p (s +:+ t) = true.
Proof.
  revert s. induction p as [|c p IH]; intros s H; [reflexivity|].
  destruct s as [|y s]; [discriminate|].
  rewrite append_cons. cbn [Py.startswith] in *.
  apply andb_prop in H as [-> H]. now rewrite IH.
Qed.

Lemma contains_append_r (m a b : string) :
  Py.contains m a = true -> Py.contains m (a +:+ b) = true.
Proof.
  induction a as [|x a IH]; intros H.
  - cbn [Py.contains] in H. rewrite orb_false_r in H.
    rewrite append_nil_l.
    apply (startswith_append_r m EmptyString b) in H. rewrite append_nil_l in H.
    destruct b; cbn [Py.contains]; now rewrite H.
  - rewrite append_cons. cbn [Py.contains] in *.
    apply orb_prop in H as [H|H].
    + rewrite <- append_cons, (startswith_append_r _ _ b H). reflexivity.
    + rewrite IH by exact H. apply orb_true_r.
Qed.

Lemma contains_append_l (m a b : string) :
  Py.contains m b = true -> Py.contains m (a +:+ b) = true.
Proof.
  intros H. induction a as [|x a IH]; [exact H|].
  rewrite append_cons. cbn [Py.contains]. rewrite IH. apply orb_true_r.
Qed.

Lemma lower_append (a b : string) :
  Py.lower (a +:+ b) = Py.lower a +:+ Py.lower b.
Proof.
  induction a as [|c a IH]; [reflexivity|].
  rewrite append_cons. cbn [Py.lower]. now rewrite IH.
Qed.

Lemma lstrip_suffix (s : string) : exists p, s = p +:+ Py.lstrip s.
Proof.
  induction s as [|c r [p IH]]; [now exists EmptyString|].
  cbn [Py.lstrip]. destruct (Py.isspace c).
  - exists (String c p). rewrite append_cons. now f_equal.
  - now exists EmptyString.
Qed.

Lemma rstrip_prefix (s : string) : exists q, s = Py.rstrip s +:+ q.
Proof.
  induction s as [|c r [q IH]]; [now exists EmptyString|].
  cbn [Py.rstrip]. destruct (Py.rstrip r) as [|d r'].
  - rewrite append_nil_l in IH. subst q. destruct (Py.isspace c).
    + now exists (String c r).
    + now exists r.
  - exists q. rewrite append_cons. now f_equal.
Qed.

Lemma strip_infix (s : string) : exists p q, s = p +:+ Py.strip s +:+ q.
Proof.
  destruct (lstrip_suffix s) as [p Hp].
  destruct (rstrip_prefix (Py.lstrip s)) as [q Hq].
  exists p, q. unfold Py.strip. now rewrite <- Hq.
Qed.

Lemma is_noise_strip (line : string) :
  is_noise line = false -> is_noise (Py.strip line) = false.
Proof.
  intros Hline. destruct (is_noise (Py.strip line)) eqn:Hs; [|reflexivity].
  rewrite <- Hline. symmetry. unfold is_noise in *.
  apply existsb_exists in Hs as (m & Hm & Hc).
  apply existsb_exists. exists m. split; [exact Hm|].
  destruct (strip_infix line) as (p & q & Hpq).
  rewrite Hpq, !lower_append.
  now apply contains_append_l, contains_append_r.
Qed.

Lemma lower_join_newline (x : string) (lines : list string) :
  Py.lower (Py.join newline (x :: lines))
  = Py.join newline (map Py.lower (x :: lines)).
Proof.
  revert x. induction lines as [|y lines IH]; intros x; [reflexivity|].
  cbn [map Py.join] in *. rewrite !lower_append, IH. reflexivity.
Qed.

Lemma contains_join (m x : string) (lines : list string) :
  newline_free m = true ->
  Py.contains m (Py.join newline (x :: lines)) = true ->
  Exists (fun line => Py.contains m line = true) (x :: lines).
Proof.
  intros Hm. revert x. induction lines as [|y lines IH]; intros x H.
  - now left.
  - cbn [Py.join] in H. unfold newline in H at 1.
    rewrite append_cons, append_nil_l, contains_newline in H by exact Hm.
    apply orb_prop in H as [H|H]; [now left | right; now apply IH].
Qed.

Lemma noise_markers_newline_free :
  Forall (fun m => newline_free m = true) noise_markers.
Proof. repeat constructor. Qed.

Lemma is_noise_join (x : string) (lines : list string) :
  Forall (fun line => is_noise line = false) (x :: lines) ->
  is_noise (Py.join newline (x :: lines)) = false.
Proof.
  intros Hlines. destruct (is_noise (Py.join _ _)) eqn:Hj; [|reflexivity].
  exfalso. unfold is_noise in Hj.
  apply existsb_exists in Hj as (m & Hm & Hc).
  rewrite lower_join_newline in Hc. cbn [map] in Hc.
  apply contains_join in Hc.
  - change (Py.lower x :: map Py.lower lines) with (map Py.lower (x :: lines)) in Hc.
    apply Exists_exists in Hc as (l & Hin & Hl).
    apply list_elem_of_In, in_map_iff in Hin as (line & <- & Hin).
    rewrite Forall_forall in Hlines.
    apply list_elem_of_In in Hin. specialize (Hlines line Hin).
    unfold is_noise in Hlines.
    assert (existsb (fun skip => Py.contains skip (Py.lower line)) noise_markers
            = true) as Htrue by (apply existsb_exists; eauto).
    congruence.
  - pose proof noise_markers_newline_free as Hnl.
    rewrite Forall_forall in Hnl. apply Hnl. now apply list_elem_of_In.
Qed.

Lemma cleaned_error_lines_quiet (stderr : string) :
  Forall (fun line => is_noise line = false) (cleaned_error_lines stderr).
Proof.
  unfold cleaned_error_lines. apply Forall_forall. intros l Hin.
  apply list_elem_of_In, in_map_iff in Hin as (line & <- & Hin).
  apply filter_In in Hin as [_ Hkeep].
  apply andb_prop in Hkeep as [_ Hq]. apply negb_true_iff in Hq.
  now apply is_noise_strip.
Qed.

(** X22: the details printed for a failed command are never empty and
    never hold one of the noise markers, in whatever letter case: neither
    within a line nor across the lines that are kept. *)
Theorem error_msg_quiet (stderr : string) :
  error_msg stderr <> EmptyString /\ is_noise (error_msg stderr) = false.
Proof.
  unfold error_msg. destruct (Py.truthy_str (cleaned_stderr stderr)) eqn:Ht.
  - split; [intros He; now rewrite He in Ht|].
    unfold cleaned_stderr in *. destruct (Py.truthy_str stderr); [|discriminate].
    pose proof (cleaned_error_lines_quiet stderr) as Hq.
    destruct (cleaned_error_lines stderr) as [|x lines]; [discriminate|].
    now apply is_noise_join.
  - split; [discriminate | reflexivity].
Qed.

(** ** [summarize_output] *)

Lemma join_nonempty (sep x : string) (l : list string) :
  x <> EmptyString -> Py.join sep (x :: l) <> EmptyString.
Proof.
  intros Hx. destruct l as [|y l]; cbn [Py.join]; [exact Hx|].
  destruct x as [|c x]; [congruence|]. rewrite append_cons. discriminate.
Qed.

(** X23: a summary is never empty; the full output of a task is shown as
    the empty text exactly when the output holds blanks only. *)
Theorem summarize_output_empty (output tool_name : string) (show_full : bool) :
  summarize_output output tool_name show_full = EmptyString
  <-> show_full = true /\ output <> EmptyString /\ Py.strip output = EmptyString.
Proof.
  unfold summarize_output. destruct output as [|c r].
  - cbn [Py.truthy_str negb]. split; [discriminate | now intros (_ & ? & _)].
  - cbn [Py.truthy_str negb]. destruct show_full.
    + split; [intros H; repeat split; [discriminate | exact H] | now intros (_ & _ & H)].
    + split; [|now intros [? _]]. intros H. exfalso.
      repeat match type of H with
             | (if ?b then _ else _) = _ =>
                 lazymatch type of b with bool => destruct b end
             end;
        try (rewrite append_cons in H; discriminate H).
      destruct (List.filter _ _) as [|x l] eqn:Hf; [discriminate|].
      revert H. apply join_nonempty.
      assert (In x (List.filter (fun line => Py.startswith "[+]" line)
                      (Py.split (ascii_of_nat 10) (Py.strip (String c r)))))
        as Hin by (rewrite Hf; now left).
      apply filter_In in Hin as [_ Hx]. intros ->. discriminate.
Qed.

(** ** The two front ends *)

Lemma parse_unknown_loop_paired (pairs : list (string * string))
    (acc : dict (option string)) :
  Forall (fun p => Py.startswith "--" (fst p) = true
                   /\ Py.startswith "--" (snd p) = false) pairs ->
  ClickManager.parse_unknown_loop (paired pairs) acc
  = fold_left (fun d p => dict_set d (Py.lstrip_char "-" (fst p)) (Some (snd p)))
      pairs acc.
Proof.
  intros Hpairs. revert acc.
  induction Hpairs as [|[f v] pairs [Hf Hv] _ IH]; intros acc; [reflexivity|].
  cbn [paired flat_map app fst snd ClickManager.parse_unknown_loop fold_left] in *.
  rewrite Hf, Hv. cbn [negb]. apply IH.
Qed.

Lemma dict_set_map {V W} (g : V -> W) (d : dict V) (k : string) (v : V) :
  map (fun kv => (fst kv, g (snd kv))) (dict_set d k v)
  = dict_set (map (fun kv => (fst kv, g (snd kv))) d) k (g v).
Proof.
  induction d as [|[k0 w] d IH]; [reflexivity|].
  cbn [dict_set map fst snd]. destruct (String.eqb k0 k); [reflexivity|].
  cbn [map fst snd]. now rewrite IH.
Qed.

Lemma dict_get_map {V W} (g : V -> W) (d : dict V) (k : string) :
  dict_get (map (fun kv => (fst kv, g (snd kv))) d) k = g <$> dict_get d k.
Proof.
  induction d as [|[k0 w] d IH]; [reflexivity|].
  cbn [map dict_get fst snd]. now destruct (String.eqb k0 k).
Qed.

Lemma fold_set_map {V W} (g : V -> W) (pairs : list (string * V))
    (name : string * V -> string) (acc : dict V) :
  fold_left (fun d p => dict_set d (name p) (g (snd p))) pairs
    (map (fun kv => (fst kv, g (snd kv))) acc)
  = map (fun kv => (fst kv, g (snd kv)))
      (fold_left (fun d p => dict_set d (name p) (snd p)) pairs acc).
Proof.
  revert acc. induction pairs as [|p pairs IH]; intros acc; [reflexivity|].
  cbn [fold_left]. now rewrite <- dict_set_map, IH.
Qed.

Lemma parse_unknown_args_paired (pairs : list (string * string)) :
  Forall (fun p => Py.startswith "--" (fst p) = true
                   /\ Py.startswith "--" (snd p) = false) pairs ->
  ClickManager.parse_unknown_args (paired pairs)
  = map (fun kv => (fst kv, Some (snd kv)))
      (fold_left (fun d p => dict_set d (Py.lstrip_char "-" (fst p)) (snd p))
         pairs []).
Proof.
  intros Hpairs. unfold ClickManager.parse_unknown_args.
  rewrite parse_unknown_loop_paired by assumption.
  now rewrite <- (fold_set_map Some pairs (fun p => Py.lstrip_char "-" (fst p)) []).
Qed.

(** X24: on arguments that come two by two, a [--name] and a value that
    does not start with [--], the parser of [click_manager.py] and the
    parser of [flow_run_command] read the same bindings. *)
Theorem parse_unknown_args_agrees (pairs : list (string * string)) :
  Forall (fun p => Py.startswith "--" (fst p) = true
                   /\ Py.startswith "--" (snd p) = false) pairs ->
  exists user_vars,
    parse_flow_args (paired pairs) [] = Parsed user_vars
    /\ ClickManager.parse_unknown_args (paired pairs)
       = map (fun kv => (fst kv, Some (snd kv))) user_vars.
Proof.
  intros Hpairs. rewrite parse_unknown_args_paired by assumption.
  rewrite parse_flow_args_paired; [eauto|].
  eapply Forall_impl; [exact Hpairs | now intros ? []].
Qed.

Lemma parse_unknown_args_agrees_witness :
  paired [("--target", "a.example"); ("---ports", "80")]
  = ["--target"; "a.example"; "---ports"; "80"]
  /\ exists user_vars,
       parse_flow_args (paired [("--target", "a.example"); ("---ports", "80")]) []
       = Parsed user_vars
       /\ ClickManager.parse_unknown_args
            (paired [("--target", "a.example"); ("---ports", "80")])
          = map (fun kv => (fst kv, Some (snd kv))) user_vars.
Proof.
  split; [reflexivity|].
  apply (parse_unknown_args_agrees [("--target", "a.example"); ("---ports", "80")]).
  repeat constructor.
Defined.

Lemma dict_set_Forall {V} (P : string * V -> Prop) (d : dict V) (k : string)
    (v : V) :
  Forall P d -> P (k, v) -> Forall P (dict_set d k v).
Proof.
  intros Hd Hkv. induction Hd as [|[k0 w] d Hw Hd IH]; cbn [dict_set].
  - now constructor.
  - destruct (String.eqb k0 k); constructor; auto.
Qed.

Lemma dict_set_keys_elem {V} (d : dict V) (k n : string) (v : V) :
  n ∈ map fst (dict_set d k v) <-> n = k \/ n ∈ map fst d.
Proof.
  induction d as [|[k0 w] d IH]; cbn [dict_set map fst].
  - rewrite list_elem_of_singleton, elem_of_nil. tauto.
  - destruct (String.eqb_spec k0 k) as [->|Hne]; cbn [map fst].
    + rewrite !elem_of_cons. tauto.
    + rewrite !elem_of_cons, IH. tauto.
Qed.

(** X25: when the user answers no prompt with the empty text,
    [validate_unknown_args] binds exactly the extracted variables and
    binds none of them to the empty text: a value that is missing, [None]
    or empty is asked for. *)
Theorem validate_unknown_args_filled (prompt : string -> string)
    (extracted_vars : list string) (unknown_args : dict (option string)) :
  (forall text, prompt text <> EmptyString) ->
  Forall (fun kv => snd kv <> EmptyString)
    (ClickManager.validate_unknown_args prompt extracted_vars unknown_args)
  /\ forall name,
       name ∈ map fst
                (ClickManager.validate_unknown_args prompt extracted_vars
                   unknown_args)
       <-> name ∈ extracted_vars.
Proof.
  intros Hprompt. unfold ClickManager.validate_unknown_args.
  assert (forall acc : dict string,
            Forall (fun kv => snd kv <> EmptyString) acc ->
            Forall (fun kv => snd kv <> EmptyString)
              (fold_left
                 (fun flow_args var_name =>
                    match dict_get unknown_args var_name with
                    | Some (Some value) =>
                        if Py.truthy_str value
                        then dict_set flow_args var_name value
                        else dict_set flow_args var_name
                               (prompt (prompt_text var_name))
                    | _ => dict_set flow_args var_name
                             (prompt (prompt_text var_name))
                    end) extracted_vars acc)
            /\ forall name,
                 name ∈ map fst
                          (fold_left
                             (fun flow_args var_name =>
                                match dict_get unknown_args var_name with
                                | Some (Some value) =>
                                    if Py.truthy_str value
                                    then dict_set flow_args var_name value
                                    else dict_set flow_args var_name
                                           (prompt (prompt_text var_name))
                                | _ => dict_set flow_args var_name
                                         (prompt (prompt_text var_name))
                                end) extracted_vars acc)
                 <-> name ∈ extracted_vars \/ name ∈ map fst acc) as Hloop.
  { induction extracted_vars as [|n l IH]; intros acc Hacc.
    - cbn [fold_left]. split; [exact Hacc|]. intros name.
      rewrite elem_of_nil. tauto.
    - cbn [fold_left].
      assert (exists v, v <> EmptyString
                /\ match dict_get unknown_args n with
                   | Some (Some value) =>
                       if Py.truthy_str value
                       then dict_set acc n value
                       else dict_set acc n (prompt (prompt_text n))
                   | _ => dict_set acc n (prompt (prompt_text n))
                   end = dict_set acc n v) as (v & Hv & ->).
      { destruct (dict_get unknown_args n) as [[value|]|]; eauto.
        destruct value; cbn [Py.truthy_str]; eauto.
        eexists; split; [|reflexivity]. discriminate. }
      destruct (IH (dict_set acc n v)) as [Hvals Hkeys].
      { now apply dict_set_Forall. }
      split; [exact Hvals|]. intros name. rewrite Hkeys, dict_set_keys_elem.
      rewrite elem_of_cons. tauto. }
  destruct (Hloop []) as [Hvals Hkeys]; [constructor|].
  split; [exact Hvals|]. intros name. rewrite Hkeys. cbn [map].
  rewrite elem_of_nil. tauto.
Qed.

Lemma validate_unknown_args_filled_witness :
  (forall text, Sample.sample_prompt text <> EmptyString)
  /\ ClickManager.validate_unknown_args Sample.sample_prompt ["target"; "ports"; "rate"]
       [("target", Some "a.example"); ("ports", Some EmptyString); ("rate", None)]
     = [("target", "a.example"); ("ports", "asked"); ("rate", "asked")]
  /\ Forall (fun kv => snd kv <> EmptyString)
       (ClickManager.validate_unknown_args Sample.sample_prompt
          ["target"; "ports"; "rate"]
          [("target", Some "a.example"); ("ports", Some EmptyString); ("rate", None)]).
Proof.
  assert (forall text, Sample.sample_prompt text <> EmptyString) as Hprompt
    by (intros text; discriminate).
  split; [exact Hprompt|]. split; [reflexivity|].
  exact (proj1 (validate_unknown_args_filled Sample.sample_prompt
                  ["target"; "ports"; "rate"]
                  [("target", Some "a.example"); ("ports", Some EmptyString);
                   ("rate", None)] Hprompt)).
Defined.

(** X26: on arguments that come two by two, a [--name] and a non-empty
    value that does not start with [--], the two front ends bind the
    variables of a flow alike: what [validate_unknown_args] makes of
    [parse_unknown_args] is what [flow_run_command] binds. *)
Theorem front_ends_agree (prompt : string -> string) (flow_vars : list string)
    (pairs : list (string * string)) :
  Forall (fun p => Py.startswith "--" (fst p) = true
                   /\ Py.startswith "--" (snd p) = false
                   /\ snd p <> EmptyString) pairs ->
  exists user_vars,
    parse_flow_args (paired pairs) [] = Parsed user_vars
    /\ ClickManager.validate_unknown_args prompt flow_vars
         (ClickManager.parse_unknown_args (paired pairs))
       = bind_flow_vars prompt flow_vars user_vars.
Proof.
  intros Hpairs.
  rewrite parse_unknown_args_paired
    by (eapply Forall_impl; [exact Hpairs | now intros ? (? & ? & _)]).
  rewrite parse_flow_args_paired
    by (eapply Forall_impl; [exact Hpairs | now intros ? (? & _)]).
  eexists. split; [reflexivity|].
  assert (Forall (fun kv : string * string => snd kv <> EmptyString)
            (fold_left (fun d p => dict_set d (Py.lstrip_char "-" (fst p)) (snd p))
               pairs [])) as Hvals.
  { assert (Forall (fun kv : string * string => snd kv <> EmptyString) [])
      as Hnil by constructor.
    revert Hnil. generalize (@nil (string * string)).
    induction Hpairs as [|p pairs (_ & _ & Hp) _ IH]; intros acc Hacc; [exact Hacc|].
    cbn [fold_left]. apply IH. now apply dict_set_Forall. }
  revert Hvals.
  generalize (fold_left (fun d p => dict_set d (Py.lstrip_char "-" (fst p)) (snd p))
                pairs []).
  intros user_vars Hvals.
  unfold ClickManager.validate_unknown_args, bind_flow_vars.
  generalize (@nil (string * string)).
  induction flow_vars as [|n l IH]; intros acc; [reflexivity|].
  cbn [fold_left]. rewrite dict_get_map.
  destruct (dict_get user_vars n) as [value|] eqn:Hget; cbn [fmap option_fmap option_map].
  - assert (value <> EmptyString) as Hvalue
      by (exact (dict_get_Forall (fun v => v <> EmptyString) user_vars n value
                   Hvals Hget)).
    destruct value; [congruence|]. cbn [Py.truthy_str]. apply IH.
  - apply IH.
Qed.

Lemma front_ends_agree_witness :
  exists user_vars,
    parse_flow_args (paired [("--target", "a.example"); ("--ports", "80")]) []
    = Parsed user_vars
    /\ ClickManager.validate_unknown_args Sample.sample_prompt ["ports"; "rate"]
         (ClickManager.parse_unknown_args
            (paired [("--target", "a.example"); ("--ports", "80")]))
       = bind_flow_vars Sample.sample_prompt ["ports"; "rate"] user_vars.
Proof.
  apply (front_ends_agree Sample.sample_prompt ["ports"; "rate"]
           [("--target", "a.example"); ("--ports", "80")]).
  repeat constructor; discriminate.
Defined.

(** ** The listings *)

Lemma startswith_prefix (p s : string) :
  Py.startswith p s = true -> exists rest, s = p +:+ rest.
Proof.
  revert s. induction p as [|c p IH]; intros s H; [now exists s|].
  destruct s as [|y s]; [discriminate|].
  apply startswith_cons in H as [-> H]. destruct (IH s H) as [rest ->].
  now exists rest.
Qed.

Lemma contains_startswith (m s : string) :
  Py.startswith m s = true -> Py.contains m s = true.
Proof. intros H. destruct s; cbn [Py.contains]; now rewrite H. Qed.

Lemma contains_infix (m s : string) :
  Py.contains m s = true <-> exists a b, s = a +:+ m +:+ b.
Proof.
  split.
  - induction s as [|c r IH]; cbn [Py.contains]; intros H.
    + rewrite orb_false_r in H. apply startswith_prefix in H as [rest ->].
      now exists EmptyString, rest.
    + apply orb_prop in H as [H|H].
      * apply startswith_prefix in H as [rest ->]. now exists EmptyString, rest.
      * destruct (IH H) as (a & b & ->). now exists (String c a), b.
  - intros (a & b & ->).
    apply contains_append_l, contains_startswith, startswith_append.
Qed.

(** X27: under [--tag] a tool or a flow is listed exactly when one of its
    tags holds the text of the option somewhere inside, letter case aside;
    without the option, or with the empty text, everything is listed. *)
Theorem tag_listed_substring (tag : option string) (tags : list string) :
  tag_listed tag tags = true
  <-> Py.truthy_opt tag = false
      \/ exists t a b,
           t ∈ tags
           /\ Py.lower t = a +:+ Py.lower (default EmptyString tag) +:+ b.
Proof.
  unfold tag_listed. destruct tag as [text|]; cbn [Py.truthy_opt];
    [|split; auto].
  destruct (Py.truthy_str text); [|split; auto].
  cbn [default from_option id]. split.
  - intros H. right. apply existsb_exists in H as (t & Hin & Hc).
    apply contains_infix in Hc as (a & b & Hab).
    exists t, a, b. split; [now apply list_elem_of_In | exact Hab].
  - intros [H|(t & a & b & Hin & Hab)]; [discriminate|].
    apply existsb_exists. exists t. split; [now apply list_elem_of_In|].
    apply contains_infix. eauto.
Qed.



